(** * CodeKanban: the npm multi-package build, the launcher it generates,
    and the publish script

    A shallow embedding of [build-npm-multipackage.py], [build.py] and
    [publish-all-packages.py].  Python strings are byte strings here (their
    UTF-8 encoding); the characters the scripts inspect are all ASCII and never
    occur inside a multi-byte sequence.  The scripts' [print] calls are left
    out; everything else they do to the outside world is an [event].  Calls
    into the file system (mkdir, rmtree, touch, open and write) are taken to
    succeed; what a script reads from the machine it runs on (which paths
    exist, what a child process returns, the environment) is a field of its
    [world]. *)

From Stdlib Require Import ZArith Ascii.
From Stdlib Require String.
From stdpp Require Import gmap strings list fin_maps.

Local Open Scope Z_scope.

(** ** Strings *)

(** [str.startswith] *)
Definition startswith (s p : string) : bool := String.prefix p s.

(** [sep.join(parts)] *)
Definition join (sep : string) (parts : list string) : string :=
  String.concat sep parts.

(** Truth value of a Python [str]. *)
Definition truthy (s : string) : bool := negb (String.eqb s "").

(** ** Outcomes of a Python evaluation *)

Inductive outcome (A : Type) : Type :=
  | Ok (a : A)       (* the evaluation returns [a] *)
  | Raises           (* an exception propagates *)
  | Unmodelled.      (* a format string that uses conversions, format
                        specifications, attribute or index access *)
Arguments Ok {A} a.
Arguments Raises {A}.
Arguments Unmodelled {A}.

Definition obind {A B} (o : outcome A) (k : A → outcome B) : outcome B :=
  match o with
  | Ok a => k a
  | Raises => Raises
  | Unmodelled => Unmodelled
  end.

Definition outcome_map {A B} (f : A → B) (o : outcome A) : outcome B :=
  obind o (λ a, Ok (f a)).

#[export] Instance outcome_ret : MRet outcome := @Ok.
#[export] Instance outcome_bind : MBind outcome := λ A B k o, obind o k.

(** A list comprehension whose element expression may raise. *)
Fixpoint comprehension {A B} (f : A → outcome B) (l : list A) : outcome (list B) :=
  match l with
  | [] => Ok []
  | a :: l' => obind (f a) (λ b, outcome_map (cons b) (comprehension f l'))
  end.

(** ** [str.format]

    The scripts build a template with an f-string, pasting the package name
    in front of the literal text [{platform}], and then call
    [template.format(platform=key)].  [str.format] scans the whole template:
    [{{] and [}}] stand for one brace, a lone [}] is an error, and [{name}] is
    replaced by the keyword argument [name].  No positional argument is ever
    passed, so an empty or numeric field name raises. *)

Module Format.

Inductive mode :=
  | InLiteral
  | InField (name : string).

Definition is_digit (c : ascii) : bool :=
  match Ascii.is_nat c with Some _ => true | None => false end.

Fixpoint all_digits (s : string) : bool :=
  match s with
  | "" => true
  | String c s' => is_digit c && all_digits s'
  end.

(** The value a finished field [{name}] stands for. *)
Definition field_value (kwargs : gmap string string) (name : string) : outcome string :=
  if all_digits name then Raises          (* IndexError, no positional args *)
  else match kwargs !! name with
       | Some v => Ok v
       | None => Raises                   (* KeyError *)
       end.

(** Characters that start the parts of a field this model leaves out. *)
Definition leaves_model (c : ascii) : bool :=
  bool_decide (c ∈ ["."; "["; "!"; ":"]%char).

Definition emit (c : ascii) (r : outcome string) : outcome string :=
  outcome_map (String c) r.

Fixpoint scan (kwargs : gmap string string) (m : mode) (t : string)
    : outcome string :=
  match t with
  | "" =>
      match m with
      | InLiteral => Ok ""
      | InField _ => Raises             (* expected '}' before end of string *)
      end
  | String c t' =>
      match m with
      | InLiteral =>
          if decide (c = "{"%char) then
            match t' with
            | "" => Raises              (* Single '{' encountered *)
            | String d t'' =>
                if decide (d = "{"%char) then emit "{" (scan kwargs InLiteral t'')
                else scan kwargs (InField "") t'
            end
          else if decide (c = "}"%char) then
            match t' with
            | "" => Raises              (* Single '}' encountered *)
            | String d t'' =>
                if decide (d = "}"%char) then emit "}" (scan kwargs InLiteral t'')
                else Raises
            end
          else emit c (scan kwargs InLiteral t')
      | InField name =>
          if decide (c = "}"%char) then
            obind (field_value kwargs name) (λ v,
              outcome_map (String.app v) (scan kwargs InLiteral t'))
          else if decide (c = "{"%char) then Raises   (* unexpected '{' in field name *)
          else if leaves_model c then Unmodelled
          else scan kwargs (InField (name +:+ String c "")) t'
      end
  end.

(** [template.format( **kwargs )] *)
Definition format (template : string) (kwargs : gmap string string) : outcome string :=
  scan kwargs InLiteral template.

Fixpoint brace_free (s : string) : bool :=
  match s with
  | "" => true
  | String c s' =>
      negb (bool_decide (c = "{"%char)) && negb (bool_decide (c = "}"%char))
      && brace_free s'
  end.

End Format.


(** ** The build script, [build-npm-multipackage.py] *)

Module Build.

(** Paths are kept relative to [root_dir], one component per element. *)
Definition path := list string.

Definition path_div (p : path) (name : string) : path := p ++ [name].
Infix "</>" := path_div (at level 40, left associativity).

Definition root_dir : path := [].
Definition ui_dir : path := root_dir </> "ui".
Definition dist_dir : path := ui_dir </> "dist".
Definition static_dir : path := root_dir </> "static".
Definition npm_packages_dir : path := root_dir </> "npm-packages".

(** The platform package manifest written by [create_platform_packages]. *)
Record platform_json := {
  pj_name : string;
  pj_version : string;
  pj_description : string;
  pj_os : list string;
  pj_cpu : list string;
  pj_homepage : string;
  pj_repository : list (string * string);
  pj_author : string;
  pj_license : string
}.

(** The main package manifest written by [create_main_package]. *)
Record main_json := {
  mj_name : string;
  mj_version : string;
  mj_description : string;
  mj_bin : list (string * string);
  mj_optionalDependencies : gmap string string;
  mj_keywords : list string;
  mj_author : string;
  mj_license : string;
  mj_repository : list (string * string);
  mj_homepage : string;
  mj_engines : list (string * string)
}.

(** The launcher source is a fixed JavaScript text with two holes: the body
    of the [PLATFORMS] object literal and the main package name. *)
Record launcher_script := {
  ls_platforms_mapping : string;
  ls_base_name : string
}.

(** Python dictionaries are objects: a variable holds a reference, and an
    item assignment changes the object for every holder of the reference. *)
Definition ref := nat.
Definition os_environ : ref := 0%nat.

Inductive event :=
  | Rmtree (p : path)
  | Mkdir (p : path)
  | RunCommand (cmd : list string) (cwd : path) (shell : bool)
  | CleanStaticDir (p : path)
  | CopyDistToStatic (src dst : path)
  | GoBuild (cmd : list string) (cwd : path) (env_ref : ref)
      (env : gmap string string)
  | Touch (p : path)
  | DumpPlatformJson (p : path) (j : platform_json)
  | WriteLauncher (p : path) (l : launcher_script)
  | DumpMainJson (p : path) (j : main_json).

Record state := {
  dicts : gmap ref (gmap string string);
  next_ref : ref;
  log : list event
}.

(** What the script observes of the machine it runs on. *)
Record world := {
  npm_packages_dir_exists : bool;
  ui_dir_exists : bool;
  is_windows : bool;                       (* sys.platform.startswith('win') *)
  pnpm_build : Z;                          (* return code of the frontend build *)
  dist_dir_exists : bool;
  str_of_path : path → string;             (* str(output_path) *)
  go_build : list string → gmap string string → Z;
                                           (* return code of one toolchain run *)
  st_size : path → option Z                (* None: the path does not exist *)
}.

(** *** State and exceptions *)

Definition M (A : Type) : Type := state → outcome A * state.

#[export] Instance M_ret : MRet M := λ A a s, (Ok a, s).

#[export] Instance M_bind : MBind M := λ A B k m s,
  match m s with
  | (Ok a, s') => k a s'
  | (Raises, s') => (Raises, s')
  | (Unmodelled, s') => (Unmodelled, s')
  end.

Definition lift {A} (o : outcome A) : M A := λ s, (o, s).

Definition record (e : event) : M unit := λ s,
  (Ok tt, {| dicts := dicts s; next_ref := next_ref s; log := log s ++ [e] |}).

(** [d.copy()]: a new object with the items of [d]. *)
Definition dict_copy (d : ref) : M ref := λ s,
  (Ok (next_ref s),
   {| dicts := <[next_ref s := dicts s !!! d]> (dicts s);
      next_ref := S (next_ref s);
      log := log s |}).

(** [d[k] = v] *)
Definition dict_setitem (d : ref) (k v : string) : M unit := λ s,
  (Ok tt,
   {| dicts := alter (insert k v) d (dicts s);
      next_ref := next_ref s;
      log := log s |}).

(** [subprocess.run(cmd, cwd=cwd, env=env)] for the toolchain: the child
    gets the items the dictionary holds at this moment. *)
Definition subprocess_run_go (w : world) (cmd : list string) (cwd : path)
    (env : ref) : M Z := λ s,
  let items := dicts s !!! env in
  (Ok (go_build w cmd items),
   {| dicts := dicts s; next_ref := next_ref s;
      log := log s ++ [GoBuild cmd cwd env items] |}).

(** *** [build_go_multiplatform] *)

Definition go_platforms : list (string * string * string * string) :=
  [ ("linux", "amd64", "linux", "x64");
    ("linux", "arm64", "linux", "arm64");
    ("darwin", "amd64", "darwin", "x64");
    ("darwin", "arm64", "darwin", "arm64");
    ("windows", "amd64", "win32", "x64") ].

Definition ldflags_parts (version_main version_prerelease
    version_build_metadata app_channel : string) : list string :=
  let parts := ["-s"; "-w"] in
  let parts :=
    if truthy version_main
    then parts ++ ["-X 'main.VERSION_MAIN=" +:+ version_main +:+ "'"]
    else parts in
  let parts :=
    parts ++ ["-X 'main.VERSION_PRERELEASE=" +:+ version_prerelease +:+ "'"] in
  let parts :=
    if truthy version_build_metadata
    then parts ++ ["-X 'main.VERSION_BUILD_METADATA=" +:+ version_build_metadata +:+ "'"]
    else parts in
  let parts :=
    if truthy app_channel
    then parts ++ ["-X 'main.APP_CHANNEL=" +:+ app_channel +:+ "'"]
    else parts in
  parts.

Definition output_name (goos : string) : string :=
  if String.eqb goos "windows" then "codekanban" +:+ ".exe" else "codekanban".

Definition build_cmd (w : world) (ldflags : string) (output_path : path)
    : list string :=
  ["go"; "build"; "-ldflags=" +:+ ldflags; "-trimpath";
   "-o"; str_of_path w output_path; "."].

(** The body of the loop over the targets, with the two running totals. *)
Fixpoint build_targets (w : world) (ldflags : string)
    (platforms : list (string * string * string * string))
    (success_count : nat) (total_size : Z) : M Z :=
  match platforms with
  | [] => mret 0
  | (goos, goarch, npm_os, npm_arch) :: rest =>
      let platform_package_dir :=
        npm_packages_dir </> (npm_os +:+ "-" +:+ npm_arch) in
      record (Mkdir platform_package_dir) ;;
      let output_path := platform_package_dir </> output_name goos in
      env ← dict_copy os_environ;
      dict_setitem env "GOOS" goos ;;
      dict_setitem env "GOARCH" goarch ;;
      dict_setitem env "CGO_ENABLED" "0" ;;
      returncode ← subprocess_run_go w (build_cmd w ldflags output_path) root_dir env;
      if decide (returncode ≠ 0) then mret returncode
      else
        match st_size w output_path with
        | Some size =>
            build_targets w ldflags rest (S success_count) (total_size + size)
        | None => build_targets w ldflags rest success_count total_size
        end
  end.

Definition build_go_multiplatform (w : world) (version_main version_prerelease
    version_build_metadata app_channel : string) : M Z :=
  let ldflags := join " " (ldflags_parts version_main version_prerelease
                             version_build_metadata app_channel) in
  build_targets w ldflags go_platforms 0%nat 0.

(** *** The naming rule, as [create_platform_packages] writes it *)

Definition package_platforms : list (string * string) :=
  [ ("win32", "x64"); ("darwin", "x64"); ("darwin", "arm64");
    ("linux", "x64"); ("linux", "arm64") ].

Definition platform_name_template (base_name : string) : string :=
  if startswith base_name "@"
  then base_name +:+ "-{platform}"
  else "@" +:+ base_name +:+ "/{platform}".

Definition platform_package_json (version base_name npm_os npm_arch : string)
    : outcome platform_json :=
  let platform_name_template := platform_name_template base_name in
  let platform_key := npm_os +:+ "-" +:+ npm_arch in
  name ← Format.format platform_name_template {["platform" := platform_key]};
  Ok {| pj_name := name;
        pj_version := version;
        pj_description :=
          "Platform-specific binary for " +:+ npm_os +:+ "-" +:+ npm_arch
          +:+ ". Install 'codekanban' instead: https://www.npmjs.com/package/codekanban";
        pj_os := [npm_os];
        pj_cpu := [npm_arch];
        pj_homepage := "https://www.npmjs.com/package/codekanban";
        pj_repository :=
          [("type", "git"); ("url", "https://github.com/fy0/CodeKanban")];
        pj_author := "fy0";
        pj_license := "Apache-2.0" |}.

Fixpoint platform_packages_loop (version base_name : string)
    (platforms : list (string * string)) : M Z :=
  match platforms with
  | [] => mret 0
  | (npm_os, npm_arch) :: rest =>
      let platform_dir := npm_packages_dir </> (npm_os +:+ "-" +:+ npm_arch) in
      record (Touch (platform_dir </> ".npm-global")) ;;
      package_json ← lift (platform_package_json version base_name npm_os npm_arch);
      record (DumpPlatformJson (platform_dir </> "package.json") package_json) ;;
      platform_packages_loop version base_name rest
  end.

Definition create_platform_packages (version base_name : string) : M Z :=
  platform_packages_loop version base_name package_platforms.

(** *** [create_main_package], which repeats the naming rule *)

Definition main_platforms : list string :=
  ["win32-x64"; "darwin-x64"; "darwin-arm64"; "linux-x64"; "linux-arm64"].

Definition main_platform_name_template (base_name : string) : string :=
  if startswith base_name "@"
  then base_name +:+ "-{platform}"
  else "@" +:+ base_name +:+ "/{platform}".

(** The entries of the launcher's [PLATFORMS] literal, key and value. *)
Definition platforms_table (base_name : string) : outcome (list (string * string)) :=
  let platform_name_template := main_platform_name_template base_name in
  comprehension
    (λ p, name ← Format.format platform_name_template {["platform" := p]};
          Ok (p, name))
    main_platforms.

Definition newline : string := String (ascii_of_nat 10) "".

Definition platforms_mapping (base_name : string) : outcome string :=
  table ← platforms_table base_name;
  Ok (join newline
        (map (λ kv : string * string, "  '" +:+ kv.1 +:+ "': '" +:+ kv.2 +:+ "',")
             table)).

(** The dictionary comprehension: items go in one after the other, and a
    repeated key keeps the later value. *)
Definition dict_of (items : list (string * string)) : gmap string string :=
  foldl (λ d kv, <[kv.1 := kv.2]> d) ∅ items.

Definition optional_deps (version base_name : string) : outcome (gmap string string) :=
  let platform_name_template := main_platform_name_template base_name in
  items ← comprehension
    (λ p, name ← Format.format platform_name_template {["platform" := p]};
          Ok (name, version))
    main_platforms;
  Ok (dict_of items).

Definition main_package_json (version base_name : string) : outcome main_json :=
  optional_deps ← optional_deps version base_name;
  Ok {| mj_name := base_name;
        mj_version := version;
        mj_description :=
          "An auxiliary programming tool for the AI era, helping you speed up 10x.";
        mj_bin := [("codekanban", "npm-bin/codekanban.js")];
        mj_optionalDependencies := optional_deps;
        mj_keywords :=
          ["ai"; "coding"; "kanban"; "terminal"; "productivity";
           "developer-tools"; "worktree"; "git"];
        mj_author := "fy0";
        mj_license := "Apache-2.0";
        mj_repository :=
          [("type", "git"); ("url", "https://github.com/fy0/CodeKanban")];
        mj_homepage := "https://github.com/fy0/CodeKanban#readme";
        mj_engines := [("node", ">=14.0.0")] |}.

Definition create_main_package (version base_name : string) : M Z :=
  platforms_mapping ← lift (platforms_mapping base_name);
  let bin_dir := root_dir </> "npm-bin" in
  record (Mkdir bin_dir) ;;
  record (WriteLauncher (bin_dir </> "codekanban.js")
            {| ls_platforms_mapping := platforms_mapping;
               ls_base_name := base_name |}) ;;
  main_package_json ← lift (main_package_json version base_name);
  record (DumpMainJson (root_dir </> "package.json") main_package_json) ;;
  mret 0.

(** *** [main] *)

Record args := {
  version : string;
  package_name : string;
  version_main : string;
  version_prerelease : string;
  version_build_metadata : string;
  app_channel : string
}.

(** [main] calls [run_command] once, for the frontend build. *)
Definition run_command (w : world) (cmd : list string) (cwd : path)
    (shell : bool) : M Z :=
  record (RunCommand cmd cwd shell) ;; mret (pnpm_build w).

(** [clean_static_dir] and the copying loop of [copy_dist_to_static] are one
    event each; [copy_dist_to_static] returns [False] without copying when
    [dist_dir] does not exist. *)
Definition copy_dist_to_static (w : world) (dist_dir static_dir : path) : M bool :=
  if dist_dir_exists w
  then record (CopyDistToStatic dist_dir static_dir) ;; mret true
  else mret false.

(** The script ends with [sys.exit(main())]: what [main] returns is the exit
    code of the process. *)
Definition main (w : world) (a : args) : M Z :=
  (if npm_packages_dir_exists w then record (Rmtree npm_packages_dir) else mret tt) ;;
  record (Mkdir npm_packages_dir) ;;
  if negb (ui_dir_exists w) then mret 1
  else
    ret ← (if is_windows w
           then run_command w ["pnpm build"] ui_dir true
           else run_command w ["pnpm"; "build"] ui_dir false);
    if decide (ret ≠ 0) then mret ret
    else
      record (CleanStaticDir static_dir) ;;
      copied ← copy_dist_to_static w dist_dir static_dir;
      if negb copied then mret 1
      else
        ret ← build_go_multiplatform w (version_main a) (version_prerelease a)
                (version_build_metadata a) (app_channel a);
        if decide (ret ≠ 0) then mret ret
        else
          ret ← create_platform_packages (version a) (package_name a);
          if decide (ret ≠ 0) then mret ret
          else
            ret ← create_main_package (version a) (package_name a);
            if decide (ret ≠ 0) then mret ret
            else mret 0.

(** The script starts with the environment of its parent in [os.environ]
    and nothing done yet. *)
Definition initial (environ : gmap string string) : state :=
  {| dicts := {[os_environ := environ]}; next_ref := 1%nat; log := [] |}.

End Build.

(** ** The launcher, [npm-bin/codekanban.js]

    [create_main_package] writes this Node.js program; what follows is the
    program text it writes, read as JavaScript. *)

Module Launcher.

(** What a property read [PLATFORMS[key]] can give.  [PLATFORMS] is an
    ordinary object, so a key it does not own is looked up in
    [Object.prototype]. *)
Inductive js_value :=
  | JUndefined
  | JString (s : string)
  | JInherited (member : string).

Definition object_prototype : list string :=
  [ "constructor"; "__defineGetter__"; "__defineSetter__"; "hasOwnProperty";
    "__lookupGetter__"; "__lookupSetter__"; "isPrototypeOf";
    "propertyIsEnumerable"; "toString"; "valueOf"; "__proto__";
    "toLocaleString" ].

(** The object literal has one entry for each of five distinct constant
    keys, so the first entry with a key is the only one. *)
Fixpoint own_property (obj : list (string * string)) (key : string) : option string :=
  match obj with
  | [] => None
  | (k, v) :: obj' => if decide (k = key) then Some v else own_property obj' key
  end.

Definition get (obj : list (string * string)) (key : string) : js_value :=
  match own_property obj key with
  | Some v => JString v
  | None =>
      if bool_decide (key ∈ object_prototype) then JInherited key else JUndefined
  end.

(** [Object.keys(obj)] *)
Definition keys (obj : list (string * string)) : list string := map fst obj.

Definition truthy (v : js_value) : bool :=
  match v with
  | JUndefined => false
  | JString s => negb (String.eqb s "")
  | JInherited _ => true
  end.

Inductive stdio_option := Inherit.

Record spawn_call := {
  sc_file : string;
  sc_args : list string;
  sc_stdio : stdio_option;
  sc_windowsHide : bool
}.

(** The first event the child process object emits, if it ever emits one;
    an exit carries a code, or [null] when a signal ended the child. *)
Inductive child_event :=
  | ChildError (message : string)
  | ChildExit (code : option Z)
  | ChildRunning.

(** The Node.js process the launcher runs in. *)
Record host := {
  process_platform : string;
  process_arch : string;
  process_argv : list string;
  require_resolve : string → option string;     (* None: it throws *)
  path_dirname : string → string;
  path_join : string → string → string;
  inherited_to_string : string → string;
  child : spawn_call → child_event
}.

Definition to_string (h : host) (v : js_value) : string :=
  match v with
  | JUndefined => "undefined"
  | JString s => s
  | JInherited m => inherited_to_string h m
  end.

(** [code || 0] *)
Definition or_zero (code : option Z) : Z :=
  match code with
  | Some c => if decide (c = 0) then 0 else c
  | None => 0
  end.

Record run := {
  stderr : list string;               (* the lines of [console.error] *)
  spawned : option spawn_call;
  exit_code : option Z                (* None: the launcher is still waiting *)
}.

Definition launcher (PLATFORMS : list (string * string)) (base_name : string)
    (h : host) : run :=
  let platform := process_platform h in
  let arch := process_arch h in
  let platformKey := platform +:+ "-" +:+ arch in
  let packageName := get PLATFORMS platformKey in
  if negb (truthy packageName) then
    {| stderr :=
         [ "Unsupported platform: " +:+ platformKey;
           "Supported platforms:" +:+ " " +:+ join ", " (keys PLATFORMS) ];
       spawned := None;
       exit_code := Some 1 |}
  else
    match require_resolve h (to_string h packageName +:+ "/package.json") with
    | None =>
        {| stderr :=
             [ "Failed to find binary for " +:+ platformKey;
               "Make sure " +:+ to_string h packageName +:+ " is installed";
               "";
               "Try one of the following:";
               "  1. Uninstall and reinstall with npm:";
               "     npm uninstall -g " +:+ base_name;
               "     npm install -g " +:+ base_name;
               "  2. Or uninstall and reinstall with pnpm:";
               "     pnpm uninstall -g " +:+ base_name;
               "     pnpm install -g " +:+ base_name ];
           spawned := None;
           exit_code := Some 1 |}
    | Some packagePath =>
        let packageDir := path_dirname h packagePath in
        let binName :=
          if String.eqb platform "win32" then "codekanban.exe" else "codekanban" in
        let binPath := path_join h packageDir binName in
        let call :=
          {| sc_file := binPath;
             sc_args := drop 2 (process_argv h);
             sc_stdio := Inherit;
             sc_windowsHide := false |} in
        match child h call with
        | ChildError message =>
            {| stderr := ["Failed to start binary:" +:+ " " +:+ message];
               spawned := Some call;
               exit_code := Some 1 |}
        | ChildExit code =>
            {| stderr := []; spawned := Some call;
               exit_code := Some (or_zero code) |}
        | ChildRunning =>
            {| stderr := []; spawned := Some call; exit_code := None |}
        end
    end.

(** The names are pasted between single quotes in the program text.  The
    text is the program above only if none of them holds a character that
    closes or escapes such a literal. *)
Definition quotable_char (c : ascii) : bool :=   (* quote, backslash, LF, CR *)
  negb (bool_decide (c ∈ ["039"; "092"; "010"; "013"]%char)).

Fixpoint quotable (s : string) : bool :=
  match s with
  | "" => true
  | String c s' => quotable_char c && quotable s'
  end.

(** The [PLATFORMS] table of the launcher generated for [base_name]. *)
Definition generated_table (base_name : string) : option (list (string * string)) :=
  match Build.platforms_table base_name with
  | Ok table =>
      if forallb quotable (base_name :: map snd table) then Some table else None
  | _ => None
  end.

(** *** The text of the table, read as JavaScript

    [create_main_package] pastes [platforms_mapping] as it is between the
    braces of [const PLATFORMS = { ... };].  Node.js reads that text as a
    list of property definitions.  The reader below covers the definitions
    whose key and value are single-quoted string literals without escape
    sequences, with blanks and line breaks between the tokens and a comma
    after each value but possibly the last.  It answers [Raises] where the
    text is a SyntaxError (the launcher does not start), and [Unmodelled] on
    any other text: escape sequences, keys and values that are no string
    literal, comments, and the key [__proto__], which sets no property. *)








End Launcher.

(** ** The publish script, [publish-all-packages.py] *)

Module Publish.

Import Build (path, path_div, root_dir, npm_packages_dir).
Infix "</>" := path_div (at level 40, left associativity).

Inductive command :=
  | Argv (cmd : list string)
  | ShellLine (line : string).

Inductive event :=
  | Subprocess (c : command) (cwd : path).

Inductive json_file :=
  | Missing
  | Malformed                            (* [json.load] raises *)
  | Loaded (name version : string).      (* with the defaults of [.get] *)

Record world := {
  is_windows : bool;
  npm_packages_dir_exists : bool;
  main_package_json : json_file;
  environ : gmap string string;
  run : command → path → Z;
  platform_dir_exists : path → bool;       (* [Path.exists()] *)
  platform_dir_is_dir : path → bool;       (* a process can start in it *)
  platform_package_json : path → json_file
}.

Definition getenv (w : world) (name : string) : option string :=
  environ w !! name.

Definition command_of (w : world) (cmd : list string) : command :=
  if is_windows w then ShellLine (join " " cmd) else Argv cmd.

(** [run_command(cmd, cwd)]: the return code and the process started. *)
Definition run_command (w : world) (cmd : list string) (cwd : path) : Z * list event :=
  (run w (command_of w cmd) cwd, [Subprocess (command_of w cmd) cwd]).

Definition is_github_actions (w : world) : bool :=
  bool_decide (getenv w "GITHUB_ACTIONS" = Some "true").

Definition platforms : list string :=
  ["win32-x64"; "darwin-x64"; "darwin-arm64"; "linux-x64"; "linux-arm64"].

(** The loop over the platform packages; [Ok None] when it runs to its
    end, [Ok (Some ret)] when it returns from [main].  [Path.exists()] is
    true of whatever the path leads to; [subprocess.run] raises
    [NotADirectoryError] and starts nothing when its [cwd] is no
    directory. *)
Fixpoint publish_platforms (w : world) (publish_cmd : list string)
    (platforms : list string) : outcome (option Z) * list event :=
  match platforms with
  | [] => (Ok None, [])
  | platform :: rest =>
      let platform_dir := npm_packages_dir </> platform in
      if negb (platform_dir_exists w platform_dir)
      then publish_platforms w publish_cmd rest
      else
        match platform_package_json w (platform_dir </> "package.json") with
        | Malformed => (Raises, [])
        | _ =>
            if negb (platform_dir_is_dir w platform_dir) then (Raises, [])
            else
              let '(ret, started) := run_command w publish_cmd platform_dir in
              if decide (ret ≠ 0) then (Ok (Some ret), started)
              else
                let '(r, later) := publish_platforms w publish_cmd rest in
                (r, started ++ later)
        end
  end.

Definition main (w : world) : outcome Z * list event :=
  if negb (npm_packages_dir_exists w) then (Ok 1, [])
  else
    match main_package_json w with
    | Missing => (Ok 1, [])
    | Malformed => (Raises, [])
    | Loaded main_package_name _ =>
        let '(auth_result, whoami) := run_command w ["npm"; "whoami"] root_dir in
        let missing_token :=
          if decide (auth_result ≠ 0) then
            if is_github_actions w then
              match getenv w "NODE_AUTH_TOKEN" with
              | Some token => negb (truthy token)
              | None => true
              end
            else false
          else false in
        if missing_token then (Ok 1, whoami)
        else
          let publish_cmd := ["npm"; "publish"; "--access"; "public"] in
          let publish_cmd :=
            if is_github_actions w then publish_cmd ++ ["--provenance"]
            else publish_cmd in
          match publish_platforms w publish_cmd platforms with
          | (Ok None, published) =>
              let '(ret, started) := run_command w publish_cmd root_dir in
              if decide (ret ≠ 0) then (Ok ret, whoami ++ published ++ started)
              else (Ok 0, whoami ++ published ++ started)
          | (Ok (Some ret), published) => (Ok ret, whoami ++ published)
          | (Raises, published) => (Raises, whoami ++ published)
          | (Unmodelled, published) => (Unmodelled, whoami ++ published)
          end
    end.

(** The publish attempts among the processes started. *)
Definition is_publish (e : event) : bool :=
  match e with
  | Subprocess (Argv ("npm" :: "publish" :: _)) _ => true
  | Subprocess (ShellLine line) _ => String.prefix "npm publish" line
  | _ => false
  end.

End Publish.

(** ** The naming rule in the words of the specification

    A scoped main name [@scope/name] gives [@scope/name-<key>], an unscoped
    main name [n] gives [@n/<key>]. *)

Definition platform_name_rule (main_name key : string) : string :=
  if startswith main_name "@"
  then main_name +:+ "-" +:+ key
  else "@" +:+ main_name +:+ "/" +:+ key.

(** ** The platform keys each stage enumerates *)



(** ** Link-time flags

    The flag that sets a version symbol, and what it means for a list of
    flags to set the symbol at all. *)

Definition flag (symbol value : string) : string :=
  "-X 'main." +:+ symbol +:+ "=" +:+ value +:+ "'".

Definition carries (symbol : string) (parts : list string) : Prop :=
  ∃ part, part ∈ parts ∧ String.prefix ("-X 'main." +:+ symbol +:+ "=") part = true.

(** ** The last characters of a string, last one first *)

Definition tail_chars (n : nat) (s : string) : list ascii :=
  take n (reverse (String.list_ascii_of_string s)).

(** ** The build matrix, written out

    The environment a target's toolchain run is meant to get, and the events
    and return code of the loop over the targets when the dictionary copied
    for the first target gets the reference [fresh]. *)

Definition target_env (environ : gmap string string) (goos goarch : string)
    : gmap string string :=
  <["CGO_ENABLED" := "0"]> (<["GOARCH" := goarch]> (<["GOOS" := goos]> environ)).

Fixpoint matrix_run (w : Build.world) (ldflags : string)
    (environ : gmap string string)
    (platforms : list (string * string * string * string)) (fresh : Build.ref)
    : list Build.event * Z :=
  match platforms with
  | [] => ([], 0)
  | (goos, goarch, npm_os, npm_arch) :: rest =>
      let dir :=
        Build.path_div Build.npm_packages_dir (npm_os +:+ "-" +:+ npm_arch) in
      let cmd :=
        Build.build_cmd w ldflags (Build.path_div dir (Build.output_name goos)) in
      let env := target_env environ goos goarch in
      let started := [Build.Mkdir dir; Build.GoBuild cmd Build.root_dir fresh env] in
      if decide (Build.go_build w cmd env ≠ 0)
      then (started, Build.go_build w cmd env)
      else
        let '(later, ret) := matrix_run w ldflags environ rest (S fresh) in
        (started ++ later, ret)
  end.

(** What steps 4 and 5 put on disk: markers, manifests and the launcher. *)
Definition is_package_output (e : Build.event) : bool :=
  match e with
  | Build.Touch _ | Build.DumpPlatformJson _ _
  | Build.WriteLauncher _ _ | Build.DumpMainJson _ _ => true
  | _ => false
  end.

Definition is_go_build (e : Build.event) : bool :=
  match e with
  | Build.GoBuild _ _ _ _ => true
  | _ => false
  end.

(** The references of the dictionaries handed to the toolchain runs. *)
Definition env_refs (events : list Build.event) : list Build.ref :=
  omap (λ e, match e with
             | Build.GoBuild _ _ env_ref _ => Some env_ref
             | _ => None
             end) events.

(** ** Sample runs

    A machine on which every step before the build matrix succeeds and the
    toolchain returns [returncode target] for the target it is asked to
    build (told by the [GOOS] and [GOARCH] it finds in its environment). *)

Definition sample_world (returncode : string → string → Z) : Build.world :=
  {| Build.npm_packages_dir_exists := true;
     Build.ui_dir_exists := true;
     Build.is_windows := false;
     Build.pnpm_build := 0;
     Build.dist_dir_exists := true;
     Build.str_of_path := join "/";
     Build.go_build := λ _ env,
       returncode (default "" (env !! "GOOS")) (default "" (env !! "GOARCH"));
     Build.st_size := λ _, Some 1024 |}.

Definition sample_args : Build.args :=
  {| Build.version := "1.2.3";
     Build.package_name := "codekanban";
     Build.version_main := "1.2.3";
     Build.version_prerelease := "";
     Build.version_build_metadata := "";
     Build.app_channel := "stable" |}.

(** The toolchain fails on the third target, [darwin/amd64]. *)
Definition third_target_fails : Build.world :=
  sample_world (λ goos goarch,
    if (String.eqb goos "darwin" && String.eqb goarch "amd64")%bool then 2 else 0).

Definition every_target_builds : Build.world := sample_world (λ _ _, 0).

Definition sample_ldflags : string :=
  join " " (Build.ldflags_parts "1.2.3" "" "" "stable").

Definition third_target_cmd : list string :=
  Build.build_cmd third_target_fails sample_ldflags
    ["npm-packages"; "darwin-x64"; "codekanban"].

Definition sample_environ : gmap string string :=
  {["PATH" := "/usr/bin"; "GOOS" := "plan9"]}.

(** ** Sample hosts of the launcher *)

Definition sample_host (platform arch : string)
    (resolve : string → option string)
    (child : Launcher.spawn_call → Launcher.child_event) : Launcher.host :=
  {| Launcher.process_platform := platform;
     Launcher.process_arch := arch;
     Launcher.process_argv :=
       ["/usr/bin/node"; "/usr/lib/node_modules/codekanban/npm-bin/codekanban.js";
        "--port"; "3000"];
     Launcher.require_resolve := resolve;
     Launcher.path_dirname := λ _, "/usr/lib/node_modules/@codekanban/linux-x64";
     Launcher.path_join := λ dir name, dir +:+ "/" +:+ name;
     Launcher.inherited_to_string := λ _, "[object Object]";
     Launcher.child := child |}.

Definition codekanban_table : list (string * string) :=
  [ ("win32-x64", "@codekanban/win32-x64");
    ("darwin-x64", "@codekanban/darwin-x64");
    ("darwin-arm64", "@codekanban/darwin-arm64");
    ("linux-x64", "@codekanban/linux-x64");
    ("linux-arm64", "@codekanban/linux-arm64") ].

(** A main package name that closes the literal it is pasted into and opens
    another. *)
Definition quoting_name : string := "x', 'freebsd-x64': 'y".

(** ** Sample runs of the publish script

    A GitHub Actions runner without [NODE_AUTH_TOKEN], on which [npm whoami]
    returns [whoami] and every publish succeeds. *)

Definition actions_runner (whoami : Z) : Publish.world :=
  {| Publish.is_windows := false;
     Publish.npm_packages_dir_exists := true;
     Publish.main_package_json := Publish.Loaded "codekanban" "1.2.3";
     Publish.environ := {["GITHUB_ACTIONS" := "true"; "CI" := "true"]};
     Publish.run := λ c _,
       match c with
       | Publish.Argv ["npm"; "whoami"] => whoami
       | _ => 0
       end;
     Publish.platform_dir_exists := λ _, true;
     Publish.platform_dir_is_dir := λ _, true;
     Publish.platform_package_json := λ _, Publish.Loaded "@codekanban/x" "1.2.3" |}.

(** ** The static directory: [clean_static_dir] and [copy_dist_to_static]

    The two functions are the same text in [build.py] and in
    [build-npm-multipackage.py].  A directory is the finite map of its
    entries, classed the way [Path.is_file] and [Path.is_dir] class them.  An
    entry of [static] that is a file may be a file of [ui/dist] itself, under
    a second name or through a link: [shutil.copy2] refuses to copy a file
    onto itself, and writes through to the file a destination stands for.
    What lies below an entry is copied or removed as a whole, and is taken to
    hold regular files and directories only, none of them shared with
    [ui/dist]. *)

Module Static.

#[warnings="-register-all"]
Inductive tree :=
  | TFile (data : string)
  | TDir (children : gmap string tree).

Inductive entry :=
  | File (data : string)                  (* [is_file()]: a file of its own, or
                                             a link to a file outside [ui/dist] *)
  | DistFile (target : list string) (data : string)
                                          (* [is_file()]: the file at [target]
                                             below [ui/dist], under another
                                             name or through a link *)
  | Dir (children : gmap string tree)     (* [is_dir()]: a directory *)
  | DirLink (children : gmap string tree) (* [is_dir()]: a link to a directory *)
  | Other.                                (* neither: a dangling link, a socket, ... *)

Inductive place :=
  | Absent
  | Directory (d : gmap string entry)
  | NotDirectory.

Section iterdir.

(** [Path.iterdir]: the entries, in the order the operating system gives. *)
Variable iterdir : gmap string entry → list (string * entry).

(** The loop of [clean_static_dir].  [unlink] removes a file,
    [shutil.rmtree] a directory; [shutil.rmtree] raises on a link to a
    directory. *)
Fixpoint clean_items (items : list (string * entry)) (d : gmap string entry)
    : outcome unit * gmap string entry :=
  match items with
  | [] => (Ok (), d)
  | (name, e) :: rest =>
      if decide (name = "README.md") then clean_items rest d
      else
        match e with
        | File _ | DistFile _ _ => clean_items rest (delete name d)
        | Dir _ => clean_items rest (delete name d)
        | DirLink _ => (Raises, d)
        | Other => clean_items rest d
        end
  end.

Definition clean_static_dir (static_dir : place) : outcome unit * place :=
  match static_dir with
  | Absent => (Ok (), Directory ∅)                 (* [mkdir(parents=True)] *)
  | NotDirectory => (Raises, NotDirectory)         (* [iterdir] raises *)
  | Directory d =>
      let '(r, d') := clean_items (iterdir d) d in (r, Directory d')
  end.

(** [shutil.copy2(item, dest)] for a file [item] named [name]: a [dest] that
    is a directory takes the file inside it, under the same name. *)
Definition copy_into (data name : string) (c : gmap string tree)
    : outcome (gmap string tree) :=
  match c !! name with
  | None | Some (TFile _) => Ok (<[name := TFile data]> c)
  | Some (TDir _) => Raises                        (* IsADirectoryError *)
  end.

(** [shutil.copy2(item, static_dir / item.name)] for a file [item] named
    [name] that is the file [source] of [ui/dist].  When the destination is
    that same file, [copy2] raises [SameFileError]; when it is another file
    of [ui/dist], the copy is written into [ui/dist] itself, which is not
    followed here. *)
Definition copy2 (source : list string) (data name : string) (static_dir : place)
    : outcome place :=
  match static_dir with
  | Absent | NotDirectory => Raises
  | Directory d =>
      match d !! name with
      | None | Some (File _) => Ok (Directory (<[name := File data]> d))
      | Some (DistFile target _) =>
          if decide (target = source) then Raises else Unmodelled
      | Some (Dir c) =>
          c' ← copy_into data name c; Ok (Directory (<[name := Dir c']> d))
      | Some (DirLink c) =>
          c' ← copy_into data name c; Ok (Directory (<[name := DirLink c']> d))
      | Some Other => Unmodelled
      end
  end.

(** [if dest.exists(): shutil.rmtree(dest)] and then
    [shutil.copytree(item, dest)] for a directory [item] named [name].
    [rmtree] raises on a file and on a link; [copytree] makes the missing
    parents of [dest]. *)
Definition copy_dir (c : gmap string tree) (name : string) (static_dir : place)
    : outcome place :=
  match static_dir with
  | Absent => Ok (Directory {[name := Dir c]})
  | NotDirectory => Raises
  | Directory d =>
      match d !! name with
      | None | Some (Dir _) => Ok (Directory (<[name := Dir c]> d))
      | Some (File _) | Some (DistFile _ _) | Some (DirLink _) | Some Other =>
          Raises
      end
  end.

(** The loop of [copy_dist_to_static].  An entry of [ui/dist] is the file
    of its own name there, unless it is another name of a file of
    [ui/dist]. *)
Fixpoint copy_items (items : list (string * entry)) (static_dir : place)
    : outcome unit * place :=
  match items with
  | [] => (Ok (), static_dir)
  | (name, e) :: rest =>
      match e with
      | File data =>
          match copy2 [name] data name static_dir with
          | Ok static_dir' => copy_items rest static_dir'
          | Raises => (Raises, static_dir)
          | Unmodelled => (Unmodelled, static_dir)
          end
      | DistFile target data =>
          match copy2 target data name static_dir with
          | Ok static_dir' => copy_items rest static_dir'
          | Raises => (Raises, static_dir)
          | Unmodelled => (Unmodelled, static_dir)
          end
      | Dir c | DirLink c =>
          match copy_dir c name static_dir with
          | Ok static_dir' => copy_items rest static_dir'
          | Raises => (Raises, static_dir)
          | Unmodelled => (Unmodelled, static_dir)
          end
      | Other => copy_items rest static_dir
      end
  end.

Definition copy_dist_to_static (dist_dir static_dir : place) : outcome bool * place :=
  match dist_dir with
  | Absent => (Ok false, static_dir)
  | NotDirectory => (Raises, static_dir)           (* [iterdir] raises *)
  | Directory src =>
      let '(r, static_dir') := copy_items (iterdir src) static_dir in
      (_ ← r; Ok true, static_dir')
  end.

(** Step 2 of both scripts: [clean_static_dir(static_dir)], then
    [copy_dist_to_static(dist_dir, static_dir)]. *)
Definition step_2 (dist_dir static_dir : place) : outcome bool * place :=
  let '(r, static_dir') := clean_static_dir static_dir in
  match r with
  | Ok _ => copy_dist_to_static dist_dir static_dir'
  | Raises => (Raises, static_dir')
  | Unmodelled => (Unmodelled, static_dir')
  end.

End iterdir.

(** What a copied entry of [dist_dir] is in [static_dir]. *)
Definition copied (e : entry) : option entry :=
  match e with
  | File data | DistFile _ data => Some (File data)
  | Dir c | DirLink c => Some (Dir c)
  | Other => None
  end.

(** What [clean_static_dir] removes. *)
Definition removable (name : string) (e : entry) : bool :=
  negb (bool_decide (name = "README.md"))
  && match e with File _ | DistFile _ _ | Dir _ => true | _ => false end.

Definition is_dir_link (e : entry) : bool :=
  match e with DirLink _ => true | _ => false end.

(** The entries of a place that is a directory; none otherwise. *)
Definition entries (p : place) : gmap string entry :=
  match p with
  | Directory d => d
  | _ => ∅
  end.


(** Sample directories. *)
Definition sample_static : gmap string entry :=
  {[ "README.md" := File "static files go here";
     "index.html" := File "old page";
     "assets" := Dir {[ "old.js" := TFile "old script" ]} ]}.

(** A [static] whose [README.md] is a link to the [README.md] of [ui/dist],
    and such a [ui/dist]. *)
Definition linked_static : gmap string entry :=
  {[ "README.md" := DistFile ["README.md"] "about the frontend";
     "index.html" := File "old page" ]}.

Definition dist_with_readme : gmap string entry :=
  {[ "README.md" := File "about the frontend";
     "index.html" := File "new page" ]}.

Definition sample_dist : gmap string entry :=
  {[ "index.html" := File "new page";
     "assets" := Dir {[ "app.js" := TFile "new script" ]};
     "favicon.ico" := File "icon" ]}.

End Static.

(** ** The plain build script, [build.py] *)

Module BuildPy.

Import Build (path, path_div, root_dir, ui_dir).

Inductive event :=
  | RunCommand (cmd : list string) (cwd : path) (shell : bool).

Record world := {
  ui_dir_exists : bool;
  is_windows : bool;                       (* sys.platform.startswith('win') *)
  run : list string → path → bool → Z;     (* return code of [subprocess.run] *)
  static_dir : Static.place;               (* [static] when the script starts *)
  dist_dir : Static.place;                 (* [ui/dist] after the frontend build *)
  iterdir : gmap string Static.entry → list (string * Static.entry)
}.

Record result := {
  returned : outcome Z;
  static_after : Static.place;
  started : list event
}.

Definition run_command (w : world) (cmd : list string) (cwd : path)
    (shell : bool) : Z * list event :=
  (run w cmd cwd shell, [RunCommand cmd cwd shell]).

Definition exe_name (w : world) : string :=
  if is_windows w then "CodeKanban.exe" else "CodeKanban".

Definition build_cmd (w : world) : list string :=
  ["go"; "build"; "-ldflags=-s -w"; "-trimpath"; "-o"; exe_name w].

Definition main (w : world) : result :=
  if negb (ui_dir_exists w)
  then {| returned := Ok 1; static_after := static_dir w; started := [] |}
  else
    let '(ret, frontend) :=
      if is_windows w
      then run_command w ["pnpm build"] ui_dir true
      else run_command w ["pnpm"; "build"] ui_dir false in
    if decide (ret ≠ 0)
    then {| returned := Ok ret; static_after := static_dir w; started := frontend |}
    else
      match Static.step_2 (iterdir w) (dist_dir w) (static_dir w) with
      | (Ok false, static') =>
          {| returned := Ok 1; static_after := static'; started := frontend |}
      | (Ok true, static') =>
          let '(ret, go) := run_command w (build_cmd w) root_dir false in
          if decide (ret ≠ 0)
          then {| returned := Ok ret; static_after := static';
                  started := frontend ++ go |}
          else {| returned := Ok 0; static_after := static';
                  started := frontend ++ go |}
      | (Raises, static') =>
          {| returned := Raises; static_after := static'; started := frontend |}
      | (Unmodelled, static') =>
          {| returned := Unmodelled; static_after := static'; started := frontend |}
      end.

(** The return code of the frontend build, and its event. *)
Definition frontend_returncode (w : world) : Z :=
  if is_windows w then run w ["pnpm build"] ui_dir true
  else run w ["pnpm"; "build"] ui_dir false.

Definition frontend_event (w : world) : event :=
  if is_windows w then RunCommand ["pnpm build"] ui_dir true
  else RunCommand ["pnpm"; "build"] ui_dir false.

Definition go_event (w : world) : event := RunCommand (build_cmd w) root_dir false.

(** A machine on which the frontend build succeeds but leaves no [ui/dist]. *)
Definition no_dist_world : world :=
  {| ui_dir_exists := true;
     is_windows := false;
     run := λ _ _ _, 0;
     static_dir := Static.Directory Static.sample_static;
     dist_dir := Static.Absent;
     iterdir := map_to_list |}.

End BuildPy.

(** ** A run of [build-npm-multipackage.py], part by part

    What [main] does before the build matrix, whether it reaches the matrix,
    what it returns when it does not, and steps 4 and 5 on their own. *)

Definition frontend_command (w : Build.world) : Build.event :=
  if Build.is_windows w
  then Build.RunCommand ["pnpm build"] Build.ui_dir true
  else Build.RunCommand ["pnpm"; "build"] Build.ui_dir false.

Definition prelude (w : Build.world) : list Build.event :=
  (if Build.npm_packages_dir_exists w
   then [Build.Rmtree Build.npm_packages_dir] else [])
  ++ [Build.Mkdir Build.npm_packages_dir]
  ++ (if Build.ui_dir_exists w
      then frontend_command w
           :: (if decide (Build.pnpm_build w ≠ 0) then []
               else Build.CleanStaticDir Build.static_dir
                    :: (if Build.dist_dir_exists w
                        then [Build.CopyDistToStatic Build.dist_dir Build.static_dir]
                        else []))
      else []).

Definition reaches_build (w : Build.world) : bool :=
  Build.ui_dir_exists w && bool_decide (Build.pnpm_build w = 0)
  && Build.dist_dir_exists w.

Definition early_code (w : Build.world) : Z :=
  if Build.ui_dir_exists w
  then if decide (Build.pnpm_build w ≠ 0) then Build.pnpm_build w else 1
  else 1.

Definition blank : Build.state :=
  {| Build.dicts := ∅; Build.next_ref := 0%nat; Build.log := [] |}.

Import (hints) Build.

(** Steps 4 and 5, as [main] runs them after a build matrix that returned 0. *)
Definition packaging (version base_name : string) : Build.M Z :=
  ret ← Build.create_platform_packages version base_name;
  if decide (ret ≠ 0) then mret ret
  else
    ret ← Build.create_main_package version base_name;
    if decide (ret ≠ 0) then mret ret
    else mret 0.

Definition packaging_run (version base_name : string) : outcome Z * list Build.event :=
  ((packaging version base_name blank).1,
   Build.log (packaging version base_name blank).2).

(** A state with more events in its log. *)
Definition appended (s : Build.state) (events : list Build.event) : Build.state :=
  {| Build.dicts := Build.dicts s;
     Build.next_ref := Build.next_ref s;
     Build.log := Build.log s ++ events |}.

(** The directory a package output goes to. *)
Definition platform_dir (key : string) : Build.path :=
  Build.path_div Build.npm_packages_dir key.

(** The joined linker flags of a run. *)
Definition ldflags_of (a : Build.args) : string :=
  join " " (Build.ldflags_parts (Build.version_main a) (Build.version_prerelease a)
              (Build.version_build_metadata a) (Build.app_channel a)).

(** Arguments with a main package name that [str.format] cannot fill in: the
    template names a field [scope] that the call does not pass. *)
Definition unformattable_args : Build.args :=
  {| Build.version := "1.2.3";
     Build.package_name := "@{scope}/codekanban";
     Build.version_main := "1.2.3";
     Build.version_prerelease := "";
     Build.version_build_metadata := "";
     Build.app_channel := "stable" |}.

(** ** A run of the publish script, in parts *)

Definition whoami_event (w : Publish.world) : Publish.event :=
  Publish.Subprocess (Publish.command_of w ["npm"; "whoami"]) Build.root_dir.

(** The publish command of a run. *)
Definition publish_cmd (w : Publish.world) : list string :=
  if Publish.is_github_actions w
  then ["npm"; "publish"; "--access"; "public"] ++ ["--provenance"]
  else ["npm"; "publish"; "--access"; "public"].

Definition publish_event (w : Publish.world) (cwd : Build.path) : Publish.event :=
  Publish.Subprocess (Publish.command_of w (publish_cmd w)) cwd.

(** The one case in which the run stops after [npm whoami]. *)
Definition missing_token (w : Publish.world) : bool :=
  bool_decide
    (Publish.run w (Publish.command_of w ["npm"; "whoami"]) Build.root_dir ≠ 0)
  && Publish.is_github_actions w
  && match Publish.getenv w "NODE_AUTH_TOKEN" with
     | Some token => negb (truthy token)
     | None => true
     end.

(** The return code of a process the script started. *)
Definition returncode (w : Publish.world) (e : Publish.event) : Z :=
  match e with
  | Publish.Subprocess c cwd => Publish.run w c cwd
  end.

(** A developer's machine on which the registry refuses the [darwin-x64]
    package with code 7. *)
Definition second_publish_fails : Publish.world :=
  {| Publish.is_windows := false;
     Publish.npm_packages_dir_exists := true;
     Publish.main_package_json := Publish.Loaded "codekanban" "1.2.3";
     Publish.environ := ∅;
     Publish.run := λ _ cwd,
       if decide (cwd = Build.path_div Build.npm_packages_dir "darwin-x64")
       then 7 else 0;
     Publish.platform_dir_exists := λ _, true;
     Publish.platform_dir_is_dir := λ _, true;
     Publish.platform_package_json := λ _, Publish.Loaded "@codekanban/x" "1.2.3" |}.

(** A machine on which every process returns 0 and the path of the
    [darwin-x64] package is a regular file. *)
Definition platform_path_is_a_file : Publish.world :=
  {| Publish.is_windows := false;
     Publish.npm_packages_dir_exists := true;
     Publish.main_package_json := Publish.Loaded "codekanban" "1.2.3";
     Publish.environ := ∅;
     Publish.run := λ _ _, 0;
     Publish.platform_dir_exists := λ _, true;
     Publish.platform_dir_is_dir := λ p,
       bool_decide (p ≠ Build.path_div Build.npm_packages_dir "darwin-x64");
     Publish.platform_package_json := λ _, Publish.Missing |}.

(** A machine on which two of the five platform packages were built, and
    every process returns 0. *)
Definition two_packages_built : Publish.world :=
  {| Publish.is_windows := false;
     Publish.npm_packages_dir_exists := true;
     Publish.main_package_json := Publish.Loaded "codekanban" "1.2.3";
     Publish.environ := ∅;
     Publish.run := λ _ _, 0;
     Publish.platform_dir_exists := λ p,
       bool_decide (p ∈ [ Build.path_div Build.npm_packages_dir "win32-x64";
                          Build.path_div Build.npm_packages_dir "linux-x64" ]);
     Publish.platform_dir_is_dir := λ _, true;
     Publish.platform_package_json := λ _, Publish.Missing |}.

(** ** The toolchain run of a target

    The run [build_go_multiplatform] starts for a target of its list when the
    copy of the environment made for it is the dictionary [env_ref]. *)

Definition target_run (w : Build.world) (ldflags : string)
    (environ : gmap string string) (env_ref : Build.ref)
    (target : string * string * string * string) : Build.event :=
  let '(goos, goarch, npm_os, npm_arch) := target in
  Build.GoBuild
    (Build.build_cmd w ldflags
       (Build.path_div (platform_dir (npm_os +:+ "-" +:+ npm_arch))
          (Build.output_name goos)))
    Build.root_dir env_ref
    (<["CGO_ENABLED" := "0"]> (<["GOARCH" := goarch]> (<["GOOS" := goos]> environ))).

(** * Properties *)

(** ** Strings *)

Lemma app_String c (s t : string) : String c s +:+ t = String c (s +:+ t).
Proof. reflexivity. Qed.

Lemma app_empty_r (s : string) : s +:+ "" = s.
Proof. induction s as [|c s IH]; [done|]. by rewrite app_String, IH. Qed.

Lemma app_assoc_str (s t u : string) : (s +:+ t) +:+ u = s +:+ t +:+ u.
Proof. induction s as [|c s IH]; [done|]. by rewrite !app_String, IH. Qed.

Lemma truthy_spec s : truthy s = true ↔ s ≠ "".
Proof.
  unfold truthy. rewrite negb_true_iff, String.eqb_neq. done.
Qed.

(** ** [str.format] on the templates of the scripts *)

Section format_facts.
Import Format.
Variable key : string.
Let kwargs : gmap string string := {["platform" := key]}.

Lemma emit_app c s (r : outcome string) :
  emit c (outcome_map (String.app s) r) = outcome_map (String.app (String c s)) r.
Proof. by destruct r. Qed.

(** Text without braces is copied. *)
Lemma scan_brace_free s t :
  brace_free s = true →
  scan kwargs InLiteral (s +:+ t) = outcome_map (String.app s) (scan kwargs InLiteral t).
Proof.
  induction s as [|c s IH]; intros Hs.
  - change ("" +:+ t) with t. by destruct (scan kwargs InLiteral t).
  - simpl in Hs. apply andb_true_iff in Hs as [Hc Hs].
    apply andb_true_iff in Hc as [Hl Hr].
    apply negb_true_iff, bool_decide_eq_false in Hl, Hr.
    rewrite app_String. simpl.
    rewrite !decide_False by done.
    by rewrite IH, emit_app.
Qed.

(** The field the scripts append is replaced by the key. *)
Lemma scan_platform_field : scan kwargs InLiteral "{platform}" = Ok key.
Proof.
  transitivity (Ok (key +:+ "") : outcome string).
  - unfold kwargs. vm_compute. reflexivity.
  - by rewrite app_empty_r.
Qed.

Lemma format_brace_free s :
  brace_free s = true →
  format (s +:+ "{platform}") kwargs = Ok (s +:+ key).
Proof.
  intros Hs. unfold format.
  by rewrite scan_brace_free, scan_platform_field.
Qed.

(** One step of the scanner, by the shape of the next character. *)
Lemma scan_open t :
  scan kwargs InLiteral (String "{" t) =
  match t with
  | "" => Raises
  | String d t' =>
      if decide (d = "{"%char) then emit "{" (scan kwargs InLiteral t')
      else scan kwargs (InField "") t
  end.
Proof. reflexivity. Qed.

Lemma scan_close t :
  scan kwargs InLiteral (String "}" t) =
  match t with
  | "" => Raises
  | String d t' =>
      if decide (d = "}"%char) then emit "}" (scan kwargs InLiteral t')
      else Raises
  end.
Proof. reflexivity. Qed.

Lemma scan_other c t :
  c ≠ "{"%char → c ≠ "}"%char →
  scan kwargs InLiteral (String c t) = emit c (scan kwargs InLiteral t).
Proof. intros. simpl. by rewrite !decide_False by done. Qed.

Lemma scan_field name c t :
  scan kwargs (InField name) (String c t) =
  if decide (c = "}"%char) then
    obind (field_value kwargs name) (λ v,
      outcome_map (String.app v) (scan kwargs InLiteral t))
  else if decide (c = "{"%char) then Raises
  else if leaves_model c then Unmodelled
  else scan kwargs (InField (name +:+ String c "")) t.
Proof. reflexivity. Qed.

Lemma outcome_map_Ok {A B} (f : A → B) (r : outcome A) b :
  outcome_map f r = Ok b → ∃ a, r = Ok a ∧ b = f a.
Proof. destruct r; [|done..]. intros [= <-]. eauto. Qed.

Lemma scan_field_at_end m o :
  scan kwargs m "{platform}" = Ok o → o = key.
Proof.
  destruct m as [|name].
  - rewrite scan_platform_field. congruence.
  - rewrite scan_field. rewrite decide_False by done.
    by rewrite decide_True by done.
Qed.

(** Whatever stands in front of the appended field, a formatted name ends
    with the key: the field cannot be swallowed by the text before it. *)
Lemma scan_ends_with_key t m o :
  scan kwargs m (t +:+ "{platform}") = Ok o → ∃ p, o = p +:+ key.
Proof.
  remember (String.length t) as n eqn:Hn. revert t Hn m o.
  induction n as [n IH] using lt_wf_ind. intros t -> m o.
  destruct t as [|c t].
  { change ("" +:+ "{platform}") with "{platform}".
    intros ->%scan_field_at_end. by exists "". }
  rewrite app_String. destruct m as [|name].
  - destruct (decide (c = "{"%char)) as [->|Hopen].
    + rewrite scan_open. destruct t as [|d t].
      { intros H. vm_compute in H. discriminate. }
      rewrite app_String. cbv beta iota. rewrite <-app_String.
      destruct (decide (d = "{"%char)) as [->|Hd].
      * intros (o' & Ho' & ->)%outcome_map_Ok.
        apply IH with (m := String.length t) in Ho' as [p ->];
          [|simpl; lia|done].
        by exists (String "{" p).
      * apply IH with (m := String.length (String d t)); [simpl; lia|done].
    + destruct (decide (c = "}"%char)) as [->|Hclose].
      * rewrite scan_close. destruct t as [|d t].
        { intros H. vm_compute in H. discriminate. }
        rewrite app_String. cbv beta iota.
        destruct (decide (d = "}"%char)) as [->|Hd]; [|done].
        intros (o' & Ho' & ->)%outcome_map_Ok.
        apply IH with (m := String.length t) in Ho' as [p ->];
          [|simpl; lia|done].
        by exists (String "}" p).
      * rewrite scan_other by done.
        intros (o' & Ho' & ->)%outcome_map_Ok.
        apply IH with (m := String.length t) in Ho' as [p ->];
          [|simpl; lia|done].
        by exists (String c p).
  - rewrite scan_field.
    destruct (decide (c = "}"%char)) as [->|Hclose].
    + destruct (field_value kwargs name) as [v| |]; [|done..].
      intros (o' & Ho' & ->)%outcome_map_Ok.
      apply IH with (m := String.length t) in Ho' as [p ->];
        [|simpl; lia|done].
      exists (v +:+ p). by rewrite app_assoc_str.
    + destruct (decide (c = "{"%char)); [done|].
      destruct (leaves_model c); [done|].
      apply IH with (m := String.length t); [simpl; lia|done].
Qed.

End format_facts.

Example format_plain :
  Format.format "@codekanban/{platform}" {["platform" := "linux-x64"]}
  = Ok "@codekanban/linux-x64".
Proof. vm_compute. reflexivity. Qed.

Example format_doubled_braces :
  Format.format "a{{b}}-{platform}" {["platform" := "linux-x64"]}
  = Ok "a{b}-linux-x64".
Proof. vm_compute. reflexivity. Qed.

Example format_single_brace :
  Format.format "a{-{platform}" {["platform" := "linux-x64"]} = Raises.
Proof. vm_compute. reflexivity. Qed.

Example format_unknown_field :
  Format.format "a{b}-{platform}" {["platform" := "linux-x64"]} = Raises.
Proof. vm_compute. reflexivity. Qed.

Example format_positional_field :
  Format.format "a{}-{platform}" {["platform" := "linux-x64"]} = Raises.
Proof. vm_compute. reflexivity. Qed.

Example format_conversion :
  Format.format "a{platform!r}-{platform}" {["platform" := "linux-x64"]}
  = Unmodelled.
Proof. vm_compute. reflexivity. Qed.

(** ** The naming rule *)

Lemma brace_free_app s t :
  Format.brace_free (s +:+ t) = (Format.brace_free s && Format.brace_free t)%bool.
Proof.
  induction s as [|c s IH]; [done|].
  rewrite app_String. simpl. rewrite IH. by rewrite !andb_assoc.
Qed.

Lemma template_names_by_rule base_name key :
  Format.brace_free base_name = true →
  Format.format (Build.platform_name_template base_name) {["platform" := key]}
  = Ok (platform_name_rule base_name key).
Proof.
  intros Hb. unfold Build.platform_name_template, platform_name_rule.
  destruct (startswith base_name "@").
  - change "-{platform}" with ("-" +:+ "{platform}").
    rewrite <-app_assoc_str, format_brace_free.
    + by rewrite app_assoc_str.
    + by rewrite brace_free_app, Hb.
  - change "/{platform}" with ("/" +:+ "{platform}").
    rewrite <-(app_assoc_str base_name), <-(app_assoc_str "@"), format_brace_free.
    + by rewrite !app_assoc_str.
    + rewrite !brace_free_app, Hb. done.
Qed.

Lemma main_template_same base_name :
  Build.main_platform_name_template base_name = Build.platform_name_template base_name.
Proof. reflexivity. Qed.

Lemma comprehension_Ok {A B} (f : A → outcome B) (g : A → B) l :
  (∀ a, a ∈ l → f a = Ok (g a)) → comprehension f l = Ok (map g l).
Proof.
  induction l as [|a l IH]; intros Hf; [done|]. simpl.
  rewrite (Hf a) by left. simpl. rewrite IH; [done|].
  intros a' Ha'. apply Hf. by right.
Qed.

(** The rule on names without braces: for every main package name without
    [{] and [}] and every platform key the name [str.format] gives is
    [@scope/name-<key>] for a scoped main name and [@<name>/<key>] otherwise;
    the platform manifests, the list the launcher's table is written from and
    the keys of [optionalDependencies] are made of these names. *)
Lemma names_without_braces_follow_rule base_name :
  Format.brace_free base_name = true →
    (∀ key,
       (startswith base_name "@" = true →
        Format.format (Build.platform_name_template base_name) {["platform" := key]}
        = Ok (base_name +:+ "-" +:+ key)) ∧
       (startswith base_name "@" = false →
        Format.format (Build.platform_name_template base_name) {["platform" := key]}
        = Ok ("@" +:+ base_name +:+ "/" +:+ key)))
  ∧ (∀ version npm_os npm_arch, ∃ j,
       Build.platform_package_json version base_name npm_os npm_arch = Ok j ∧
       Build.pj_name j = platform_name_rule base_name (npm_os +:+ "-" +:+ npm_arch))
  ∧ Build.platforms_table base_name
    = Ok (map (λ p, (p, platform_name_rule base_name p)) Build.main_platforms)
  ∧ (∀ version,
       Build.optional_deps version base_name
       = Ok (Build.dict_of
               (map (λ p, (platform_name_rule base_name p, version))
                    Build.main_platforms))).
Proof.
  intros Hb. repeat split.
  - intros Hs. rewrite template_names_by_rule by done.
    unfold platform_name_rule. by rewrite Hs.
  - intros Hs. rewrite template_names_by_rule by done.
    unfold platform_name_rule. by rewrite Hs.
  - intros version npm_os npm_arch. unfold Build.platform_package_json.
    rewrite template_names_by_rule by done. eexists. split; reflexivity.
  - unfold Build.platforms_table. apply comprehension_Ok. intros p _.
    rewrite main_template_same, template_names_by_rule by done. done.
  - intros version. unfold Build.optional_deps.
    rewrite (comprehension_Ok _ (λ p, (platform_name_rule base_name p, version))).
    + done.
    + intros p _. rewrite main_template_same, template_names_by_rule by done. done.
Qed.

Example scoped_name_by_rule :
  Build.platforms_table "@fy0/codekanban"
  = Ok (map (λ p, (p, platform_name_rule "@fy0/codekanban" p)) Build.main_platforms).
Proof. by apply (names_without_braces_follow_rule "@fy0/codekanban"). Qed.

(** C1: the scoped main name [@s/{platform}] is a name the rule of the
    specification, which is also the rule the comments of both functions
    give, turns into [@s/{platform}-linux-x64] for the key [linux-x64].  The
    code pastes the main name into a template and hands the template to
    [str.format], which reads the braces of the name as a field of its own:
    the manifest of the platform package, the list the launcher's table is
    written from and [optionalDependencies] all get
    [@s/linux-x64-linux-x64]. *)
Theorem name_with_braces_breaks_rule :
  platform_name_rule "@s/{platform}" "linux-x64" = "@s/{platform}-linux-x64"
  ∧ (∃ j, Build.platform_package_json "1.2.3" "@s/{platform}" "linux" "x64" = Ok j
          ∧ Build.pj_name j = "@s/linux-x64-linux-x64")
  ∧ (∃ table, Build.platforms_table "@s/{platform}" = Ok table
              ∧ Launcher.own_property table "linux-x64"
                = Some "@s/linux-x64-linux-x64")
  ∧ (∃ deps, Build.optional_deps "1.2.3" "@s/{platform}" = Ok deps
             ∧ deps !! "@s/linux-x64-linux-x64" = Some "1.2.3"
             ∧ deps !! "@s/{platform}-linux-x64" = None).
Proof.
  assert (Hitems :
    comprehension
      (λ p, name ← Format.format (Build.main_platform_name_template "@s/{platform}")
                     {["platform" := p]};
            Ok (name, "1.2.3"))
      Build.main_platforms
    = Ok [ ("@s/win32-x64-win32-x64", "1.2.3");
           ("@s/darwin-x64-darwin-x64", "1.2.3");
           ("@s/darwin-arm64-darwin-arm64", "1.2.3");
           ("@s/linux-x64-linux-x64", "1.2.3");
           ("@s/linux-arm64-linux-arm64", "1.2.3") ]) by (vm_compute; reflexivity).
  split_and!.
  - vm_compute. reflexivity.
  - eexists. split; vm_compute; reflexivity.
  - eexists. split; vm_compute; reflexivity.
  - eexists. unfold Build.optional_deps. cbv zeta. rewrite Hitems.
    split; [reflexivity|]. unfold Build.dict_of. cbn [foldl fst snd]. split.
    + rewrite lookup_insert_ne by done. by rewrite lookup_insert_eq.
    + by rewrite !lookup_insert_ne, lookup_empty by done.
Qed.

(** The rule does not hold of every main name: a name may hold braces. *)
Lemma platform_names_rule_fails_on_braces :
  ¬ (∀ base_name key,
       startswith base_name "@" = true →
       Format.format (Build.platform_name_template base_name) {["platform" := key]}
       = Ok (base_name +:+ "-" +:+ key)).
Proof.
  intros H. specialize (H "@s/{platform}" "linux-x64" eq_refl).
  vm_compute in H. discriminate.
Qed.

(** ** The platform keys *)

Lemma comprehension_keys (f : string → outcome string) l table :
  comprehension (λ p, name ← f p; Ok (p, name)) l = Ok table →
  map fst table = l.
Proof.
  revert table. induction l as [|p l IH]; intros table; simpl.
  - by intros [= <-].
  - destruct (f p) as [name| |]; [|done..]. simpl.
    destruct (comprehension _ l) as [table'| |]; [|done..]. simpl.
    intros [= <-]. simpl. by rewrite (IH table').
Qed.

Lemma platforms_table_keys base_name table :
  Build.platforms_table base_name = Ok table →
  Launcher.keys table = Build.main_platforms.
Proof. apply comprehension_keys. Qed.




(** *** The table as Node.js reads it *)











Example quoting_name_table :
  Build.platforms_mapping quoting_name
  = Ok ("  'win32-x64': '@x', 'freebsd-x64': 'y/win32-x64'," +:+ Build.newline
        +:+ "  'darwin-x64': '@x', 'freebsd-x64': 'y/darwin-x64'," +:+ Build.newline
        +:+ "  'darwin-arm64': '@x', 'freebsd-x64': 'y/darwin-arm64'," +:+ Build.newline
        +:+ "  'linux-x64': '@x', 'freebsd-x64': 'y/linux-x64'," +:+ Build.newline
        +:+ "  'linux-arm64': '@x', 'freebsd-x64': 'y/linux-arm64',").
Proof. vm_compute. reflexivity. Qed.

(** ** Version injection *)

Lemma prefix_app s t : String.prefix s (s +:+ t) = true.
Proof.
  induction s as [|c s IH].
  - simpl. by destruct ("" +:+ t).
  - rewrite app_String. simpl. by destruct (ascii_dec c c).
Qed.

Lemma carries_flag symbol value parts :
  flag symbol value ∈ parts → carries symbol parts.
Proof.
  intros Hin. exists (flag symbol value). split; [done|].
  unfold flag.
  replace ("-X 'main." +:+ symbol +:+ "=" +:+ value +:+ "'")
    with (("-X 'main." +:+ symbol +:+ "=") +:+ value +:+ "'")
    by (by rewrite !app_assoc_str).
  apply prefix_app.
Qed.

(** Members of a short explicit list, one at a time. *)
Ltac members H :=
  repeat (apply elem_of_cons in H as [->|H]); [..|by apply elem_of_nil in H].

Ltac member :=
  repeat first [apply list_elem_of_here | apply list_elem_of_further].

Ltac no_such_flag H :=
  let part := fresh "part" in
  let Hin := fresh "Hin" in
  let Hp := fresh "Hp" in
  destruct H as (part & Hin & Hp); members Hin; vm_compute in Hp; discriminate.

Lemma ldflags_parts_spec vm pre meta ch :
  let parts := Build.ldflags_parts vm pre meta ch in
  flag "VERSION_PRERELEASE" pre ∈ parts
  ∧ (carries "VERSION_MAIN" parts ↔ vm ≠ "")
  ∧ (carries "VERSION_BUILD_METADATA" parts ↔ meta ≠ "")
  ∧ (carries "APP_CHANNEL" parts ↔ ch ≠ "")
  ∧ (vm ≠ "" → flag "VERSION_MAIN" vm ∈ parts)
  ∧ (meta ≠ "" → flag "VERSION_BUILD_METADATA" meta ∈ parts)
  ∧ (ch ≠ "" → flag "APP_CHANNEL" ch ∈ parts).
Proof.
  intros parts. subst parts. unfold Build.ldflags_parts.
  rewrite <-!truthy_spec.
  destruct (truthy vm), (truthy meta), (truthy ch); simpl;
    change ("-X 'main.VERSION_MAIN=" +:+ vm +:+ "'") with (flag "VERSION_MAIN" vm);
    change ("-X 'main.VERSION_PRERELEASE=" +:+ pre +:+ "'")
      with (flag "VERSION_PRERELEASE" pre);
    change ("-X 'main.VERSION_BUILD_METADATA=" +:+ meta +:+ "'")
      with (flag "VERSION_BUILD_METADATA" meta);
    change ("-X 'main.APP_CHANNEL=" +:+ ch +:+ "'") with (flag "APP_CHANNEL" ch);
    (split_and!;
     [ member
     | split; [first [done | intros H; no_such_flag H]
              | first [done | intros _; apply (carries_flag _ vm); member] ]
     | split; [first [done | intros H; no_such_flag H]
              | first [done | intros _; apply (carries_flag _ meta); member] ]
     | split; [first [done | intros H; no_such_flag H]
              | first [done | intros _; apply (carries_flag _ ch); member] ]
     | first [done | intros _; member]
     | first [done | intros _; member]
     | first [done | intros _; member] ]).
Qed.

(** ** The optional dependencies of the main package *)

Lemma list_ascii_app s t :
  String.list_ascii_of_string (s +:+ t)
  = String.list_ascii_of_string s ++ String.list_ascii_of_string t.
Proof.
  induction s as [|c s IH]; [done|]. rewrite app_String. simpl. by rewrite IH.
Qed.

Lemma list_ascii_length s :
  length (String.list_ascii_of_string s) = String.length s.
Proof. induction s as [|c s IH]; simpl; by rewrite ?IH. Qed.

Lemma tail_chars_app n p k :
  (n ≤ String.length k)%nat → tail_chars n (p +:+ k) = tail_chars n k.
Proof.
  intros Hn. unfold tail_chars.
  rewrite list_ascii_app, reverse_app, take_app_le; [done|].
  by rewrite length_reverse, list_ascii_length.
Qed.

(** Two names that end with two of the five keys end with the same key: no
    key is the end of another. *)
Lemma ends_with_key_inj p1 p2 k1 k2 :
  k1 ∈ Build.main_platforms → k2 ∈ Build.main_platforms →
  p1 +:+ k1 = p2 +:+ k2 → k1 = k2.
Proof.
  intros H1 H2 Heq. apply (f_equal (tail_chars 9)) in Heq.
  unfold Build.main_platforms in H1, H2. members H1; members H2;
    rewrite !tail_chars_app in Heq by (simpl; lia);
    first [reflexivity | by vm_compute in Heq].
Qed.

Lemma comprehension_Forall2 {A B} (f : A → outcome B) l r :
  comprehension f l = Ok r → Forall2 (λ a b, f a = Ok b) l r.
Proof.
  revert r. induction l as [|a l IH]; intros r; simpl.
  - intros [= <-]. constructor.
  - destruct (f a) as [b| |] eqn:Hfa; [|done..]. simpl.
    destruct (comprehension f l) as [r'| |]; [|done..]. simpl.
    intros [= <-]. constructor; [done|]. by apply IH.
Qed.

Lemma Forall2_NoDup {A B} (R : A → B → Prop) l k :
  Forall2 R l k → NoDup l →
  (∀ a1 a2 b, a1 ∈ l → a2 ∈ l → R a1 b → R a2 b → a1 = a2) →
  NoDup k.
Proof.
  induction 1 as [|a b l k Hab Hlk IH]; intros Hnd Hinj; [constructor|].
  apply NoDup_cons in Hnd as [Ha Hnd]. constructor.
  - intros [i Hi]%list_elem_of_lookup_1.
    destruct (Forall2_lookup_r _ _ _ _ _ Hlk Hi) as (a' & Ha' & Ha'b).
    apply list_elem_of_lookup_2 in Ha'.
    assert (a = a') as ->; [|done].
    apply (Hinj a a' b); [left|by right|done..].
  - apply IH; [done|]. intros a1 a2 b' H1 H2. apply Hinj; by right.
Qed.

Lemma dict_of_dom_from items (d : gmap string string) :
  dom (foldl (λ d (kv : string * string), <[kv.1 := kv.2]> d) d items)
  = dom d ∪ list_to_set items.*1.
Proof.
  revert d. induction items as [|[k v] items IH]; intros d; simpl.
  - by rewrite (right_id_L ∅ (∪)).
  - rewrite IH, dom_insert_L, (comm_L (∪) {[k]}).
    by rewrite <-(assoc_L (∪)).
Qed.

Lemma dict_of_values_from v items (d : gmap string string) :
  Forall (λ kv : string * string, kv.2 = v) items →
  map_Forall (λ _ x, x = v) d →
  map_Forall (λ _ x, x = v)
    (foldl (λ d (kv : string * string), <[kv.1 := kv.2]> d) d items).
Proof.
  revert d. induction items as [|[k x] items IH]; intros d Hv Hd; simpl; [done|].
  apply Forall_cons in Hv as [Hx Hv]. apply IH; [done|].
  apply map_Forall_insert_2; [done|done].
Qed.

Lemma dict_of_size items :
  NoDup items.*1 → size (Build.dict_of items) = length items.
Proof.
  intros Hnd. unfold Build.dict_of.
  rewrite <-size_dom, dict_of_dom_from, dom_empty_L, (left_id_L ∅ (∪)).
  by rewrite size_list_to_set, length_fmap.
Qed.

Lemma dict_of_lookup items k v :
  (k, v) ∈ items → ∃ v', Build.dict_of items !! k = Some v'.
Proof.
  intros Hin. apply (elem_of_dom (D := gset string)).
  unfold Build.dict_of. rewrite dict_of_dom_from.
  apply elem_of_union_r, elem_of_list_to_set, list_elem_of_fmap.
  by exists (k, v).
Qed.

Lemma main_template_ends_with_field base_name :
  ∃ t, Build.main_platform_name_template base_name = t +:+ "{platform}".
Proof.
  unfold Build.main_platform_name_template. destruct (startswith base_name "@").
  - exists (base_name +:+ "-"). by rewrite app_assoc_str.
  - exists ("@" +:+ base_name +:+ "/"). by rewrite !app_assoc_str.
Qed.

Lemma main_names_distinct base_name p1 p2 name :
  p1 ∈ Build.main_platforms → p2 ∈ Build.main_platforms →
  Format.format (Build.main_platform_name_template base_name) {["platform" := p1]}
  = Ok name →
  Format.format (Build.main_platform_name_template base_name) {["platform" := p2]}
  = Ok name →
  p1 = p2.
Proof.
  intros Hp1 Hp2. destruct (main_template_ends_with_field base_name) as [t ->].
  intros [q1 ->]%scan_ends_with_key [q2 Heq]%scan_ends_with_key.
  by apply (ends_with_key_inj q1 q2).
Qed.

(** C4: the main manifest carries the version it is given, and its
    [optionalDependencies] has one entry for each of the five platform keys,
    five in all, each with that same version as its value. *)
Theorem optional_dependencies_pinned version base_name j :
  Build.main_package_json version base_name = Ok j →
  Build.mj_version j = version
  ∧ size (Build.mj_optionalDependencies j) = 5%nat
  ∧ size (Build.mj_optionalDependencies j) = length Build.main_platforms
  ∧ (∀ p, p ∈ Build.main_platforms →
       ∃ name,
         Format.format (Build.main_platform_name_template base_name)
           {["platform" := p]} = Ok name
         ∧ Build.mj_optionalDependencies j !! name = Some version)
  ∧ (∀ name v, Build.mj_optionalDependencies j !! name = Some v → v = version).
Proof.
  unfold Build.main_package_json, Build.optional_deps.
  destruct (comprehension _ Build.main_platforms) as [items| |] eqn:Hitems;
    [|done..].
  simpl. intros [= <-]. simpl.
  apply comprehension_Forall2 in Hitems.
  assert (Hnames : Forall2 (λ p (kv : string * string),
            Format.format (Build.main_platform_name_template base_name)
              {["platform" := p]} = Ok kv.1 ∧ kv.2 = version)
            Build.main_platforms items).
  { eapply Forall2_impl; [exact Hitems|]. intros p kv. simpl.
    destruct (Format.format _ _) as [name| |]; [|done..]. simpl.
    by intros [= <-]. }
  clear Hitems.
  assert (Hvalues : map_Forall (λ _ x, x = version) (Build.dict_of items)).
  { apply dict_of_values_from; [|apply map_Forall_empty].
    eapply Forall2_Forall_r; [exact Hnames|].
    apply Forall_forall. by intros p _ kv [_ ?]. }
  assert (Hsize : size (Build.dict_of items) = length Build.main_platforms).
  { rewrite dict_of_size.
    - symmetry. by eapply Forall2_length.
    - eapply (Forall2_NoDup (λ p name,
        Format.format (Build.main_platform_name_template base_name)
          {["platform" := p]} = Ok name) Build.main_platforms).
      + apply Forall2_fmap_r. eapply Forall2_impl; [exact Hnames|].
        by intros p kv [? _].
      + apply (bool_decide_unpack _). by vm_compute.
      + intros p1 p2 name Hp1 Hp2. by apply main_names_distinct. }
  split_and!; [done|exact Hsize|exact Hsize| |].
  - intros p [i Hi]%list_elem_of_lookup_1.
    destruct (Forall2_lookup_l _ _ _ _ _ Hnames Hi) as ([name v] & Hkv & Hname & Hv).
    simpl in Hname, Hv. subst v. exists name. split; [done|].
    apply list_elem_of_lookup_2 in Hkv.
    destruct (dict_of_lookup _ _ _ Hkv) as [v' Hv'].
    by rewrite Hv', (Hvalues _ _ Hv').
  - intros name v Hv. by apply (Hvalues name).
Qed.

Lemma optional_dependencies_pinned_witness :
  ∃ j, Build.main_package_json "1.2.3" "codekanban" = Ok j
       ∧ size (Build.mj_optionalDependencies j) = 5%nat.
Proof.
  eexists. split; [vm_compute; reflexivity|].
  eapply (optional_dependencies_pinned "1.2.3" "codekanban").
  vm_compute. reflexivity.
Defined.

(** ** The build matrix *)

Section build_matrix.
Import Build.
Variable w : world.
Variable ldflags : string.
Variable environ : gmap string string.

(** A copy of the environment with the three items of a target set in it;
    the object it was copied from is as it was. *)
Lemma copied_env (m : gmap ref (gmap string string)) (n : ref) goos goarch :
  m !! os_environ = Some environ → n ≠ os_environ →
  let m' :=
    alter <["CGO_ENABLED" := "0"]> n
      (alter <["GOARCH" := goarch]> n
         (alter <["GOOS" := goos]> n (<[n := m !!! os_environ]> m))) in
  m' !!! n = target_env environ goos goarch ∧ m' !! os_environ = Some environ.
Proof.
  intros Henv Hn m'. subst m'. split.
  - apply lookup_total_correct.
    rewrite !lookup_alter_eq, lookup_insert_eq.
    by rewrite (lookup_total_correct _ _ _ Henv).
  - by rewrite !lookup_alter_ne, lookup_insert_ne.
Qed.

Lemma build_targets_run platforms : ∀ success_count total_size s,
  dicts s !! os_environ = Some environ →
  (0 < next_ref s)%nat →
  ∃ s',
    build_targets w ldflags platforms success_count total_size s
    = (Ok (matrix_run w ldflags environ platforms (next_ref s)).2, s')
    ∧ log s' = log s ++ (matrix_run w ldflags environ platforms (next_ref s)).1
    ∧ dicts s' !! os_environ = Some environ
    ∧ (0 < next_ref s')%nat.
Proof.
  induction platforms as [|[[[goos goarch] npm_os] npm_arch] rest IH];
    intros success_count total_size s Henv Hfresh.
  - exists s. simpl. by rewrite app_nil_r.
  - simpl. unfold mbind, M_bind, record, dict_copy, dict_setitem, subprocess_run_go.
    simpl.
    destruct (copied_env (dicts s) (next_ref s) goos goarch Henv) as [Hcopy Hamb];
      [unfold os_environ; lia|].
    simpl in Hcopy. rewrite Hcopy.
    destruct (decide (go_build w _ _ ≠ 0)) as [Hfail|Hok].
    + eexists. split; [reflexivity|]. simpl.
      split_and!; [by rewrite <-!app_assoc|done|lia].
    + set (s0 := {| dicts := _; next_ref := S (next_ref s); log := _ |}).
      assert (Hrest : ∀ sc ts, ∃ s',
        build_targets w ldflags rest sc ts s0
        = (Ok (matrix_run w ldflags environ rest (S (next_ref s))).2, s')
        ∧ log s' = log s0 ++ (matrix_run w ldflags environ rest (S (next_ref s))).1
        ∧ dicts s' !! os_environ = Some environ
        ∧ (0 < next_ref s')%nat).
      { intros sc ts. apply (IH sc ts s0); [done|simpl; lia]. }
      destruct (matrix_run w ldflags environ rest (S (next_ref s)))
        as [later ret] eqn:Hlater.
      simpl in Hrest |- *.
      destruct (st_size w _) as [size|];
        [destruct (Hrest (S success_count) (total_size + size))
           as (s' & Hrun & Hlog & Henv' & Hfresh')
        |destruct (Hrest success_count total_size)
           as (s' & Hrun & Hlog & Henv' & Hfresh')];
        exists s'; rewrite Hrun, Hlog; subst s0; simpl;
        (split_and!; [done|by rewrite <-!app_assoc|done|done]).
Qed.

(** A toolchain run that fails is the last thing the loop does, and its
    return code is the loop's. *)
Lemma matrix_run_failure platforms : ∀ fresh cmd cwd env_ref env,
  GoBuild cmd cwd env_ref env ∈ (matrix_run w ldflags environ platforms fresh).1 →
  go_build w cmd env ≠ 0 →
  (matrix_run w ldflags environ platforms fresh).2 = go_build w cmd env
  ∧ ∃ before,
      (matrix_run w ldflags environ platforms fresh).1
      = before ++ [GoBuild cmd cwd env_ref env].
Proof.
  induction platforms as [|[[[goos goarch] npm_os] npm_arch] rest IH];
    intros fresh cmd cwd env_ref env; simpl.
  - by intros ?%elem_of_nil.
  - destruct (decide (go_build w _ _ ≠ 0)) as [Hfail|Hok]; simpl.
    + intros Hin Hne. apply elem_of_cons in Hin as [Hin|Hin]; [done|].
      apply list_elem_of_singleton in Hin. injection Hin as -> -> -> ->.
      split; [done|]. by eexists [_].
    + specialize (IH (S fresh) cmd cwd env_ref env).
      destruct (matrix_run w ldflags environ rest (S fresh)) as [later ret].
      simpl in IH |- *. intros Hin Hne.
      apply elem_of_cons in Hin as [Hin|Hin]; [done|].
      apply elem_of_cons in Hin as [Hin|Hin].
      { injection Hin as -> -> -> ->. done. }
      destruct (IH Hin Hne) as [-> [before ->]].
      split; [done|]. by eexists (_ :: _ :: before).
Qed.

Lemma matrix_run_no_package platforms : ∀ fresh,
  Forall (λ e, is_package_output e = false)
    (matrix_run w ldflags environ platforms fresh).1.
Proof.
  induction platforms as [|[[[goos goarch] npm_os] npm_arch] rest IH];
    intros fresh; simpl; [constructor|].
  destruct (decide (go_build w _ _ ≠ 0)); simpl.
  - by repeat constructor.
  - specialize (IH (S fresh)).
    destruct (matrix_run w ldflags environ rest (S fresh)) as [later ret].
    by repeat constructor.
Qed.

(** Each run gets the ambient environment with its own target's three
    items, in a dictionary of its own. *)
Lemma matrix_run_env platforms : ∀ fresh cmd cwd env_ref env,
  GoBuild cmd cwd env_ref env ∈ (matrix_run w ldflags environ platforms fresh).1 →
  (fresh ≤ env_ref)%nat
  ∧ ∃ goos goarch npm_os npm_arch,
      (goos, goarch, npm_os, npm_arch) ∈ platforms
      ∧ env = target_env environ goos goarch
      ∧ cmd = build_cmd w ldflags
                (npm_packages_dir </> (npm_os +:+ "-" +:+ npm_arch)
                 </> output_name goos).
Proof.
  induction platforms as [|[[[goos goarch] npm_os] npm_arch] rest IH];
    intros fresh cmd cwd env_ref env; simpl.
  - by intros ?%elem_of_nil.
  - assert (Hfirst :
      GoBuild cmd cwd env_ref env
      = GoBuild (build_cmd w ldflags
                   (npm_packages_dir </> (npm_os +:+ "-" +:+ npm_arch)
                    </> output_name goos))
                root_dir fresh (target_env environ goos goarch) →
      (fresh ≤ env_ref)%nat
      ∧ ∃ goos' goarch' npm_os' npm_arch',
          (goos', goarch', npm_os', npm_arch')
            ∈ (goos, goarch, npm_os, npm_arch) :: rest
          ∧ env = target_env environ goos' goarch'
          ∧ cmd = build_cmd w ldflags
                    (npm_packages_dir </> (npm_os' +:+ "-" +:+ npm_arch')
                     </> output_name goos')).
    { intros [= -> -> -> ->]. split; [done|].
      exists goos, goarch, npm_os, npm_arch. split; [left|done]. }
    destruct (decide (go_build w _ _ ≠ 0)); simpl.
    + intros Hin. apply elem_of_cons in Hin as [Hin|Hin]; [done|].
      apply list_elem_of_singleton in Hin. by apply Hfirst.
    + specialize (IH (S fresh) cmd cwd env_ref env).
      destruct (matrix_run w ldflags environ rest (S fresh)) as [later ret].
      simpl in IH |- *. intros Hin.
      apply elem_of_cons in Hin as [Hin|Hin]; [done|].
      apply elem_of_cons in Hin as [Hin|Hin]; [by apply Hfirst|].
      destruct (IH Hin) as (Href & goos' & goarch' & npm_os' & npm_arch' & Ht & ?).
      split; [lia|]. exists goos', goarch', npm_os', npm_arch'.
      split; [by right|done].
Qed.

Lemma matrix_run_refs platforms : ∀ fresh,
  NoDup (env_refs (matrix_run w ldflags environ platforms fresh).1)
  ∧ Forall (λ r, fresh ≤ r)%nat
      (env_refs (matrix_run w ldflags environ platforms fresh).1).
Proof.
  induction platforms as [|[[[goos goarch] npm_os] npm_arch] rest IH];
    intros fresh; simpl.
  - split; constructor.
  - destruct (decide (go_build w _ _ ≠ 0)); simpl.
    + split; [apply NoDup_singleton|by repeat constructor].
    + specialize (IH (S fresh)).
      destruct (matrix_run w ldflags environ rest (S fresh)) as [later ret].
      simpl in IH |- *. destruct IH as [Hnd Hge]. split.
      * constructor; [|done]. intros Hin.
        rewrite Forall_forall in Hge. apply Hge in Hin. lia.
      * constructor; [done|]. eapply Forall_impl; [exact Hge|].
        intros r ?. simpl in *. lia.
Qed.

(** Steps 4 and 5 start no toolchain and touch no dictionary. *)
Lemma platform_packages_loop_frame version base_name platforms : ∀ s,
  ∃ r events,
    platform_packages_loop version base_name platforms s
    = (r, {| dicts := dicts s; next_ref := next_ref s; log := log s ++ events |})
    ∧ Forall (λ e, is_go_build e = false) events.
Proof.
  induction platforms as [|[npm_os npm_arch] rest IH]; intros s; simpl.
  - exists (Ok 0), []. destruct s. simpl. by rewrite app_nil_r.
  - unfold mbind, M_bind, record, lift. simpl.
    destruct (platform_package_json version base_name npm_os npm_arch)
      as [package_json| |]; simpl.
    + edestruct IH as (r & events & -> & Hev). simpl.
      exists r. eexists (_ :: _ :: events).
      split; [by rewrite <-!app_assoc|by repeat constructor].
    + exists Raises. eexists [_]. split; [done|by repeat constructor].
    + exists Unmodelled. eexists [_]. split; [done|by repeat constructor].
Qed.

Lemma create_main_package_frame version base_name s :
  ∃ r events,
    create_main_package version base_name s
    = (r, {| dicts := dicts s; next_ref := next_ref s; log := log s ++ events |})
    ∧ Forall (λ e, is_go_build e = false) events.
Proof.
  unfold create_main_package, mbind, M_bind, record, lift. simpl.
  destruct (platforms_mapping base_name) as [mapping| |]; simpl;
    [|eexists _, []; destruct s; simpl; rewrite app_nil_r; by split..].
  destruct (main_package_json version base_name) as [j| |]; simpl.
  - eexists _, [_; _; _]. split; [by rewrite <-!app_assoc|by repeat constructor].
  - eexists _, [_; _]. split; [by rewrite <-!app_assoc|by repeat constructor].
  - eexists _, [_; _]. split; [by rewrite <-!app_assoc|by repeat constructor].
Qed.

End build_matrix.

Section build_main.
Import Build.
Variable w : world.
Variable a : args.
Variable environ : gmap string string.

Let ldflags : string :=
  join " " (ldflags_parts (version_main a) (version_prerelease a)
              (version_build_metadata a) (app_channel a)).
Let matrix : list event * Z := matrix_run w ldflags environ go_platforms 1%nat.

Local Arguments matrix_run : simpl never.

(** The shape of a whole run: what comes before the build matrix, the
    matrix, and what comes after it. *)
Lemma main_run r s' :
  main w a (initial environ) = (r, s') →
  dicts s' !! os_environ = Some environ
  ∧ ∃ prelude,
      Forall (λ e, is_go_build e = false ∧ is_package_output e = false) prelude
      ∧ (log s' = prelude
         ∨ (matrix.2 ≠ 0 ∧ r = Ok matrix.2 ∧ log s' = prelude ++ matrix.1)
         ∨ (matrix.2 = 0
            ∧ ∃ packaging,
                log s' = prelude ++ matrix.1 ++ packaging
                ∧ Forall (λ e, is_go_build e = false) packaging)).
Proof.
  assert (Hinit : dicts (initial environ) !! os_environ = Some environ)
    by apply lookup_singleton_eq.
  unfold main, mbind, M_bind, run_command, copy_dist_to_static.
  unfold mbind, M_bind, record, mret, M_ret.
  set (s0 := initial environ) in *.
  assert (Hlog0 : log s0 = []) by done.
  assert (Hnext0 : next_ref s0 = 1%nat) by done.
  clearbody s0.
  destruct (npm_packages_dir_exists w); simpl;
    (destruct (ui_dir_exists w); simpl;
     [|intros [= <- <-]; simpl; split; [done|];
       eexists; split; [|left; rewrite Hlog0; reflexivity];
       by repeat constructor]);
    (destruct (is_windows w); simpl);
    (destruct (decide (pnpm_build w ≠ 0)); simpl;
     [intros [= <- <-]; simpl; split; [done|];
       eexists; split; [|left; rewrite Hlog0; reflexivity];
       by repeat constructor|]);
    (destruct (dist_dir_exists w); simpl;
     [|intros [= <- <-]; simpl; split; [done|];
       eexists; split; [|left; rewrite Hlog0; reflexivity];
       by repeat constructor]).
  all: unfold build_go_multiplatform; fold ldflags.
  all: match goal with
       | |- context [build_targets w ldflags go_platforms 0%nat 0 ?s1] =>
           destruct (build_targets_run w ldflags environ go_platforms 0%nat 0 s1)
             as (s2 & Hrun & Hlog & Henv & Hfresh);
             [done|simpl; lia|]; rewrite Hrun; clear Hrun
       end.
  all: simpl in Hlog; rewrite Hnext0, Hlog0 in Hlog; fold matrix in Hlog |- *.
  all: simpl; rewrite ?Hnext0; fold matrix.
  all: destruct (decide (matrix.2 ≠ 0)) as [Hfail|Hok]; simpl;
    [intros [= <- <-]; split; [done|];
     eexists; split; [|right; left; split_and!; [done|done|exact Hlog]];
     by repeat constructor|].
  all: apply dec_stable in Hok.
  all: unfold create_platform_packages;
    destruct (platform_packages_loop_frame (version a) (package_name a)
                package_platforms s2) as (r4 & events4 & -> & Hev4).
  all: assert (Hdone : ∀ r' packaging,
         Forall (λ e, is_go_build e = false) packaging →
         (r', {| dicts := dicts s2; next_ref := next_ref s2;
                 log := log s2 ++ packaging |}) = (r, s') →
         dicts s' !! os_environ = Some environ
         ∧ ∃ prelude,
             Forall (λ e, is_go_build e = false ∧ is_package_output e = false)
               prelude
             ∧ (log s' = prelude
                ∨ (matrix.2 ≠ 0 ∧ r = Ok matrix.2 ∧ log s' = prelude ++ matrix.1)
                ∨ (matrix.2 = 0
                   ∧ ∃ packaging,
                       log s' = prelude ++ matrix.1 ++ packaging
                       ∧ Forall (λ e, is_go_build e = false) packaging)));
    [intros r' packaging Hpk [= <- <-]; simpl; split; [done|];
     eexists; split;
       [|right; right; split; [done|];
         exists packaging; split; [by rewrite Hlog, <-app_assoc|done]];
     by repeat constructor|].
  all: destruct r4 as [ret4| |]; [|by apply Hdone..].
  all: destruct (decide (ret4 ≠ 0)); [by apply Hdone|].
  all: match goal with
       | |- context [create_main_package ?v ?b ?s4] =>
           destruct (create_main_package_frame v b s4)
             as (r5 & events5 & -> & Hev5)
       end.
  all: simpl; rewrite <-app_assoc.
  all: destruct r5 as [ret5| |];
    [destruct (decide (ret5 ≠ 0))|..];
    apply Hdone; by apply Forall_app.
Qed.

End build_main.

Example third_target_fails_run :
  (Build.main third_target_fails sample_args (Build.initial sample_environ)).1 = Ok 2
  ∧ map (λ e, match e with
              | Build.Mkdir p => ("mkdir", join "/" p)
              | Build.GoBuild cmd _ _ env =>
                  (default "" (env !! "GOOS") +:+ "/" +:+ default "" (env !! "GOARCH"),
                   default "" (cmd !! 5%nat))
              | Build.Rmtree p => ("rmtree", join "/" p)
              | Build.RunCommand cmd _ _ => ("run", join " " cmd)
              | Build.CleanStaticDir p => ("clean", join "/" p)
              | Build.CopyDistToStatic p _ => ("copy", join "/" p)
              | Build.Touch p => ("touch", join "/" p)
              | Build.DumpPlatformJson p _ => ("dump", join "/" p)
              | Build.WriteLauncher p _ => ("write", join "/" p)
              | Build.DumpMainJson p _ => ("dump", join "/" p)
              end)
      (Build.log
         (Build.main third_target_fails sample_args (Build.initial sample_environ)).2)
    = [ ("rmtree", "npm-packages"); ("mkdir", "npm-packages");
        ("run", "pnpm build"); ("clean", "static"); ("copy", "ui/dist");
        ("mkdir", "npm-packages/linux-x64");
        ("linux/amd64", "npm-packages/linux-x64/codekanban");
        ("mkdir", "npm-packages/linux-arm64");
        ("linux/arm64", "npm-packages/linux-arm64/codekanban");
        ("mkdir", "npm-packages/darwin-x64");
        ("darwin/amd64", "npm-packages/darwin-x64/codekanban") ].
Proof. split; vm_compute; reflexivity. Qed.

Lemma env_refs_none events :
  Forall (λ e, is_go_build e = false) events → env_refs events = [].
Proof.
  induction 1 as [|e events He _ IH]; [done|].
  destruct e; try done; exact IH.
Qed.

Lemma env_refs_app l k : env_refs (l ++ k) = env_refs l ++ env_refs k.
Proof. apply omap_app. Qed.

(** ** A failing target *)

(** C3: when a toolchain run of the build returns a non-zero code, that run is
    the last thing the build does (no later target is built), the build
    returns that non-zero code, which becomes the exit code of the process, and
    no marker, manifest or launcher is written for any target.  The directories
    and the binaries of the targets built before stay where the toolchain put
    them; they are not packages. *)
Theorem failed_target_aborts_run w a environ cmd cwd env_ref env :
  Build.GoBuild cmd cwd env_ref env
    ∈ Build.log (Build.main w a (Build.initial environ)).2 →
  Build.go_build w cmd env ≠ 0 →
  (∃ before,
     Build.log (Build.main w a (Build.initial environ)).2
     = before ++ [Build.GoBuild cmd cwd env_ref env])
  ∧ (∃ ret, (Build.main w a (Build.initial environ)).1 = Ok ret
            ∧ ret = Build.go_build w cmd env ∧ ret ≠ 0)
  ∧ Forall (λ e, is_package_output e = false)
      (Build.log (Build.main w a (Build.initial environ)).2).
Proof.
  destruct (Build.main w a (Build.initial environ)) as [r s'] eqn:Hmain. simpl.
  destruct (main_run w a environ r s' Hmain) as (_ & prelude & Hpre & Hcases).
  intros Hin Hne.
  assert (Hprelude : Build.GoBuild cmd cwd env_ref env ∉ prelude).
  { intros H. rewrite Forall_forall in Hpre. by apply Hpre in H as [? _]. }
  assert (Hquiet : Forall (λ e, is_package_output e = false) prelude).
  { eapply Forall_impl; [exact Hpre|]. by intros e [_ ?]. }
  destruct Hcases as [Hlog|[(Hfail & -> & Hlog)|(Hok & packaging & Hlog & Hpk)]];
    rewrite Hlog in Hin |- *.
  - done.
  - apply elem_of_app in Hin as [Hin|Hin]; [done|].
    destruct (matrix_run_failure _ _ _ _ _ _ _ _ _ Hin Hne) as [Hret [before Hev]].
    split_and!.
    + exists (prelude ++ before). by rewrite Hev, app_assoc.
    + exists (Build.go_build w cmd env). by rewrite Hret.
    + apply Forall_app. split; [done|apply matrix_run_no_package].
  - apply elem_of_app in Hin as [Hin|Hin]; [done|].
    apply elem_of_app in Hin as [Hin|Hin].
    + destruct (matrix_run_failure _ _ _ _ _ _ _ _ _ Hin Hne) as [Hret _]. congruence.
    + rewrite Forall_forall in Hpk. by apply Hpk in Hin.
Qed.

Lemma failed_target_aborts_run_witness :
  Build.go_build third_target_fails third_target_cmd
    (target_env sample_environ "darwin" "amd64") ≠ 0
  ∧ ∃ ret,
      (Build.main third_target_fails sample_args (Build.initial sample_environ)).1
      = Ok ret
      ∧ ret = Build.go_build third_target_fails third_target_cmd
                (target_env sample_environ "darwin" "amd64")
      ∧ ret ≠ 0.
Proof.
  assert (Hne : Build.go_build third_target_fails third_target_cmd
                  (target_env sample_environ "darwin" "amd64") ≠ 0)
    by (vm_compute; discriminate).
  split; [exact Hne|].
  refine (proj1 (proj2 (failed_target_aborts_run third_target_fails sample_args
    sample_environ third_target_cmd Build.root_dir 3%nat
    (target_env sample_environ "darwin" "amd64") _ Hne))).
  vm_compute. member.
Defined.

(** ** The environment of the toolchain *)

Lemma target_env_lookup environ goos goarch :
  target_env environ goos goarch !! "GOOS" = Some goos
  ∧ target_env environ goos goarch !! "GOARCH" = Some goarch
  ∧ target_env environ goos goarch !! "CGO_ENABLED" = Some "0"
  ∧ ∀ name, name ≠ "GOOS" → name ≠ "GOARCH" → name ≠ "CGO_ENABLED" →
      target_env environ goos goarch !! name = environ !! name.
Proof.
  unfold target_env. split_and!.
  - do 2 (rewrite lookup_insert_ne by done). by rewrite lookup_insert_eq.
  - rewrite lookup_insert_ne by done. by rewrite lookup_insert_eq.
  - by rewrite lookup_insert_eq.
  - intros name ???. by rewrite !lookup_insert_ne by done.
Qed.

Lemma matrix_run_builds w ldflags environ platforms : ∀ fresh,
  ∃ n,
    filter (λ e, is_go_build e = true)
      (matrix_run w ldflags environ platforms fresh).1
    = take n (imap (λ i, target_run w ldflags environ (fresh + i)%nat) platforms).
Proof.
  induction platforms as [|[[[goos goarch] npm_os] npm_arch] rest IH];
    intros fresh.
  { by exists 0%nat. }
  change (matrix_run w ldflags environ ((goos, goarch, npm_os, npm_arch) :: rest)
            fresh)
    with (let dir := platform_dir (npm_os +:+ "-" +:+ npm_arch) in
          let cmd :=
            Build.build_cmd w ldflags
              (Build.path_div dir (Build.output_name goos)) in
          let env := target_env environ goos goarch in
          let started :=
            [Build.Mkdir dir; Build.GoBuild cmd Build.root_dir fresh env] in
          if decide (Build.go_build w cmd env ≠ 0)
          then (started, Build.go_build w cmd env)
          else
            let '(later, ret) := matrix_run w ldflags environ rest (S fresh) in
            (started ++ later, ret)).
  cbv zeta. rewrite imap_cons. cbn [target_run]. rewrite Nat.add_0_r.
  destruct (decide (Build.go_build w _ _ ≠ 0)) as [Hfail|Hok].
  - by exists 1%nat.
  - destruct (IH (S fresh)) as [n Hn].
    destruct (matrix_run w ldflags environ rest (S fresh)) as [later ret].
    exists (S n). cbn [fst] in Hn |- *.
    rewrite filter_app, Hn. cbn [take]. unfold target_env.
    change (filter _ [Build.Mkdir _; Build.GoBuild _ _ _ _])
      with [Build.GoBuild
              (Build.build_cmd w ldflags
                 (Build.path_div (platform_dir (npm_os +:+ "-" +:+ npm_arch))
                    (Build.output_name goos)))
              Build.root_dir fresh
              (<["CGO_ENABLED" := "0"]>
                 (<["GOARCH" := goarch]> (<["GOOS" := goos]> environ)))].
    cbn [app]. do 2 f_equal. apply imap_ext. intros i t _. simpl.
    by rewrite Nat.add_succ_r.
Qed.

Lemma filter_no_build events :
  Forall (λ e, is_go_build e = false) events →
  filter (λ e, is_go_build e = true) events = [].
Proof.
  induction 1 as [|e events He _ IH]; [done|].
  rewrite filter_cons_False; [done|]. by rewrite He.
Qed.

(** C10: every toolchain run is handed a dictionary of its own, a copy of
    [os.environ] as it was when the script started with [GOOS], [GOARCH] and
    [CGO_ENABLED] set for its own target: the run whose command builds a
    target's binary into that target's directory is the run that gets that
    target's [GOOS] and [GOARCH], and the runs of the log are, in the order
    of the log, the runs of the first targets of the list, each with its own
    values.  [os.environ] itself holds at the end what it held at the start,
    and no two runs share a dictionary, so nothing set for one target
    reaches another. *)
Theorem toolchain_env_is_a_fresh_copy w a environ :
  Build.dicts (Build.main w a (Build.initial environ)).2 !! Build.os_environ
  = Some environ
  ∧ (∀ cmd cwd env_ref env,
       Build.GoBuild cmd cwd env_ref env
         ∈ Build.log (Build.main w a (Build.initial environ)).2 →
       env_ref ≠ Build.os_environ
       ∧ ∃ goos goarch npm_os npm_arch,
           (goos, goarch, npm_os, npm_arch) ∈ Build.go_platforms
           ∧ cmd = Build.build_cmd w (ldflags_of a)
                     (Build.path_div (platform_dir (npm_os +:+ "-" +:+ npm_arch))
                        (Build.output_name goos))
           ∧ env = <["CGO_ENABLED" := "0"]>
                     (<["GOARCH" := goarch]> (<["GOOS" := goos]> environ))
           ∧ env !! "GOOS" = Some goos
           ∧ env !! "GOARCH" = Some goarch
           ∧ env !! "CGO_ENABLED" = Some "0"
           ∧ ∀ name, name ≠ "GOOS" → name ≠ "GOARCH" → name ≠ "CGO_ENABLED" →
               env !! name = environ !! name)
  ∧ (∃ n,
       filter (λ e, is_go_build e = true)
         (Build.log (Build.main w a (Build.initial environ)).2)
       = take n (imap (λ i, target_run w (ldflags_of a) environ (S i))
                   Build.go_platforms))
  ∧ NoDup (env_refs (Build.log (Build.main w a (Build.initial environ)).2)).
Proof.
  destruct (Build.main w a (Build.initial environ)) as [r s'] eqn:Hmain. simpl.
  destruct (main_run w a environ r s' Hmain) as (Hambient & prelude & Hpre & Hcases).
  fold (ldflags_of a) in Hcases.
  assert (Hquiet : Forall (λ e, is_go_build e = false) prelude).
  { eapply Forall_impl; [exact Hpre|]. by intros e [? _]. }
  assert (Hmatrix : ∀ cmd cwd env_ref env,
    Build.GoBuild cmd cwd env_ref env
      ∈ (matrix_run w (ldflags_of a) environ Build.go_platforms 1%nat).1 →
    env_ref ≠ Build.os_environ
    ∧ ∃ goos goarch npm_os npm_arch,
        (goos, goarch, npm_os, npm_arch) ∈ Build.go_platforms
        ∧ cmd = Build.build_cmd w (ldflags_of a)
                  (Build.path_div (platform_dir (npm_os +:+ "-" +:+ npm_arch))
                     (Build.output_name goos))
        ∧ env = target_env environ goos goarch
        ∧ env !! "GOOS" = Some goos
        ∧ env !! "GOARCH" = Some goarch
        ∧ env !! "CGO_ENABLED" = Some "0"
        ∧ ∀ name, name ≠ "GOOS" → name ≠ "GOARCH" → name ≠ "CGO_ENABLED" →
            env !! name = environ !! name).
  { intros cmd cwd env_ref env Hin.
    destruct (matrix_run_env _ _ _ _ _ _ _ _ _ Hin)
      as (Href & goos & goarch & npm_os & npm_arch & Ht & -> & ->).
    split; [unfold Build.os_environ; lia|].
    exists goos, goarch, npm_os, npm_arch.
    destruct (target_env_lookup environ goos goarch) as (? & ? & ? & ?).
    by split_and!. }
  assert (Hnone : ∀ events cmd cwd env_ref env,
    Forall (λ e, is_go_build e = false) events →
    Build.GoBuild cmd cwd env_ref env ∉ events).
  { intros events cmd cwd env_ref env Hev Hin.
    rewrite Forall_forall in Hev. by apply Hev in Hin. }
  destruct (matrix_run_builds w (ldflags_of a) environ Build.go_platforms 1%nat)
    as [n Hbuilds].
  split; [done|].
  destruct Hcases as [Hlog|[(Hfail & -> & Hlog)|(Hok & packaging & Hlog & Hpk)]];
    rewrite Hlog.
  - split_and!.
    + intros cmd cwd env_ref env Hin. by apply Hnone in Hin.
    + exists 0%nat. by rewrite filter_no_build.
    + rewrite env_refs_none by done. constructor.
  - split_and!.
    + intros cmd cwd env_ref env [Hin|Hin]%elem_of_app;
        [by apply Hnone in Hin|by eapply Hmatrix].
    + exists n. by rewrite filter_app, filter_no_build, Hbuilds.
    + rewrite env_refs_app, env_refs_none by done. apply matrix_run_refs.
  - split_and!.
    + intros cmd cwd env_ref env [Hin|[Hin|Hin]%elem_of_app]%elem_of_app;
        [by apply Hnone in Hin|by eapply Hmatrix|by apply Hnone in Hin].
    + exists n. rewrite !filter_app, (filter_no_build prelude) by done.
      rewrite (filter_no_build packaging) by done.
      by rewrite Hbuilds, app_nil_r.
    + rewrite !env_refs_app, (env_refs_none prelude), (env_refs_none packaging)
        by done.
      rewrite app_nil_r. apply matrix_run_refs.
Qed.

Example every_target_builds_envs :
  map (λ e, match e with
            | Build.GoBuild _ _ env_ref env =>
                Some (env_ref, env !! "GOOS", env !! "GOARCH",
                      env !! "CGO_ENABLED", env !! "PATH")
            | _ => None
            end)
    (filter (λ e, is_go_build e = true)
       (Build.log
          (Build.main every_target_builds sample_args
             (Build.initial sample_environ)).2))
  = [ Some (1%nat, Some "linux", Some "amd64", Some "0", Some "/usr/bin");
      Some (2%nat, Some "linux", Some "arm64", Some "0", Some "/usr/bin");
      Some (3%nat, Some "darwin", Some "amd64", Some "0", Some "/usr/bin");
      Some (4%nat, Some "darwin", Some "arm64", Some "0", Some "/usr/bin");
      Some (5%nat, Some "windows", Some "amd64", Some "0", Some "/usr/bin") ]
  ∧ Build.dicts
      (Build.main every_target_builds sample_args (Build.initial sample_environ)).2
    !! Build.os_environ = Some sample_environ.
Proof. split; vm_compute; reflexivity. Qed.

(** ** Version injection, on the command line of the toolchain *)

(** C5: whatever the four version strings are, the flag that sets
    [main.VERSION_PRERELEASE] is among the link-time flags, also when the
    string is empty, while [main.VERSION_MAIN], [main.VERSION_BUILD_METADATA]
    and [main.APP_CHANNEL] are set exactly when their strings are not empty;
    every toolchain run of the build gets these flags, joined, as its
    [-ldflags] argument. *)
Theorem version_injection_flags w a environ :
  let parts :=
    Build.ldflags_parts (Build.version_main a) (Build.version_prerelease a)
      (Build.version_build_metadata a) (Build.app_channel a) in
  flag "VERSION_PRERELEASE" (Build.version_prerelease a) ∈ parts
  ∧ (Build.version_prerelease a = "" → "-X 'main.VERSION_PRERELEASE='" ∈ parts)
  ∧ (carries "VERSION_MAIN" parts ↔ Build.version_main a ≠ "")
  ∧ (carries "VERSION_BUILD_METADATA" parts ↔ Build.version_build_metadata a ≠ "")
  ∧ (carries "APP_CHANNEL" parts ↔ Build.app_channel a ≠ "")
  ∧ (Build.version_main a ≠ "" →
     flag "VERSION_MAIN" (Build.version_main a) ∈ parts)
  ∧ (Build.version_build_metadata a ≠ "" →
     flag "VERSION_BUILD_METADATA" (Build.version_build_metadata a) ∈ parts)
  ∧ (Build.app_channel a ≠ "" →
     flag "APP_CHANNEL" (Build.app_channel a) ∈ parts)
  ∧ (∀ cmd cwd env_ref env,
       Build.GoBuild cmd cwd env_ref env
         ∈ Build.log (Build.main w a (Build.initial environ)).2 →
       cmd !! 2%nat = Some ("-ldflags=" +:+ join " " parts)).
Proof.
  intros parts.
  destruct (ldflags_parts_spec (Build.version_main a) (Build.version_prerelease a)
              (Build.version_build_metadata a) (Build.app_channel a))
    as (Hpre & Hmain & Hmeta & Hch & Hmain' & Hmeta' & Hch').
  split_and!; [done| |done..|].
  - intros Hempty. fold parts in Hpre. by rewrite Hempty in Hpre.
  - destruct (Build.main w a (Build.initial environ)) as [r s'] eqn:Hrun. simpl.
    destruct (main_run w a environ r s' Hrun) as (_ & prelude & Hprelude & Hcases).
    assert (Hnone : ∀ events cmd cwd env_ref env,
      Forall (λ e, is_go_build e = false) events →
      Build.GoBuild cmd cwd env_ref env ∉ events).
    { intros events cmd cwd env_ref env Hev Hin.
      rewrite Forall_forall in Hev. by apply Hev in Hin. }
    assert (Hquiet : Forall (λ e, is_go_build e = false) prelude).
    { eapply Forall_impl; [exact Hprelude|]. by intros e [? _]. }
    assert (Hmatrix : ∀ cmd cwd env_ref env,
      Build.GoBuild cmd cwd env_ref env
        ∈ (matrix_run w (join " " parts) environ Build.go_platforms 1%nat).1 →
      cmd !! 2%nat = Some ("-ldflags=" +:+ join " " parts)).
    { intros cmd cwd env_ref env Hin.
      by destruct (matrix_run_env _ _ _ _ _ _ _ _ _ Hin)
        as (_ & goos & goarch & npm_os & npm_arch & _ & _ & ->). }
    intros cmd cwd env_ref env.
    destruct Hcases as [Hlog|[(_ & _ & Hlog)|(_ & packaging & Hlog & Hpk)]];
      rewrite Hlog.
    + intros Hin. by apply Hnone in Hin.
    + intros [Hin|Hin]%elem_of_app; [by apply Hnone in Hin|by eapply Hmatrix].
    + intros [Hin|[Hin|Hin]%elem_of_app]%elem_of_app;
        [by apply Hnone in Hin|by eapply Hmatrix|by apply Hnone in Hin].
Qed.

Example ldflags_all_empty :
  Build.ldflags_parts "" "" "" "" = ["-s"; "-w"; "-X 'main.VERSION_PRERELEASE='"].
Proof. reflexivity. Qed.

Example ldflags_sample :
  sample_ldflags
  = "-s -w -X 'main.VERSION_MAIN=1.2.3' -X 'main.VERSION_PRERELEASE=' -X 'main.APP_CHANNEL=stable'".
Proof. reflexivity. Qed.

(** ** The launcher *)

Section launcher_facts.
Import Launcher.

Lemma own_property_None obj key :
  own_property obj key = None ↔ key ∉ keys obj.
Proof.
  induction obj as [|[k v] obj IH]; simpl.
  - split; [intros _ ?%elem_of_nil; done|done].
  - rewrite not_elem_of_cons. destruct (decide (k = key)) as [->|Hne].
    + split; [done|]. by intros [? _].
    + rewrite IH. split; [intros ?; split; [congruence|done]|by intros [_ ?]].
Qed.

Lemma own_property_Some obj key v :
  own_property obj key = Some v → (key, v) ∈ obj.
Proof.
  induction obj as [|[k v'] obj IH]; simpl; [done|].
  destruct (decide (k = key)) as [->|Hne].
  - intros [= ->]. left.
  - intros ?%IH. by right.
Qed.

(** A platform key holds a dash, no member of [Object.prototype] does: the
    lookup never reaches an inherited member. *)
Lemma key_has_dash platform arch :
  "-"%char ∈ String.list_ascii_of_string (platform +:+ "-" +:+ arch).
Proof. rewrite list_ascii_app. apply elem_of_app. right. left. Qed.

Lemma prototype_no_dash member :
  member ∈ object_prototype → "-"%char ∉ String.list_ascii_of_string member.
Proof.
  intros Hin. unfold object_prototype in Hin. members Hin;
    apply (bool_decide_unpack _); by vm_compute.
Qed.

Lemma get_absent obj platform arch :
  platform +:+ "-" +:+ arch ∉ keys obj →
  get obj (platform +:+ "-" +:+ arch) = JUndefined.
Proof.
  intros Habsent%own_property_None. unfold get. rewrite Habsent.
  rewrite bool_decide_eq_false_2; [done|].
  intros Hin%prototype_no_dash. apply Hin, key_has_dash.
Qed.

Lemma get_present obj key name :
  own_property obj key = Some name → get obj key = JString name.
Proof. intros Hown. unfold get. by rewrite Hown. Qed.

(** The entries of a generated table: the key is one of the five, the value
    is the formatted name, and that name is not empty. *)
Lemma table_entry base_name table key name :
  Build.platforms_table base_name = Ok table →
  own_property table key = Some name →
  key ∈ Build.main_platforms
  ∧ Format.format (Build.main_platform_name_template base_name)
      {["platform" := key]} = Ok name
  ∧ name ≠ "".
Proof.
  intros Htable%comprehension_Forall2 Hown%own_property_Some.
  apply list_elem_of_lookup_1 in Hown as [i Hi].
  destruct (Forall2_lookup_r _ _ _ _ _ Htable Hi) as (p & Hp & Hfmt).
  apply list_elem_of_lookup_2 in Hp. simpl in Hfmt.
  destruct (Format.format _ _) as [name'| |] eqn:Hname; [|done..].
  simpl in Hfmt. injection Hfmt as -> ->.
  split_and!; [done..|].
  destruct (main_template_ends_with_field base_name) as [t Ht].
  rewrite Ht in Hname. apply scan_ends_with_key in Hname as [q ->].
  intros Hempty. destruct q; [|done].
  unfold Build.main_platforms in Hp. members Hp; discriminate.
Qed.

Lemma generated_table_Some base_name table :
  generated_table base_name = Some table →
  Build.platforms_table base_name = Ok table.
Proof.
  unfold generated_table.
  destruct (Build.platforms_table base_name) as [table'| |]; [|done..].
  destruct (forallb _ _); [|done]. by intros [= ->].
Qed.

End launcher_facts.

(** C6: on a host whose key [<platform>-<arch>] is not in the table the
    launcher spawns nothing, writes two lines to the error stream, the second
    of which lists every supported key, and exits with code 1. *)
Theorem unsupported_platform_fails base_name table h :
  Launcher.generated_table base_name = Some table →
  Launcher.process_platform h +:+ "-" +:+ Launcher.process_arch h
    ∉ Launcher.keys table →
  Launcher.launcher table base_name h
  = {| Launcher.stderr :=
         [ "Unsupported platform: "
             +:+ (Launcher.process_platform h +:+ "-" +:+ Launcher.process_arch h);
           "Supported platforms: win32-x64, darwin-x64, darwin-arm64, linux-x64, linux-arm64" ];
       Launcher.spawned := None;
       Launcher.exit_code := Some 1 |}
  ∧ "Supported platforms: win32-x64, darwin-x64, darwin-arm64, linux-x64, linux-arm64"
    = "Supported platforms: " +:+ join ", " (Launcher.keys table).
Proof.
  intros Htable%generated_table_Some Habsent.
  unfold Launcher.launcher. rewrite get_absent by done. simpl.
  by rewrite (platforms_table_keys _ _ Htable).
Qed.

Lemma unsupported_platform_fails_witness :
  Launcher.generated_table "codekanban" = Some codekanban_table
  ∧ ("freebsd-x64" ∉ Launcher.keys codekanban_table)
  ∧ Launcher.exit_code
      (Launcher.launcher codekanban_table "codekanban"
         (sample_host "freebsd" "x64" (λ _, None) (λ _, Launcher.ChildRunning)))
    = Some 1.
Proof.
  assert (Htable : Launcher.generated_table "codekanban" = Some codekanban_table)
    by (vm_compute; reflexivity).
  assert (Habsent : "freebsd-x64" ∉ Launcher.keys codekanban_table)
    by (apply (bool_decide_unpack _); vm_compute; reflexivity).
  split_and!; [done..|].
  by rewrite (proj1 (unsupported_platform_fails "codekanban" codekanban_table
    (sample_host "freebsd" "x64" (λ _, None) (λ _, Launcher.ChildRunning))
    Htable Habsent)).
Defined.

(** C7: on a host whose key is in the table but whose platform package does
    not resolve, the launcher spawns nothing, tells the user to uninstall and
    reinstall the main package, and exits with code 1. *)
Theorem missing_platform_package_fails base_name table h name :
  Launcher.generated_table base_name = Some table →
  Launcher.own_property table
    (Launcher.process_platform h +:+ "-" +:+ Launcher.process_arch h) = Some name →
  Launcher.require_resolve h (name +:+ "/package.json") = None →
  Launcher.launcher table base_name h
  = {| Launcher.stderr :=
         [ "Failed to find binary for "
             +:+ (Launcher.process_platform h +:+ "-" +:+ Launcher.process_arch h);
           "Make sure " +:+ name +:+ " is installed";
           "";
           "Try one of the following:";
           "  1. Uninstall and reinstall with npm:";
           "     npm uninstall -g " +:+ base_name;
           "     npm install -g " +:+ base_name;
           "  2. Or uninstall and reinstall with pnpm:";
           "     pnpm uninstall -g " +:+ base_name;
           "     pnpm install -g " +:+ base_name ];
       Launcher.spawned := None;
       Launcher.exit_code := Some 1 |}.
Proof.
  intros Htable%generated_table_Some Hown Hresolve.
  destruct (table_entry _ _ _ _ Htable Hown) as (_ & _ & Hname).
  unfold Launcher.launcher. rewrite (get_present _ _ _ Hown). simpl.
  rewrite (proj2 (String.eqb_neq _ _) Hname). simpl.
  by rewrite Hresolve.
Qed.

Lemma missing_platform_package_fails_witness :
  Launcher.generated_table "codekanban" = Some codekanban_table
  ∧ Launcher.own_property codekanban_table "linux-x64" = Some "@codekanban/linux-x64"
  ∧ Launcher.exit_code
      (Launcher.launcher codekanban_table "codekanban"
         (sample_host "linux" "x64" (λ _, None) (λ _, Launcher.ChildRunning)))
    = Some 1.
Proof.
  assert (Htable : Launcher.generated_table "codekanban" = Some codekanban_table)
    by (vm_compute; reflexivity).
  split_and!; [done|reflexivity|].
  by rewrite (missing_platform_package_fails "codekanban" codekanban_table
    (sample_host "linux" "x64" (λ _, None) (λ _, Launcher.ChildRunning))
    "@codekanban/linux-x64" Htable eq_refl eq_refl).
Defined.

(** C8: when the platform package resolves, the launcher spawns the binary
    next to the resolved manifest with every argument of its own invocation,
    the three standard streams inherited; when the child exits with a code
    the launcher exits with that code, and with 0 when the child exits
    without one. *)
Theorem platform_binary_is_run base_name table h name packagePath :
  Launcher.generated_table base_name = Some table →
  Launcher.own_property table
    (Launcher.process_platform h +:+ "-" +:+ Launcher.process_arch h) = Some name →
  Launcher.require_resolve h (name +:+ "/package.json") = Some packagePath →
  let call :=
    {| Launcher.sc_file :=
         Launcher.path_join h (Launcher.path_dirname h packagePath)
           (if String.eqb (Launcher.process_platform h) "win32"
            then "codekanban.exe" else "codekanban");
       Launcher.sc_args := drop 2 (Launcher.process_argv h);
       Launcher.sc_stdio := Launcher.Inherit;
       Launcher.sc_windowsHide := false |} in
  Launcher.spawned (Launcher.launcher table base_name h) = Some call
  ∧ (∀ node script arguments,
       Launcher.process_argv h = node :: script :: arguments →
       Launcher.sc_args call = arguments)
  ∧ (∀ code,
       Launcher.child h call = Launcher.ChildExit (Some code) →
       Launcher.exit_code (Launcher.launcher table base_name h) = Some code
       ∧ Launcher.stderr (Launcher.launcher table base_name h) = [])
  ∧ (Launcher.child h call = Launcher.ChildExit None →
     Launcher.exit_code (Launcher.launcher table base_name h) = Some 0)
  ∧ (Launcher.exit_code (Launcher.launcher table base_name h) = Some 0 →
     Launcher.child h call = Launcher.ChildExit None
     ∨ Launcher.child h call = Launcher.ChildExit (Some 0)).
Proof.
  intros Htable%generated_table_Some Hown Hresolve call.
  destruct (table_entry _ _ _ _ Htable Hown) as (_ & _ & Hname).
  unfold Launcher.launcher. rewrite (get_present _ _ _ Hown). simpl.
  rewrite (proj2 (String.eqb_neq _ _) Hname). simpl.
  rewrite Hresolve. fold call.
  split_and!.
  - by destruct (Launcher.child h call).
  - intros node script arguments Hargv. simpl. by rewrite Hargv.
  - intros code ->. simpl. split; [|done]. f_equal.
    unfold Launcher.or_zero. by destruct (decide (code = 0)) as [->|].
  - by intros ->.
  - destruct (Launcher.child h call) as [message|[code|]|]; simpl; [done| |by left|done].
    unfold Launcher.or_zero. destruct (decide (code = 0)) as [->|]; [by right|].
    intros [= ?]. done.
Qed.

Lemma platform_binary_is_run_witness :
  Launcher.generated_table "codekanban" = Some codekanban_table
  ∧ Launcher.exit_code
      (Launcher.launcher codekanban_table "codekanban"
         (sample_host "linux" "x64"
            (λ _, Some "/usr/lib/node_modules/@codekanban/linux-x64/package.json")
            (λ _, Launcher.ChildExit (Some 3))))
    = Some 3.
Proof.
  assert (Htable : Launcher.generated_table "codekanban" = Some codekanban_table)
    by (vm_compute; reflexivity).
  split; [done|].
  by apply (platform_binary_is_run "codekanban" codekanban_table
    (sample_host "linux" "x64"
       (λ _, Some "/usr/lib/node_modules/@codekanban/linux-x64/package.json")
       (λ _, Launcher.ChildExit (Some 3)))
    "@codekanban/linux-x64"
    "/usr/lib/node_modules/@codekanban/linux-x64/package.json"
    Htable eq_refl eq_refl).
Defined.

Example launcher_runs_binary :
  Launcher.launcher codekanban_table "codekanban"
    (sample_host "linux" "x64"
       (λ _, Some "/usr/lib/node_modules/@codekanban/linux-x64/package.json")
       (λ _, Launcher.ChildExit (Some 3)))
  = {| Launcher.stderr := [];
       Launcher.spawned :=
         Some {| Launcher.sc_file :=
                   "/usr/lib/node_modules/@codekanban/linux-x64/codekanban";
                 Launcher.sc_args := ["--port"; "3000"];
                 Launcher.sc_stdio := Launcher.Inherit;
                 Launcher.sc_windowsHide := false |};
       Launcher.exit_code := Some 3 |}.
Proof. reflexivity. Qed.

Example unsupported_platform_run :
  Launcher.launcher codekanban_table "codekanban"
    (sample_host "freebsd" "x64" (λ _, None) (λ _, Launcher.ChildRunning))
  = {| Launcher.stderr :=
         [ "Unsupported platform: freebsd-x64";
           "Supported platforms: win32-x64, darwin-x64, darwin-arm64, linux-x64, linux-arm64" ];
       Launcher.spawned := None;
       Launcher.exit_code := Some 1 |}.
Proof. vm_compute. reflexivity. Qed.

(** ** The publish script *)

Section publish_facts.
Import Publish.
Variable w : world.

Lemma publish_platforms_events publish_cmd platforms c cwd :
  Subprocess c cwd ∈ (publish_platforms w publish_cmd platforms).2 →
  c = command_of w publish_cmd.
Proof.
  induction platforms as [|platform rest IH]; simpl.
  - by intros ?%elem_of_nil.
  - destruct (platform_dir_exists w _); simpl; [|done].
    destruct (platform_package_json w _); [| by intros ?%elem_of_nil |].
    all: destruct (platform_dir_is_dir w _); simpl;
      [|by intros ?%elem_of_nil].
    all: destruct (decide (run w _ _ ≠ 0)); simpl.
    all: try (intros Hin; apply list_elem_of_singleton in Hin; by injection Hin as -> _).
    all: destruct (publish_platforms w publish_cmd rest) as [r later];
      simpl in IH |- *.
    all: intros [Hin|Hin]%elem_of_cons; [by injection Hin as -> _|by apply IH].
Qed.

Lemma whoami_is_no_publish cwd :
  is_publish (Subprocess (command_of w ["npm"; "whoami"]) cwd) = false.
Proof. unfold command_of. by destruct (is_windows w). Qed.

End publish_facts.

#[local] Arguments Publish.publish_platforms : simpl never.

(** C9, as it holds: on GitHub Actions, when the [npm whoami] check before the
    first publish fails and [NODE_AUTH_TOKEN] is absent, the script returns a
    non-zero code (or stops on an exception) without any publish attempt; and
    every publish command it runs there carries [--provenance]. *)
Theorem github_actions_publish w :
  Publish.getenv w "GITHUB_ACTIONS" = Some "true" →
  (Publish.run w (Publish.command_of w ["npm"; "whoami"]) Build.root_dir ≠ 0 →
   Publish.getenv w "NODE_AUTH_TOKEN" = None →
   filter (λ e, Publish.is_publish e = true) (Publish.main w).2 = []
   ∧ ((Publish.main w).1 = Ok 1 ∨ (Publish.main w).1 = Raises))
  ∧ (∀ c cwd,
       Publish.Subprocess c cwd ∈ (Publish.main w).2 →
       Publish.is_publish (Publish.Subprocess c cwd) = true →
       c = Publish.command_of w
             ["npm"; "publish"; "--access"; "public"; "--provenance"]).
Proof.
  intros Hgha.
  assert (Hactions : Publish.is_github_actions w = true).
  { unfold Publish.is_github_actions. by rewrite Hgha. }
  unfold Publish.main, Publish.run_command. rewrite Hactions.
  destruct (Publish.npm_packages_dir_exists w); simpl.
  2: { split; [by intros; split; [|left]|]. by intros c cwd ?%elem_of_nil. }
  destruct (Publish.main_package_json w) as [| |main_package_name version].
  1,2: split; [by intros; split; [|auto]|]; by intros c cwd ?%elem_of_nil.
  split.
  - intros Hwhoami Htoken. rewrite Htoken.
    rewrite decide_True by done. simpl. split; [|by left].
    by rewrite filter_cons_False, filter_nil
      by (by rewrite whoami_is_no_publish).
  - intros c cwd.
    assert (Hwho : Publish.Subprocess c cwd
              = Publish.Subprocess (Publish.command_of w ["npm"; "whoami"])
                  Build.root_dir →
            Publish.is_publish (Publish.Subprocess c cwd) = true →
            c = Publish.command_of w
                  ["npm"; "publish"; "--access"; "public"; "--provenance"]).
    { intros [= -> ->]. by rewrite whoami_is_no_publish. }
    destruct (if decide _ then _ else _).
    { intros Hin%list_elem_of_singleton. by apply Hwho. }
    pose proof (publish_platforms_events w
      ["npm"; "publish"; "--access"; "public"; "--provenance"] Publish.platforms)
      as Hplatforms.
    simpl in Hplatforms |- *.
    destruct (Publish.publish_platforms w _ Publish.platforms) as [r published].
    simpl in Hplatforms.
    assert (Hmain : ∀ events,
      (∀ c cwd, Publish.Subprocess c cwd ∈ events →
                c = Publish.command_of w
                      ["npm"; "publish"; "--access"; "public"; "--provenance"]) →
      Publish.Subprocess c cwd
        ∈ Publish.Subprocess (Publish.command_of w ["npm"; "whoami"]) Build.root_dir
          :: events →
      Publish.is_publish (Publish.Subprocess c cwd) = true →
      c = Publish.command_of w
            ["npm"; "publish"; "--access"; "public"; "--provenance"]).
    { intros events Hev [Hin|Hin]%elem_of_cons; [by apply Hwho|].
      intros _. by eapply Hev. }
    destruct r as [[ret|]| |]; simpl; try (by apply Hmain).
    destruct (decide _); simpl; apply Hmain; intros c' cwd' [Hin|Hin]%elem_of_app;
      first [by eapply Hplatforms
            |apply list_elem_of_singleton in Hin; by injection Hin as -> _].
Qed.

Lemma github_actions_publish_witness :
  Publish.getenv (actions_runner 1) "GITHUB_ACTIONS" = Some "true"
  ∧ filter (λ e, Publish.is_publish e = true) (Publish.main (actions_runner 1)).2 = []
  ∧ ((Publish.main (actions_runner 1)).1 = Ok 1
     ∨ (Publish.main (actions_runner 1)).1 = Raises).
Proof.
  assert (Hactions : Publish.getenv (actions_runner 1) "GITHUB_ACTIONS" = Some "true")
    by (vm_compute; reflexivity).
  split; [exact Hactions|].
  apply (github_actions_publish (actions_runner 1) Hactions).
  - vm_compute. discriminate.
  - vm_compute. reflexivity.
Defined.

(** C9, as it is stated, fails: when [npm whoami] succeeds the token is never
    looked at, and all six packages are published without it. *)
Lemma absent_token_passes_when_whoami_succeeds :
  Publish.getenv (actions_runner 0) "GITHUB_ACTIONS" = Some "true"
  ∧ Publish.getenv (actions_runner 0) "NODE_AUTH_TOKEN" = None
  ∧ (Publish.main (actions_runner 0)).1 = Ok 0
  ∧ length (filter (λ e, Publish.is_publish e = true)
              (Publish.main (actions_runner 0)).2) = 6%nat.
Proof. split_and!; vm_compute; reflexivity. Qed.

Example whoami_fails_on_actions_runner :
  Publish.main (actions_runner 1)
  = (Ok 1, [Publish.Subprocess (Publish.Argv ["npm"; "whoami"]) Build.root_dir]).
Proof. vm_compute. reflexivity. Qed.

(** ** The static directory *)

Section static_facts.
Import Static.
Variable iterdir : gmap string entry → list (string * entry).
Hypothesis iterdir_listing : ∀ d, iterdir d ≡ₚ map_to_list d.

Lemma iterdir_elem d name e : (name, e) ∈ iterdir d ↔ d !! name = Some e.
Proof. by rewrite iterdir_listing, elem_of_map_to_list. Qed.


Lemma iterdir_empty : iterdir ∅ = [].
Proof.
  apply Permutation_nil_r. by rewrite iterdir_listing, map_to_list_empty.
Qed.

(** The loop of [clean_static_dir] over any list of entries: it raises at
    the first link to a directory that is not [README.md], and removes the
    files and directories it passes before. *)
Lemma clean_items_Ok items : ∀ d,
  (∀ name e, (name, e) ∈ items → name ≠ "README.md" → is_dir_link e = false) →
  ∃ d', clean_items items d = (Ok (), d')
        ∧ ∀ name,
            d' !! name
            = if existsb (λ kv, bool_decide (kv.1 = name) && removable kv.1 kv.2) items
              then None else d !! name.
Proof.
  induction items as [|[name e] items IH]; intros d Hlinks; simpl.
  - by exists d.
  - assert (Hrest : ∀ name' e', (name', e') ∈ items → name' ≠ "README.md" →
                    is_dir_link e' = false).
    { intros name' e' Hin. apply Hlinks. by right. }
    unfold removable at 1. simpl.
    destruct (decide (name = "README.md")) as [->|Hname].
    + destruct (IH d Hrest) as (d' & -> & Hd'). exists d'. split; [done|].
      intros name. rewrite Hd'. simpl. by rewrite andb_false_r.
    + rewrite (bool_decide_eq_false_2 _ Hname). simpl.
      pose proof (Hlinks name e (list_elem_of_here _ _) Hname) as Hlink.
      destruct e as [data|target data|c|c|]; [| | |done|].
      * destruct (IH (delete name d) Hrest) as (d' & -> & Hd'). exists d'.
        split; [done|]. intros name'. rewrite Hd', andb_true_r.
        destruct (existsb _ items); [by rewrite orb_true_r|]. rewrite orb_false_r.
        case_bool_decide as Heq; [subst; by rewrite lookup_delete_eq|].
        by rewrite lookup_delete_ne.
      * destruct (IH (delete name d) Hrest) as (d' & -> & Hd'). exists d'.
        split; [done|]. intros name'. rewrite Hd', andb_true_r.
        destruct (existsb _ items); [by rewrite orb_true_r|]. rewrite orb_false_r.
        case_bool_decide as Heq; [subst; by rewrite lookup_delete_eq|].
        by rewrite lookup_delete_ne.
      * destruct (IH (delete name d) Hrest) as (d' & -> & Hd'). exists d'.
        split; [done|]. intros name'. rewrite Hd', andb_true_r.
        destruct (existsb _ items); [by rewrite orb_true_r|]. rewrite orb_false_r.
        case_bool_decide as Heq; [subst; by rewrite lookup_delete_eq|].
        by rewrite lookup_delete_ne.
      * destruct (IH d Hrest) as (d' & -> & Hd'). exists d'. split; [done|].
        intros name'. rewrite Hd'. simpl. by rewrite andb_false_r.
Qed.

Lemma clean_items_Raises items : ∀ d name c,
  (name, DirLink c) ∈ items → name ≠ "README.md" →
  (clean_items items d).1 = Raises.
Proof.
  induction items as [|[name' e] items IH]; intros d name c Hin Hname; simpl.
  - by apply elem_of_nil in Hin.
  - apply elem_of_cons in Hin as [Hin|Hin].
    + injection Hin as <- <-. by rewrite decide_False by done.
    + destruct (decide (name' = "README.md")); [by eapply IH|].
      destruct e; [by eapply IH..|done|by eapply IH].
Qed.

(** Whatever the loop does, it never touches [README.md] and never adds an
    entry. *)
Lemma clean_items_frame items : ∀ d,
  (clean_items items d).2 !! "README.md" = d !! "README.md"
  ∧ (clean_items items d).2 ⊆ d.
Proof.
  induction items as [|[name e] items IH]; intros d; simpl; [done|].
  destruct (decide (name = "README.md")) as [->|Hname]; [apply IH|].
  destruct e as [data|target data|c|c|]; [| | |done|apply IH].
  - destruct (IH (delete name d)) as [Hreadme Hsub]. split.
    + by rewrite Hreadme, lookup_delete_ne.
    + etrans; [exact Hsub|apply delete_subseteq].
  - destruct (IH (delete name d)) as [Hreadme Hsub]. split.
    + by rewrite Hreadme, lookup_delete_ne.
    + etrans; [exact Hsub|apply delete_subseteq].
  - destruct (IH (delete name d)) as [Hreadme Hsub]. split.
    + by rewrite Hreadme, lookup_delete_ne.
    + etrans; [exact Hsub|apply delete_subseteq].
Qed.

Lemma removed_iff d name :
  existsb (λ kv, bool_decide (kv.1 = name) && removable kv.1 kv.2) (iterdir d) = true
  ↔ ∃ e, d !! name = Some e ∧ removable name e = true.
Proof.
  rewrite existsb_exists. split.
  - intros ([name' e] & Hin & Hb). simpl in Hb.
    apply andb_true_iff in Hb as [Heq%bool_decide_eq_true Hrem]. subst name'.
    exists e. split; [|done]. apply iterdir_elem. by apply list_elem_of_In.
  - intros (e & Hd & Hrem). exists (name, e). split.
    + apply list_elem_of_In. by apply iterdir_elem.
    + simpl. by rewrite bool_decide_eq_true_2.
Qed.



End static_facts.

Lemma clean_items_no_links iterdir d :
  (∀ d, iterdir d ≡ₚ map_to_list d) →
  (∀ name e, d !! name = Some e → name ≠ "README.md" → Static.is_dir_link e = false) →
  ∃ d', Static.clean_items (iterdir d) d = (Ok (), d')
        ∧ ∀ name,
            d' !! name
            = e ← d !! name; if Static.removable name e then None else Some e.
Proof.
  intros Hlisting Hlinks.
  destruct (clean_items_Ok (iterdir d) d) as (d' & Hrun & Hd').
  { intros name e Hin. apply Hlinks. by apply (iterdir_elem iterdir). }
  exists d'. split; [done|]. intros name. rewrite Hd'.
  destruct (existsb _ _) eqn:Hremoved.
  - apply (removed_iff iterdir Hlisting) in Hremoved as (e & -> & Hrem).
    simpl. by rewrite Hrem.
  - destruct (d !! name) as [e|] eqn:Hd; [|done]. simpl.
    destruct (Static.removable name e) eqn:Hrem; [|done].
    assert (existsb (λ kv, bool_decide (kv.1 = name) && Static.removable kv.1 kv.2)
              (iterdir d) = true) as Hyes; [|congruence].
    apply (removed_iff iterdir Hlisting). by exists e.
Qed.

Lemma clean_items_cases iterdir d :
  (∀ d, iterdir d ≡ₚ map_to_list d) →
  ((∃ name c, name ≠ "README.md" ∧ d !! name = Some (Static.DirLink c))
   ∧ (Static.clean_items (iterdir d) d).1 = Raises)
  ∨ ((¬ ∃ name c, name ≠ "README.md" ∧ d !! name = Some (Static.DirLink c))
     ∧ ∃ d', Static.clean_items (iterdir d) d = (Ok (), d')
             ∧ ∀ name,
                 d' !! name
                 = e ← d !! name; if Static.removable name e then None else Some e).
Proof.
  intros Hlisting.
  destruct (decide (map_Exists (λ name e,
              name ≠ "README.md" ∧ Static.is_dir_link e = true) d))
    as [(name & e & He & Hname & Hlink)|Hnone].
  - destruct e as [| |?|c|]; try done. left. split; [by exists name, c|].
    apply (clean_items_Raises _ _ name c); [|done].
    by apply (iterdir_elem iterdir).
  - right. split.
    + intros (name & c & Hname & Hc). apply Hnone.
      by exists name, (Static.DirLink c).
    + apply clean_items_no_links; [done|].
      intros name e He Hname. destruct (Static.is_dir_link e) eqn:Hlink; [|done].
      destruct Hnone. by exists name, e.
Qed.

(** X1: [clean_static_dir] on an existing directory never touches
    [README.md] and never adds an entry; it raises exactly when an entry
    other than [README.md] is a link to a directory, and otherwise leaves
    [README.md] and the entries that are neither file nor directory, nothing
    else. *)
Theorem clean_static_dir_keeps_readme iterdir d :
  (∀ d, iterdir d ≡ₚ map_to_list d) →
  ∃ d',
    (Static.clean_static_dir iterdir (Static.Directory d)).2 = Static.Directory d'
    ∧ d' !! "README.md" = d !! "README.md"
    ∧ d' ⊆ d
    ∧ ((Static.clean_static_dir iterdir (Static.Directory d)).1 = Raises
       ↔ ∃ name c, name ≠ "README.md" ∧ d !! name = Some (Static.DirLink c))
    ∧ ((Static.clean_static_dir iterdir (Static.Directory d)).1 = Ok ()
       ↔ ¬ ∃ name c, name ≠ "README.md" ∧ d !! name = Some (Static.DirLink c))
    ∧ ((Static.clean_static_dir iterdir (Static.Directory d)).1 = Ok () →
       ∀ name,
         d' !! name
         = e ← d !! name; if Static.removable name e then None else Some e).
Proof.
  intros Hlisting. unfold Static.clean_static_dir.
  pose proof (clean_items_frame (iterdir d) d) as [Hreadme Hsub].
  destruct (clean_items_cases iterdir d Hlisting)
    as [[Hlink Hraises]|[Hno (d' & Hrun & Hd')]].
  - destruct (Static.clean_items (iterdir d) d) as [r d'].
    simpl in *. subst r. exists d'.
    split_and!; [done..| | |done].
    + by split.
    + by split.
  - rewrite Hrun in Hreadme, Hsub |- *. simpl in *. exists d'.
    split_and!; [done..| | |done].
    + split; [done|]. intros. by destruct Hno.
    + done.
Qed.

Lemma clean_static_dir_keeps_readme_witness :
  (∀ d : gmap string Static.entry, map_to_list d ≡ₚ map_to_list d)
  ∧ ∃ d',
      (Static.clean_static_dir map_to_list (Static.Directory Static.sample_static)).2
      = Static.Directory d'
      ∧ d' !! "README.md" = Some (Static.File "static files go here").
Proof.
  assert (Hlisting : ∀ d : gmap string Static.entry, map_to_list d ≡ₚ map_to_list d)
    by done.
  split; [exact Hlisting|].
  destruct (clean_static_dir_keeps_readme map_to_list Static.sample_static Hlisting)
    as (d' & Hafter & Hreadme & _).
  exists d'. split; [exact Hafter|]. rewrite Hreadme. by vm_compute.
Defined.

Example clean_sample_static :
  (Static.clean_static_dir map_to_list (Static.Directory Static.sample_static)).1
  = Ok ()
  ∧ map_to_list
      (Static.entries
         (Static.clean_static_dir map_to_list (Static.Directory Static.sample_static)).2)
    = [("README.md", Static.File "static files go here")].
Proof. split; vm_compute; reflexivity. Qed.

(** X2: cleaning is idempotent: after a [clean_static_dir] that returned, a
    second one returns as well and changes nothing; this holds also when the
    first one had to create the directory. *)
Theorem clean_static_dir_idempotent iterdir static_dir :
  (∀ d, iterdir d ≡ₚ map_to_list d) →
  (Static.clean_static_dir iterdir static_dir).1 = Ok () →
  Static.clean_static_dir iterdir (Static.clean_static_dir iterdir static_dir).2
  = (Ok (), (Static.clean_static_dir iterdir static_dir).2).
Proof.
  intros Hlisting. destruct static_dir as [|d|]; simpl; [| |done].
  - intros _. by rewrite (iterdir_empty iterdir Hlisting).
  - destruct (clean_items_cases iterdir d Hlisting)
      as [[_ Hraises]|[Hno (d' & Hrun & Hd')]].
    { destruct (Static.clean_items (iterdir d) d) as [r d1]. simpl in *.
      by subst r. }
    pose proof (clean_items_frame (iterdir d) d) as [_ Hsub].
    rewrite Hrun in Hsub |- *. simpl in *. intros _.
    destruct (clean_items_cases iterdir d' Hlisting)
      as [[(name & c & Hname & Hc) _]|[_ (d'' & -> & Hd'')]].
    { destruct Hno. exists name, c. split; [done|]. by eapply lookup_weaken. }
    f_equal. f_equal. apply map_eq. intros name. rewrite Hd''.
    destruct (d' !! name) as [e|] eqn:He; [|done]. simpl.
    rewrite Hd' in He. destruct (d !! name) as [e'|]; [|done]. simpl in He.
    destruct (Static.removable name e') eqn:Hrem; [done|].
    injection He as <-. by rewrite Hrem.
Qed.

Lemma clean_static_dir_idempotent_witness :
  (∀ d : gmap string Static.entry, map_to_list d ≡ₚ map_to_list d)
  ∧ (Static.clean_static_dir map_to_list Static.Absent).1 = Ok ()
  ∧ Static.clean_static_dir map_to_list
      (Static.clean_static_dir map_to_list Static.Absent).2
    = (Ok (), (Static.clean_static_dir map_to_list Static.Absent).2).
Proof.
  assert (Hlisting : ∀ d : gmap string Static.entry, map_to_list d ≡ₚ map_to_list d)
    by done.
  split_and!; [exact Hlisting|reflexivity|].
  exact (clean_static_dir_idempotent map_to_list Static.Absent Hlisting eq_refl).
Defined.

#[local] Arguments Static.copy_dist_to_static : simpl never.



(** A [README.md] of [static] that is the [README.md] of [ui/dist] itself
    stops step 2: [shutil.copy2] raises [SameFileError], after the cleaning. *)
Example step_2_same_file :
  (Static.step_2 map_to_list (Static.Directory Static.dist_with_readme)
     (Static.Directory Static.linked_static)).1 = Raises
  ∧ Static.entries
      (Static.step_2 map_to_list (Static.Directory Static.dist_with_readme)
         (Static.Directory Static.linked_static)).2 !! "README.md"
    = Some (Static.DistFile ["README.md"] "about the frontend").
Proof. split; vm_compute; reflexivity. Qed.

Example step_2_sample :
  (Static.step_2 map_to_list (Static.Directory Static.sample_dist)
     (Static.Directory Static.sample_static)).1 = Ok true
  ∧ map (λ name,
           Static.entries
             (Static.step_2 map_to_list (Static.Directory Static.sample_dist)
                (Static.Directory Static.sample_static)).2 !! name)
      ["README.md"; "index.html"; "assets"; "favicon.ico"]
    = [ Some (Static.File "static files go here");
        Some (Static.File "new page");
        Some (Static.Dir {[ "app.js" := Static.TFile "new script" ]});
        Some (Static.File "icon") ]
  ∧ size
      (Static.entries
         (Static.step_2 map_to_list (Static.Directory Static.sample_dist)
            (Static.Directory Static.sample_static)).2) = 4%nat.
Proof. split_and!; vm_compute; reflexivity. Qed.

(** ** [build.py] *)

(** X4: [build.py] starts the Go toolchain exactly when [ui] exists, the
    frontend build returned 0 and step 2 returned [True]; the toolchain run is
    then the last thing the script does and its return code is the script's;
    the script returns 0 exactly when the toolchain ran and returned 0. *)
Theorem build_py_go_build_gate w :
  (BuildPy.go_event w ∈ BuildPy.started (BuildPy.main w)
   ↔ BuildPy.ui_dir_exists w = true
     ∧ BuildPy.frontend_returncode w = 0
     ∧ (Static.step_2 (BuildPy.iterdir w) (BuildPy.dist_dir w)
          (BuildPy.static_dir w)).1 = Ok true)
  ∧ (BuildPy.go_event w ∈ BuildPy.started (BuildPy.main w) →
     BuildPy.returned (BuildPy.main w)
     = Ok (BuildPy.run w (BuildPy.build_cmd w) Build.root_dir false)
     ∧ BuildPy.started (BuildPy.main w)
       = [BuildPy.frontend_event w; BuildPy.go_event w])
  ∧ (BuildPy.returned (BuildPy.main w) = Ok 0
     ↔ BuildPy.go_event w ∈ BuildPy.started (BuildPy.main w)
       ∧ BuildPy.run w (BuildPy.build_cmd w) Build.root_dir false = 0).
Proof.
  unfold BuildPy.main, BuildPy.frontend_returncode, BuildPy.frontend_event,
    BuildPy.go_event, BuildPy.run_command.
  assert (Hnil : ∀ e : BuildPy.event, e ∈ [] ↔ False) by apply elem_of_nil.
  assert (Hone : ∀ cmd cwd shell,
    BuildPy.RunCommand (BuildPy.build_cmd w) Build.root_dir false
      ∈ [BuildPy.RunCommand cmd cwd shell] →
    cmd = BuildPy.build_cmd w).
  { intros cmd cwd shell Hin%list_elem_of_singleton. by injection Hin. }
  destruct (BuildPy.ui_dir_exists w); simpl.
  2: { rewrite Hnil. split_and!; [|done|]; split; try done; by intros [? _]. }
  destruct (BuildPy.is_windows w) eqn:Hwin; simpl.
  all: destruct (decide (BuildPy.run w _ Build.ui_dir _ ≠ 0)) as [Hfail|Hok]; simpl.
  all: try (
    split_and!;
    [ split; [by intros ?%Hone|by intros (_ & ? & _)]
    | by intros ?%Hone
    | split; [by intros [= ?]|by intros [?%Hone _]] ]).
  all: apply dec_stable in Hok.
  all: destruct (Static.step_2 _ _ _) as [[[]| |] static']; simpl.
  all: try (
    split_and!;
    [ split; [by intros ?%Hone|by intros (_ & _ & ?)]
    | by intros ?%Hone
    | split; [by intros [= ?]|by intros [?%Hone _]] ]).
  all: destruct (decide (BuildPy.run w (BuildPy.build_cmd w) Build.root_dir false ≠ 0))
    as [Hgo|Hgo]; simpl.
  all: try apply dec_stable in Hgo.
  all: split_and!;
    [ split; [done|intros _; apply list_elem_of_further, list_elem_of_here]
    | intros _; split; [by rewrite ?Hgo|done]
    | split;
        [ first [by intros [= ?]
                |intros _; split; [apply list_elem_of_further, list_elem_of_here|done]]
        | first [by intros [_ ?]|done] ] ].
Qed.

(** X5: a missing [ui/dist] is noticed only after [static] has been emptied.
    When the frontend build returns 0 but there is no [ui/dist], [build.py]
    returns 1 without starting the Go toolchain, and [static] has by then
    lost every file and directory except [README.md]. *)
Theorem build_py_missing_dist w d :
  (∀ d, BuildPy.iterdir w d ≡ₚ map_to_list d) →
  BuildPy.ui_dir_exists w = true →
  BuildPy.frontend_returncode w = 0 →
  BuildPy.dist_dir w = Static.Absent →
  BuildPy.static_dir w = Static.Directory d →
  (∀ name c, name ≠ "README.md" → d !! name ≠ Some (Static.DirLink c)) →
  BuildPy.returned (BuildPy.main w) = Ok 1
  ∧ BuildPy.started (BuildPy.main w) = [BuildPy.frontend_event w]
  ∧ ∃ d',
      BuildPy.static_after (BuildPy.main w) = Static.Directory d'
      ∧ ∀ name,
          d' !! name
          = e ← d !! name; if Static.removable name e then None else Some e.
Proof.
  intros Hlisting Hui Hfrontend Hdist Hstatic Hlinks.
  unfold BuildPy.main, BuildPy.frontend_returncode, BuildPy.frontend_event,
    BuildPy.run_command in *.
  rewrite Hui, Hdist, Hstatic. simpl.
  destruct (clean_items_cases (BuildPy.iterdir w) d Hlisting)
    as [[(name & c & Hname & Hc) _]|[_ (d' & Hrun & Hd')]].
  { by destruct (Hlinks name c Hname). }
  unfold Static.step_2, Static.clean_static_dir. rewrite Hrun.
  destruct (BuildPy.is_windows w); simpl.
  all: rewrite decide_False by (by intros []).
  all: simpl; split_and!; [done..|]; by exists d'.
Qed.

Lemma build_py_missing_dist_witness :
  (∀ d, BuildPy.iterdir BuildPy.no_dist_world d ≡ₚ map_to_list d)
  ∧ BuildPy.returned (BuildPy.main BuildPy.no_dist_world) = Ok 1.
Proof.
  assert (Hlisting : ∀ d, BuildPy.iterdir BuildPy.no_dist_world d ≡ₚ map_to_list d)
    by done.
  split; [exact Hlisting|].
  apply (build_py_missing_dist BuildPy.no_dist_world Static.sample_static Hlisting);
    try reflexivity.
  intros name c Hname Hc. unfold Static.sample_static in Hc.
  repeat (apply lookup_insert_Some in Hc as [[<- [=]]|[? Hc]]).
  by apply lookup_singleton_Some in Hc as [<- [=]].
Defined.

Example build_py_missing_dist_run :
  map_to_list
    (Static.entries (BuildPy.static_after (BuildPy.main BuildPy.no_dist_world)))
  = [("README.md", Static.File "static files go here")].
Proof. vm_compute. reflexivity. Qed.

(** ** A run of [build-npm-multipackage.py], part by part *)

Section build_run.
Import Build.

Lemma appended_nil s : appended s [] = s.
Proof. destruct s. unfold appended. simpl. by rewrite app_nil_r. Qed.

Lemma appended_app s l k : appended (appended s l) k = appended s (l ++ k).
Proof. unfold appended. simpl. by rewrite app_assoc. Qed.

(** Steps 4 and 5 do the same whatever the state they start in. *)
Lemma platform_packages_loop_uniform version base_name platforms :
  ∃ r events, ∀ s,
    platform_packages_loop version base_name platforms s = (r, appended s events).
Proof.
  induction platforms as [|[npm_os npm_arch] rest (r & events & IH)]; simpl.
  - exists (Ok 0), []. intros s. by rewrite appended_nil.
  - unfold mbind, M_bind, record, lift. simpl.
    destruct (platform_package_json version base_name npm_os npm_arch)
      as [package_json| |]; simpl.
    + exists r. eexists (_ :: _ :: events). intros s.
      rewrite IH. unfold appended. simpl. by rewrite <-!app_assoc.
    + exists Raises. by eexists [_].
    + exists Unmodelled. by eexists [_].
Qed.

Lemma create_main_package_uniform version base_name :
  ∃ r events, ∀ s, create_main_package version base_name s = (r, appended s events).
Proof.
  unfold create_main_package, mbind, M_bind, record, lift. simpl.
  destruct (platforms_mapping base_name) as [mapping| |]; simpl;
    [|eexists _, []; intros s; by rewrite appended_nil..].
  destruct (main_package_json version base_name) as [j| |]; simpl.
  - eexists _, [_; _; _]. intros s. unfold appended. simpl. by rewrite <-!app_assoc.
  - eexists _, [_; _]. intros s. unfold appended. simpl. by rewrite <-!app_assoc.
  - eexists _, [_; _]. intros s. unfold appended. simpl. by rewrite <-!app_assoc.
Qed.

Lemma packaging_uniform version base_name s :
  packaging version base_name s
  = ((packaging_run version base_name).1,
     appended s (packaging_run version base_name).2).
Proof.
  unfold packaging_run, packaging, create_platform_packages, mbind, M_bind.
  destruct (platform_packages_loop_uniform version base_name package_platforms)
    as (r4 & events4 & H4).
  destruct (create_main_package_uniform version base_name) as (r5 & events5 & H5).
  rewrite !H4. destruct r4 as [ret4| |]; [|done..].
  destruct (decide (ret4 ≠ 0)); [done|].
  rewrite !H5, !appended_app.
  by destruct r5 as [ret5| |]; [destruct (decide (ret5 ≠ 0))|..].
Qed.

Lemma main_tail w a :
  main w a
  = ((if npm_packages_dir_exists w then record (Rmtree npm_packages_dir) else mret tt) ;;
     record (Mkdir npm_packages_dir) ;;
     if negb (ui_dir_exists w) then mret 1
     else
       ret ← (if is_windows w
              then run_command w ["pnpm build"] ui_dir true
              else run_command w ["pnpm"; "build"] ui_dir false);
       if decide (ret ≠ 0) then mret ret
       else
         record (CleanStaticDir static_dir) ;;
         copied ← copy_dist_to_static w dist_dir static_dir;
         if negb copied then mret 1
         else
           ret ← build_go_multiplatform w (version_main a) (version_prerelease a)
                   (version_build_metadata a) (app_channel a);
           if decide (ret ≠ 0) then mret ret
           else packaging (version a) (package_name a)).
Proof. reflexivity. Qed.

#[local] Arguments matrix_run : simpl never.

(** The result and the log of a whole run. *)
Lemma main_unfold w a environ :
  (main w a (initial environ)).1
  = (if reaches_build w
     then
       if decide ((matrix_run w
                     (join " " (ldflags_parts (version_main a) (version_prerelease a)
                                  (version_build_metadata a) (app_channel a)))
                     environ go_platforms 1%nat).2 ≠ 0)
       then Ok (matrix_run w
                  (join " " (ldflags_parts (version_main a) (version_prerelease a)
                               (version_build_metadata a) (app_channel a)))
                  environ go_platforms 1%nat).2
       else (packaging_run (version a) (package_name a)).1
     else Ok (early_code w))
  ∧ log (main w a (initial environ)).2
    = prelude w
      ++ (if reaches_build w
          then
            (matrix_run w
               (join " " (ldflags_parts (version_main a) (version_prerelease a)
                            (version_build_metadata a) (app_channel a)))
               environ go_platforms 1%nat).1
            ++ (if decide ((matrix_run w
                     (join " " (ldflags_parts (version_main a) (version_prerelease a)
                                  (version_build_metadata a) (app_channel a)))
                     environ go_platforms 1%nat).2 ≠ 0)
                then [] else (packaging_run (version a) (package_name a)).2)
          else []).
Proof.
  assert (Hinit : dicts (initial environ) !! os_environ = Some environ)
    by apply lookup_singleton_eq.
  rewrite main_tail.
  unfold prelude, reaches_build, early_code, frontend_command,
    mbind, M_bind, run_command, copy_dist_to_static.
  unfold mbind, M_bind, record, mret, M_ret.
  set (s0 := initial environ) in *.
  assert (Hlog0 : log s0 = []) by done.
  assert (Hnext0 : next_ref s0 = 1%nat) by done.
  clearbody s0.
  destruct (npm_packages_dir_exists w); simpl;
    (destruct (ui_dir_exists w); simpl; [|by rewrite Hlog0]);
    (destruct (is_windows w); simpl);
    (destruct (decide (pnpm_build w ≠ 0)) as [Hpnpm|Hpnpm]; simpl;
     [rewrite bool_decide_eq_false_2 by done; simpl; by rewrite Hlog0|]);
    apply dec_stable in Hpnpm;
    rewrite (bool_decide_eq_true_2 _ Hpnpm); simpl;
    (destruct (dist_dir_exists w); simpl; [|by rewrite Hlog0]).
  all: unfold build_go_multiplatform.
  all: match goal with
       | |- context [build_targets ?w' ?l go_platforms 0%nat 0 ?s1] =>
           destruct (build_targets_run w' l environ go_platforms 0%nat 0 s1)
             as (s2 & Hrun & Hlog & Henv & Hfresh);
             [done|simpl; lia|]; rewrite Hrun; clear Hrun
       end.
  all: simpl in Hlog; rewrite Hnext0, Hlog0 in Hlog.
  all: simpl; rewrite ?Hnext0.
  all: destruct (decide (_ ≠ 0)) as [Hfail|Hok]; simpl;
    [rewrite Hlog, app_nil_r; split; [done|]; by rewrite <-?app_assoc|].
  all: rewrite packaging_uniform; simpl; split; [done|].
  all: rewrite Hlog; by rewrite <-?app_assoc.
Qed.

End build_run.

Lemma prelude_quiet w :
  Forall (λ e, is_go_build e = false ∧ is_package_output e = false) (prelude w).
Proof.
  unfold prelude, frontend_command.
  destruct (Build.npm_packages_dir_exists w), (Build.ui_dir_exists w),
    (Build.is_windows w), (decide (Build.pnpm_build w ≠ 0)),
    (Build.dist_dir_exists w); simpl; by repeat constructor.
Qed.

Lemma filter_none {A} (P : A → Prop) `{!∀ x, Decision (P x)} (l : list A) :
  Forall (λ x, ¬ P x) l → filter P l = [].
Proof.
  induction 1 as [|x l Hx _ IH]; [done|]. by rewrite filter_cons_False.
Qed.

(** X6: [main] deletes and recreates [npm-packages] before it checks
    anything, so the old packages are gone even when the run then stops: it
    returns 1 when [ui] is missing, the code of the frontend build when that
    is not 0, and 1 when [ui/dist] is missing, which it finds out only after
    [static] has been cleaned.  No toolchain run happens unless all three
    checks pass. *)
Theorem old_packages_are_wiped_first w a environ :
  (∃ rest,
     Build.log (Build.main w a (Build.initial environ)).2
     = (if Build.npm_packages_dir_exists w
        then [Build.Rmtree Build.npm_packages_dir] else [])
       ++ Build.Mkdir Build.npm_packages_dir :: rest)
  ∧ (Build.ui_dir_exists w = false →
     (Build.main w a (Build.initial environ)).1 = Ok 1
     ∧ Build.log (Build.main w a (Build.initial environ)).2
       = (if Build.npm_packages_dir_exists w
          then [Build.Rmtree Build.npm_packages_dir] else [])
         ++ [Build.Mkdir Build.npm_packages_dir])
  ∧ (Build.ui_dir_exists w = true → Build.pnpm_build w ≠ 0 →
     (Build.main w a (Build.initial environ)).1 = Ok (Build.pnpm_build w)
     ∧ Build.log (Build.main w a (Build.initial environ)).2
       = (if Build.npm_packages_dir_exists w
          then [Build.Rmtree Build.npm_packages_dir] else [])
         ++ [Build.Mkdir Build.npm_packages_dir; frontend_command w])
  ∧ (Build.ui_dir_exists w = true → Build.pnpm_build w = 0 →
     Build.dist_dir_exists w = false →
     (Build.main w a (Build.initial environ)).1 = Ok 1
     ∧ Build.log (Build.main w a (Build.initial environ)).2
       = (if Build.npm_packages_dir_exists w
          then [Build.Rmtree Build.npm_packages_dir] else [])
         ++ [Build.Mkdir Build.npm_packages_dir; frontend_command w;
             Build.CleanStaticDir Build.static_dir])
  ∧ (∀ cmd cwd env_ref env,
       Build.GoBuild cmd cwd env_ref env
         ∈ Build.log (Build.main w a (Build.initial environ)).2 →
       Build.ui_dir_exists w = true ∧ Build.pnpm_build w = 0
       ∧ Build.dist_dir_exists w = true).
Proof.
  destruct (main_unfold w a environ) as [-> ->].
  pose proof (prelude_quiet w) as Hquiet.
  unfold prelude, reaches_build, early_code in *. split_and!.
  - eexists. by rewrite <-!app_assoc.
  - intros ->. simpl. split; [done|].
    by destruct (Build.npm_packages_dir_exists w).
  - intros -> Hpnpm. destruct (decide (Build.pnpm_build w ≠ 0)); [|done].
    rewrite bool_decide_eq_false_2 by done. simpl. split; [done|].
    by destruct (Build.npm_packages_dir_exists w).
  - intros -> Hpnpm ->. destruct (decide (Build.pnpm_build w ≠ 0)); [done|].
    rewrite andb_false_r. simpl. split; [done|].
    by destruct (Build.npm_packages_dir_exists w).
  - intros cmd cwd env_ref env Hin.
    destruct (Build.ui_dir_exists w), (bool_decide_reflect (Build.pnpm_build w = 0)),
      (Build.dist_dir_exists w); simpl in Hin; try done.
    all: rewrite app_nil_r in Hin; rewrite Forall_forall in Hquiet.
    all: by apply Hquiet in Hin as [? _].
Qed.

Example ui_missing_run :
  Build.main
    {| Build.npm_packages_dir_exists := true; Build.ui_dir_exists := false;
       Build.is_windows := false; Build.pnpm_build := 0;
       Build.dist_dir_exists := true; Build.str_of_path := join "/";
       Build.go_build := λ _ _, 0; Build.st_size := λ _, None |}
    sample_args (Build.initial ∅)
  = (Ok 1,
     {| Build.dicts := {[ Build.os_environ := ∅ ]}; Build.next_ref := 1%nat;
        Build.log := [ Build.Rmtree Build.npm_packages_dir;
                       Build.Mkdir Build.npm_packages_dir ] |}).
Proof. reflexivity. Qed.

Lemma matrix_run_cons w ldflags environ goos goarch npm_os npm_arch rest fresh :
  matrix_run w ldflags environ ((goos, goarch, npm_os, npm_arch) :: rest) fresh
  = let dir := platform_dir (npm_os +:+ "-" +:+ npm_arch) in
    let cmd := Build.build_cmd w ldflags (Build.path_div dir (Build.output_name goos)) in
    let env := target_env environ goos goarch in
    let started := [Build.Mkdir dir; Build.GoBuild cmd Build.root_dir fresh env] in
    if decide (Build.go_build w cmd env ≠ 0)
    then (started, Build.go_build w cmd env)
    else
      let '(later, ret) := matrix_run w ldflags environ rest (S fresh) in
      (started ++ later, ret).
Proof. reflexivity. Qed.

(** The build matrix when every toolchain run returns 0. *)
Lemma matrix_run_all_ok w ldflags environ platforms :
  (∀ cmd env, Build.go_build w cmd env = 0) →
  ∀ fresh,
    (matrix_run w ldflags environ platforms fresh).2 = 0
    ∧ length (env_refs (matrix_run w ldflags environ platforms fresh).1)
      = length platforms
    ∧ ∀ goos goarch npm_os npm_arch,
        (goos, goarch, npm_os, npm_arch) ∈ platforms →
        Build.Mkdir (platform_dir (npm_os +:+ "-" +:+ npm_arch))
          ∈ (matrix_run w ldflags environ platforms fresh).1
        ∧ ∃ env_ref,
            Build.GoBuild
              (Build.build_cmd w ldflags
                 (Build.path_div (platform_dir (npm_os +:+ "-" +:+ npm_arch))
                    (Build.output_name goos)))
              Build.root_dir env_ref (target_env environ goos goarch)
            ∈ (matrix_run w ldflags environ platforms fresh).1.
Proof.
  intros Hgo.
  induction platforms as [|[[[goos goarch] npm_os] npm_arch] rest IH]; intros fresh.
  - split_and!; [done..|]. by intros ???? ?%elem_of_nil.
  - rewrite matrix_run_cons. cbv zeta. rewrite Hgo.
    destruct (decide (0 ≠ 0)) as [?|_]; [done|].
    destruct (IH (S fresh)) as (Hret & Hlen & Hin).
    destruct (matrix_run w ldflags environ rest (S fresh)) as [later ret].
    simpl in *. split_and!; [done|by rewrite Hlen|].
    intros goos' goarch' npm_os' npm_arch' [[= -> -> -> ->]|Hrest]%elem_of_cons.
    + split; [left|]. eexists. right. left.
    + destruct (Hin _ _ _ _ Hrest) as [Hmk [env_ref Hb]].
      split; [by do 2 right|]. exists env_ref. by do 2 right.
Qed.

Lemma table_by_rule base_name :
  Format.brace_free base_name = true →
  Build.platforms_table base_name
  = Ok (map (λ p, (p, platform_name_rule base_name p)) Build.main_platforms).
Proof.
  intros Hb. unfold Build.platforms_table. apply comprehension_Ok. intros p _.
  by rewrite main_template_same, template_names_by_rule by done.
Qed.

Lemma optional_deps_by_rule version base_name :
  Format.brace_free base_name = true →
  Build.optional_deps version base_name
  = Ok (Build.dict_of
          (map (λ p, (platform_name_rule base_name p, version)) Build.main_platforms)).
Proof.
  intros Hb. unfold Build.optional_deps.
  rewrite (comprehension_Ok _ (λ p, (platform_name_rule base_name p, version)));
    [done|].
  intros p _. by rewrite main_template_same, template_names_by_rule by done.
Qed.

Lemma platform_package_json_by_rule version base_name npm_os npm_arch :
  Format.brace_free base_name = true →
  ∃ j, Build.platform_package_json version base_name npm_os npm_arch = Ok j
       ∧ Build.pj_name j = platform_name_rule base_name (npm_os +:+ "-" +:+ npm_arch)
       ∧ Build.pj_version j = version
       ∧ Build.pj_os j = [npm_os] ∧ Build.pj_cpu j = [npm_arch].
Proof.
  intros Hb. unfold Build.platform_package_json. cbv zeta.
  rewrite template_names_by_rule by done. by eexists.
Qed.

(** Step 4 when every manifest can be named: a marker and a manifest for
    each platform, and nothing else. *)
Lemma platform_packages_loop_ok version base_name platforms :
  (∀ npm_os npm_arch, (npm_os, npm_arch) ∈ platforms →
     ∃ j, Build.platform_package_json version base_name npm_os npm_arch = Ok j) →
  ∃ events,
    (∀ s, Build.platform_packages_loop version base_name platforms s
          = (Ok 0, appended s events))
    ∧ Forall (λ e, is_go_build e = false) events
    ∧ ∀ npm_os npm_arch, (npm_os, npm_arch) ∈ platforms →
        ∃ j, Build.platform_package_json version base_name npm_os npm_arch = Ok j
             ∧ Build.Touch
                 (Build.path_div (platform_dir (npm_os +:+ "-" +:+ npm_arch))
                    ".npm-global") ∈ events
             ∧ Build.DumpPlatformJson
                 (Build.path_div (platform_dir (npm_os +:+ "-" +:+ npm_arch))
                    "package.json") j ∈ events.
Proof.
  induction platforms as [|[npm_os npm_arch] rest IH]; intros Hnamed.
  - exists []. split_and!; [|done|].
    + intros s. by rewrite appended_nil.
    + by intros ?? ?%elem_of_nil.
  - destruct IH as (events & Hrun & Hquiet & Hin).
    { intros ???. apply Hnamed. by right. }
    destruct (Hnamed npm_os npm_arch) as [j Hj]; [left|].
    eexists (_ :: _ :: events). split_and!.
    + intros s. simpl. unfold mbind, Build.M_bind, Build.record, Build.lift.
      rewrite Hj, Hrun. unfold appended. simpl. by rewrite <-!app_assoc.
    + by repeat constructor.
    + intros npm_os' npm_arch' [[= -> ->]|Hrest]%elem_of_cons.
      * exists j. split_and!; [done|left|right; left].
      * destruct (Hin _ _ Hrest) as (j' & ? & ? & ?).
        exists j'. split_and!; [done|by do 2 right..].
Qed.

(** Step 4 stops at the first manifest whose name cannot be formatted, with
    the marker of that platform already written. *)
Lemma platform_packages_loop_raises version base_name npm_os npm_arch rest s :
  Build.platform_package_json version base_name npm_os npm_arch = Raises →
  Build.platform_packages_loop version base_name ((npm_os, npm_arch) :: rest) s
  = (Raises,
     appended s
       [Build.Touch
          (Build.path_div (platform_dir (npm_os +:+ "-" +:+ npm_arch)) ".npm-global")]).
Proof.
  intros Hj. simpl. unfold mbind, Build.M_bind, Build.record, Build.lift.
  by rewrite Hj.
Qed.

Lemma platforms_mapping_by_rule base_name :
  Format.brace_free base_name = true →
  ∃ mapping, Build.platforms_mapping base_name = Ok mapping.
Proof.
  intros Hb. unfold Build.platforms_mapping. rewrite table_by_rule by done.
  by eexists.
Qed.

Lemma main_package_json_by_rule version base_name :
  Format.brace_free base_name = true →
  ∃ j, Build.main_package_json version base_name = Ok j
       ∧ Build.mj_name j = base_name ∧ Build.mj_version j = version
       ∧ Build.mj_optionalDependencies j
         = Build.dict_of
             (map (λ p, (platform_name_rule base_name p, version))
                Build.main_platforms).
Proof.
  intros Hb. unfold Build.main_package_json.
  rewrite optional_deps_by_rule by done. by eexists.
Qed.

(** Step 5 when the table and the manifest can be built. *)
Lemma create_main_package_ok version base_name mapping j s :
  Build.platforms_mapping base_name = Ok mapping →
  Build.main_package_json version base_name = Ok j →
  Build.create_main_package version base_name s
  = (Ok 0,
     appended s
       [Build.Mkdir (Build.path_div Build.root_dir "npm-bin");
        Build.WriteLauncher
          (Build.path_div (Build.path_div Build.root_dir "npm-bin") "codekanban.js")
          {| Build.ls_platforms_mapping := mapping;
             Build.ls_base_name := base_name |};
        Build.DumpMainJson (Build.path_div Build.root_dir "package.json") j]).
Proof.
  intros Hmapping Hj.
  unfold Build.create_main_package, mbind, Build.M_bind, Build.record, Build.lift.
  rewrite Hmapping, Hj. unfold appended. simpl. by rewrite <-!app_assoc.
Qed.

Lemma go_platforms_packaged goos goarch npm_os npm_arch :
  (goos, goarch, npm_os, npm_arch) ∈ Build.go_platforms →
  (npm_os, npm_arch) ∈ Build.package_platforms.
Proof.
  unfold Build.go_platforms, Build.package_platforms.
  rewrite !elem_of_cons, elem_of_nil.
  intros [[= _ _ <- <-]|[[= _ _ <- <-]|[[= _ _ <- <-]|[[= _ _ <- <-]|[[= _ _ <- <-]|[]]]]]].
  all: auto 10.
Qed.

Lemma prelude_no_build w : Forall (λ e, is_go_build e = false) (prelude w).
Proof. eapply Forall_impl; [apply prelude_quiet|]. by intros e [? _]. Qed.

Lemma prelude_no_package w : Forall (λ e, is_package_output e = false) (prelude w).
Proof. eapply Forall_impl; [apply prelude_quiet|]. by intros e [_ ?]. Qed.

(** X7: when the frontend builds, [ui/dist] exists, every toolchain run
    returns 0 and the main package name has no brace, [main] returns 0 after
    exactly five toolchain runs.  For each target of the build matrix the
    binary is built into the directory of its platform key, from the ambient
    environment with the target's three variables, and that same directory
    gets the marker and a manifest named by the rule, with the run's version
    and the target's [os] and [cpu].  The launcher and the main manifest are
    the last things written. *)
Theorem complete_run w a environ :
  Build.ui_dir_exists w = true →
  Build.pnpm_build w = 0 →
  Build.dist_dir_exists w = true →
  (∀ cmd env, Build.go_build w cmd env = 0) →
  Format.brace_free (Build.package_name a) = true →
  (Build.main w a (Build.initial environ)).1 = Ok 0
  ∧ length (env_refs (Build.log (Build.main w a (Build.initial environ)).2)) = 5%nat
  ∧ (∀ goos goarch npm_os npm_arch,
       (goos, goarch, npm_os, npm_arch) ∈ Build.go_platforms →
       ∃ env_ref j,
         Build.GoBuild
           (Build.build_cmd w (ldflags_of a)
              (Build.path_div (platform_dir (npm_os +:+ "-" +:+ npm_arch))
                 (Build.output_name goos)))
           Build.root_dir env_ref (target_env environ goos goarch)
           ∈ Build.log (Build.main w a (Build.initial environ)).2
         ∧ Build.Touch
             (Build.path_div (platform_dir (npm_os +:+ "-" +:+ npm_arch))
                ".npm-global")
             ∈ Build.log (Build.main w a (Build.initial environ)).2
         ∧ Build.DumpPlatformJson
             (Build.path_div (platform_dir (npm_os +:+ "-" +:+ npm_arch))
                "package.json") j
             ∈ Build.log (Build.main w a (Build.initial environ)).2
         ∧ Build.pj_name j
           = platform_name_rule (Build.package_name a) (npm_os +:+ "-" +:+ npm_arch)
         ∧ Build.pj_version j = Build.version a
         ∧ Build.pj_os j = [npm_os] ∧ Build.pj_cpu j = [npm_arch])
  ∧ ∃ before mapping j,
      Build.log (Build.main w a (Build.initial environ)).2
      = before
        ++ [Build.Mkdir (Build.path_div Build.root_dir "npm-bin");
            Build.WriteLauncher
              (Build.path_div (Build.path_div Build.root_dir "npm-bin")
                 "codekanban.js")
              {| Build.ls_platforms_mapping := mapping;
                 Build.ls_base_name := Build.package_name a |};
            Build.DumpMainJson (Build.path_div Build.root_dir "package.json") j]
      ∧ Build.platforms_mapping (Build.package_name a) = Ok mapping
      ∧ Build.main_package_json (Build.version a) (Build.package_name a) = Ok j.
Proof.
  intros Hui Hpnpm Hdist Hgo Hb.
  destruct (main_unfold w a environ) as [-> ->].
  unfold reaches_build. rewrite Hui, Hdist, (bool_decide_eq_true_2 _ Hpnpm).
  cbn [andb]. fold (ldflags_of a).
  destruct (matrix_run_all_ok w (ldflags_of a) environ Build.go_platforms Hgo 1%nat)
    as (Hret & Hlen & Hbuilt).
  rewrite Hret. destruct (decide (0 ≠ 0)) as [?|_]; [done|].
  destruct (platform_packages_loop_ok (Build.version a) (Build.package_name a)
              Build.package_platforms) as (events4 & H4 & Hquiet4 & Hin4).
  { intros npm_os npm_arch _.
    destruct (platform_package_json_by_rule (Build.version a) (Build.package_name a)
                npm_os npm_arch Hb) as (j & ? & _).
    by exists j. }
  destruct (platforms_mapping_by_rule _ Hb) as [mapping Hmapping].
  destruct (main_package_json_by_rule (Build.version a) _ Hb) as (j & Hj & _).
  assert (Hpack : packaging_run (Build.version a) (Build.package_name a)
                  = (Ok 0, events4
                           ++ [Build.Mkdir (Build.path_div Build.root_dir "npm-bin");
                               Build.WriteLauncher
                                 (Build.path_div
                                    (Build.path_div Build.root_dir "npm-bin")
                                    "codekanban.js")
                                 {| Build.ls_platforms_mapping := mapping;
                                    Build.ls_base_name := Build.package_name a |};
                               Build.DumpMainJson
                                 (Build.path_div Build.root_dir "package.json") j])).
  { unfold packaging_run, packaging, Build.create_platform_packages,
      mbind, Build.M_bind.
    rewrite H4. destruct (decide (0 ≠ 0)) as [?|_]; [done|].
    rewrite (create_main_package_ok _ _ mapping j) by done.
    by destruct (decide (0 ≠ 0)). }
  rewrite Hpack. cbn [fst snd]. split_and!.
  - done.
  - rewrite !env_refs_app, (env_refs_none (prelude w)) by apply prelude_no_build.
    rewrite (env_refs_none events4) by done.
    rewrite !length_app, Hlen. reflexivity.
  - intros goos goarch npm_os npm_arch Hin.
    destruct (Hbuilt _ _ _ _ Hin) as [_ [env_ref Hgb]].
    destruct (Hin4 _ _ (go_platforms_packaged _ _ _ _ Hin))
      as (pj & Hpj & Htouch & Hdump).
    destruct (platform_package_json_by_rule (Build.version a) (Build.package_name a)
                npm_os npm_arch Hb) as (pj' & Hpj' & Hname & Hversion & Hos & Hcpu).
    assert (pj' = pj) as -> by congruence.
    exists env_ref, pj. rewrite !elem_of_app. split_and!; auto.
  - exists (prelude w
            ++ (matrix_run w (ldflags_of a) environ Build.go_platforms 1%nat).1
            ++ events4), mapping, j.
    split_and!; [|done..]. by rewrite <-!app_assoc.
Qed.

Lemma complete_run_witness :
  Build.ui_dir_exists every_target_builds = true
  ∧ Build.pnpm_build every_target_builds = 0
  ∧ Build.dist_dir_exists every_target_builds = true
  ∧ Format.brace_free (Build.package_name sample_args) = true
  ∧ (Build.main every_target_builds sample_args (Build.initial sample_environ)).1
    = Ok 0
  ∧ length (env_refs (Build.log (Build.main every_target_builds sample_args
                                   (Build.initial sample_environ)).2)) = 5%nat.
Proof.
  assert (Hb : Format.brace_free (Build.package_name sample_args) = true)
    by (vm_compute; reflexivity).
  split_and!; [reflexivity..|exact Hb| |].
  - refine (proj1 (complete_run every_target_builds sample_args sample_environ
                     _ _ _ _ Hb)); intros; reflexivity.
  - refine (proj1 (proj2 (complete_run every_target_builds sample_args sample_environ
                            _ _ _ _ Hb))); intros; reflexivity.
Defined.

(** X8: the main package name is first looked at in step 4.  When
    [str.format] raises on the template made from it, the exception leaves
    [main] only after the frontend build and all five toolchain runs; the
    marker of the first platform is the last thing written, and no manifest
    and no launcher is. *)
Theorem unformattable_name_raises_late w a environ :
  Build.ui_dir_exists w = true →
  Build.pnpm_build w = 0 →
  Build.dist_dir_exists w = true →
  (∀ cmd env, Build.go_build w cmd env = 0) →
  Format.format (Build.platform_name_template (Build.package_name a))
    {["platform" := "win32-x64"]} = Raises →
  (Build.main w a (Build.initial environ)).1 = Raises
  ∧ ∃ before,
      Build.log (Build.main w a (Build.initial environ)).2
      = before
        ++ [Build.Touch (Build.path_div (platform_dir "win32-x64") ".npm-global")]
      ∧ length (env_refs before) = 5%nat
      ∧ Forall (λ e, is_package_output e = false) before.
Proof.
  intros Hui Hpnpm Hdist Hgo Hraises.
  destruct (main_unfold w a environ) as [-> ->].
  unfold reaches_build. rewrite Hui, Hdist, (bool_decide_eq_true_2 _ Hpnpm).
  cbn [andb]. fold (ldflags_of a).
  destruct (matrix_run_all_ok w (ldflags_of a) environ Build.go_platforms Hgo 1%nat)
    as (Hret & Hlen & _).
  rewrite Hret. destruct (decide (0 ≠ 0)) as [?|_]; [done|].
  assert (Hpack : packaging_run (Build.version a) (Build.package_name a)
                  = (Raises,
                     [Build.Touch
                        (Build.path_div (platform_dir "win32-x64") ".npm-global")])).
  { unfold packaging_run, packaging, Build.create_platform_packages,
      Build.package_platforms, mbind, Build.M_bind.
    rewrite platform_packages_loop_raises; [done|].
    unfold Build.platform_package_json. cbv zeta.
    change ("win32" +:+ "-" +:+ "x64") with "win32-x64". by rewrite Hraises. }
  rewrite Hpack. cbn [fst snd]. split; [done|].
  exists (prelude w ++ (matrix_run w (ldflags_of a) environ Build.go_platforms 1%nat).1).
  split_and!.
  - by rewrite <-!app_assoc.
  - rewrite env_refs_app, (env_refs_none (prelude w)) by apply prelude_no_build.
    rewrite length_app, Hlen. reflexivity.
  - apply Forall_app. split; [apply prelude_no_package|].
    apply matrix_run_no_package.
Qed.

Lemma unformattable_name_raises_late_witness :
  Format.format (Build.platform_name_template (Build.package_name unformattable_args))
    {["platform" := "win32-x64"]} = Raises
  ∧ (Build.main every_target_builds unformattable_args
       (Build.initial sample_environ)).1 = Raises.
Proof.
  assert (Hraises :
    Format.format
      (Build.platform_name_template (Build.package_name unformattable_args))
      {["platform" := "win32-x64"]} = Raises) by (vm_compute; reflexivity).
  split; [exact Hraises|].
  refine (proj1 (unformattable_name_raises_late every_target_builds
                   unformattable_args sample_environ _ _ _ _ Hraises));
    intros; reflexivity.
Defined.

(** ** From the build to the launcher *)

Lemma comprehension_total {A B} (f : A → outcome B) l :
  (∀ a, a ∈ l → ∃ b, f a = Ok b) → ∃ r, comprehension f l = Ok r.
Proof.
  induction l as [|a l IH]; intros Hf; [by eexists|]. simpl.
  destruct (Hf a) as [b ->]; [left|]. simpl.
  destruct IH as [r ->]; [|by eexists].
  intros a' ?. apply Hf. by right.
Qed.

(** Whenever the launcher's table can be built, so can
    [optionalDependencies], and every name of the table is one of its keys,
    at the version of the run. *)
Lemma optional_deps_of_table version base_name table :
  Build.platforms_table base_name = Ok table →
  ∃ deps,
    Build.optional_deps version base_name = Ok deps
    ∧ ∀ key name,
        Launcher.own_property table key = Some name → deps !! name = Some version.
Proof.
  intros Htable. unfold Build.optional_deps. cbv zeta.
  destruct (comprehension_total
              (λ p, name ← Format.format (Build.main_platform_name_template base_name)
                             {["platform" := p]};
                    Ok (name, version))
              Build.main_platforms) as [items Hitems].
  { intros p [i Hi]%list_elem_of_lookup_1.
    apply comprehension_Forall2 in Htable.
    destruct (Forall2_lookup_l _ _ _ _ _ Htable Hi) as (kv & _ & Hkv).
    simpl in Hkv. destruct (Format.format _ _) as [name| |]; [|done..].
    by eexists. }
  rewrite Hitems. eexists. split; [done|].
  intros key name Hown.
  destruct (table_entry _ _ _ _ Htable Hown) as (Hkey & Hfmt & _).
  apply comprehension_Forall2 in Hitems.
  assert (Hvalues : map_Forall (λ _ x, x = version) (Build.dict_of items)).
  { apply dict_of_values_from; [|apply map_Forall_empty].
    eapply Forall2_Forall_r; [exact Hitems|].
    apply Forall_forall. intros p _ [k v]. simpl.
    destruct (Format.format _ {["platform" := p]}); [|done..].
    simpl. by intros [= _ ->]. }
  apply list_elem_of_lookup_1 in Hkey as [i Hi].
  destruct (Forall2_lookup_l _ _ _ _ _ Hitems Hi) as (kv & Hkv & Hf).
  simpl in Hf. rewrite Hfmt in Hf. simpl in Hf. injection Hf as <-.
  apply list_elem_of_lookup_2 in Hkv.
  destruct (dict_of_lookup _ _ _ Hkv) as [v' Hv'].
  by rewrite Hv', (Hvalues _ _ Hv').
Qed.

(** The launcher's key and file name for the host a target was built for. *)
Lemma target_host goos goarch platform arch :
  (goos, goarch, platform, arch) ∈ Build.go_platforms →
  platform +:+ "-" +:+ arch ∈ Build.main_platforms
  ∧ (if String.eqb platform "win32" then "codekanban.exe" else "codekanban")
    = Build.output_name goos.
Proof.
  unfold Build.go_platforms. rewrite !elem_of_cons, elem_of_nil.
  intros [[= -> -> -> ->]|[[= -> -> -> ->]|[[= -> -> -> ->]|[[= -> -> -> ->]
         |[[= -> -> -> ->]|[]]]]]].
  all: split; [apply (bool_decide_unpack _); by vm_compute|reflexivity].
Qed.

(** X9: the build and the launcher it writes agree on where a binary is.
    On the host a target of the build matrix is built for, the launcher's
    table gives a package name, and that name is the name of the manifest
    step 4 writes beside the binary of that target, whose [os] and [cpu] are
    the host's, and a key of the main manifest's [optionalDependencies] at
    the version of the run.  Once that package resolves, the file the
    launcher starts in the package directory has the name the toolchain was
    told to write for that target. *)
Theorem launcher_runs_what_was_built version base_name table h goos goarch :
  Launcher.generated_table base_name = Some table →
  (goos, goarch, Launcher.process_platform h, Launcher.process_arch h)
    ∈ Build.go_platforms →
  ∃ name j deps,
    Launcher.own_property table
      (Launcher.process_platform h +:+ "-" +:+ Launcher.process_arch h) = Some name
    ∧ Build.platform_package_json version base_name
        (Launcher.process_platform h) (Launcher.process_arch h) = Ok j
    ∧ Build.pj_name j = name
    ∧ Build.pj_os j = [Launcher.process_platform h]
    ∧ Build.pj_cpu j = [Launcher.process_arch h]
    ∧ Build.optional_deps version base_name = Ok deps
    ∧ deps !! name = Some version
    ∧ ∀ packagePath,
        Launcher.require_resolve h (name +:+ "/package.json") = Some packagePath →
        ∃ call,
          Launcher.spawned (Launcher.launcher table base_name h) = Some call
          ∧ Launcher.sc_file call
            = Launcher.path_join h (Launcher.path_dirname h packagePath)
                (Build.output_name goos).
Proof.
  intros Htable%generated_table_Some [Hkey Hbin]%target_host.
  destruct (Launcher.own_property table
              (Launcher.process_platform h +:+ "-" +:+ Launcher.process_arch h))
    as [name|] eqn:Hown.
  2: { apply own_property_None in Hown.
       by rewrite (platforms_table_keys _ _ Htable) in Hown. }
  destruct (table_entry _ _ _ _ Htable Hown) as (_ & Hfmt & Hname).
  destruct (optional_deps_of_table version _ _ Htable) as (deps & Hdeps & Hpinned).
  exists name. eexists. exists deps. split_and!.
  - done.
  - unfold Build.platform_package_json. cbv zeta.
    rewrite <-main_template_same, Hfmt. reflexivity.
  - done.
  - done.
  - done.
  - done.
  - by apply (Hpinned _ _ Hown).
  - intros packagePath Hresolve. unfold Launcher.launcher.
    rewrite (get_present _ _ _ Hown). simpl.
    rewrite (proj2 (String.eqb_neq _ _) Hname). simpl.
    rewrite Hresolve, Hbin.
    destruct (Launcher.child h _); by eexists.
Qed.

Lemma launcher_runs_what_was_built_witness :
  Launcher.generated_table "codekanban" = Some codekanban_table
  ∧ ∃ name j,
      Launcher.own_property codekanban_table "win32-x64" = Some name
      ∧ Build.platform_package_json "1.2.3" "codekanban" "win32" "x64" = Ok j
      ∧ Build.pj_name j = name.
Proof.
  assert (Htable : Launcher.generated_table "codekanban" = Some codekanban_table)
    by (vm_compute; reflexivity).
  split; [exact Htable|].
  destruct (launcher_runs_what_was_built "1.2.3" "codekanban" codekanban_table
              (sample_host "win32" "x64" (λ _, None) (λ _, Launcher.ChildRunning))
              "windows" "amd64" Htable)
    as (name & j & deps & Hown & Hj & Hname & _).
  - unfold Build.go_platforms. simpl. rewrite !elem_of_cons. auto 10.
  - by exists name, j.
Defined.

(** ** The publish script, run as a whole *)

Lemma publish_platforms_nil w cmd :
  Publish.publish_platforms w cmd [] = (Ok None, []).
Proof. reflexivity. Qed.

Lemma publish_platforms_cons w cmd platform rest :
  Publish.publish_platforms w cmd (platform :: rest)
  = if negb (Publish.platform_dir_exists w
               (Build.path_div Build.npm_packages_dir platform))
    then Publish.publish_platforms w cmd rest
    else
      match Publish.platform_package_json w
              (Build.path_div (Build.path_div Build.npm_packages_dir platform)
                 "package.json") with
      | Publish.Malformed => (Raises, [])
      | _ =>
          if negb (Publish.platform_dir_is_dir w
                     (Build.path_div Build.npm_packages_dir platform))
          then (Raises, [])
          else
            let '(ret, started) :=
              Publish.run_command w cmd
                (Build.path_div Build.npm_packages_dir platform) in
            if decide (ret ≠ 0) then (Ok (Some ret), started)
            else
              let '(r, later) := Publish.publish_platforms w cmd rest in
              (r, started ++ later)
      end.
Proof. reflexivity. Qed.

(** In the loop over the platform packages a publish that returns a non-zero
    code is the last one, and its code is what the loop hands back. *)
Lemma publish_platforms_codes w cmd platforms :
  (∀ i e,
     (Publish.publish_platforms w cmd platforms).2 !! i = Some e →
     returncode w e ≠ 0 →
     length (Publish.publish_platforms w cmd platforms).2 = S i
     ∧ (Publish.publish_platforms w cmd platforms).1 = Ok (Some (returncode w e)))
  ∧ (∀ ret,
       (Publish.publish_platforms w cmd platforms).1 = Ok (Some ret) →
       (Publish.publish_platforms w cmd platforms).2 ≠ [])
  ∧ (Publish.publish_platforms w cmd platforms).1 ≠ Unmodelled.
Proof.
  induction platforms as [|platform rest IH].
  { rewrite publish_platforms_nil. simpl. by split_and!. }
  rewrite publish_platforms_cons.
  destruct (Publish.platform_dir_exists w _); simpl; [|exact IH].
  assert (Hraises :
    (∀ i (e : Publish.event), ([] : list Publish.event) !! i = Some e →
        returncode w e ≠ 0 →
        length ([] : list Publish.event) = S i
        ∧ (Raises : outcome (option Z)) = Ok (Some (returncode w e)))
    ∧ (∀ ret : Z, (Raises : outcome (option Z)) = Ok (Some ret) →
         ([] : list Publish.event) ≠ [])
    ∧ (Raises : outcome (option Z)) ≠ Unmodelled) by by split_and!.
  destruct (Publish.platform_dir_is_dir w _); simpl.
  2: { destruct (Publish.platform_package_json w _); exact Hraises. }
  assert (Hpublish :
    let '(ret, started) :=
      Publish.run_command w cmd (Build.path_div Build.npm_packages_dir platform) in
    let run :=
      if decide (ret ≠ 0) then (Ok (Some ret), started)
      else
        let '(r, later) := Publish.publish_platforms w cmd rest in
        (r, started ++ later) in
    (∀ i e, run.2 !! i = Some e → returncode w e ≠ 0 →
            length run.2 = S i ∧ run.1 = Ok (Some (returncode w e)))
    ∧ (∀ ret, run.1 = Ok (Some ret) → run.2 ≠ [])
    ∧ run.1 ≠ Unmodelled).
  { unfold Publish.run_command. cbv zeta.
    destruct (decide (Publish.run w _ _ ≠ 0)) as [Hfail|Hok]; simpl.
    - split_and!; [|done..].
      intros [|i] e; simpl; [|done]. by intros [= <-].
    - apply dec_stable in Hok. destruct IH as (Hcodes & Hnonempty & Hmodelled).
      destruct (Publish.publish_platforms w cmd rest) as [r later]. simpl in *.
      split_and!; [|done..].
      intros [|i] e; simpl.
      + by intros [= <-].
      + intros Hi Hcode. destruct (Hcodes i e Hi Hcode) as [-> ->]. done. }
  destruct (Publish.platform_package_json w _); [exact Hpublish| |exact Hpublish].
  simpl. by split_and!.
Qed.

(** When every process returns 0, no manifest is unreadable and every
    platform path that exists is a directory, the loop publishes from the
    platform directories that exist, in the order of the list, and from no
    other. *)
Lemma publish_platforms_all_ok w cmd platforms :
  (∀ p, Publish.platform_package_json w p ≠ Publish.Malformed) →
  (∀ p, Publish.platform_dir_exists w p = true →
        Publish.platform_dir_is_dir w p = true) →
  (∀ c cwd, Publish.run w c cwd = 0) →
  Publish.publish_platforms w cmd platforms
  = (Ok None,
     map (λ p, Publish.Subprocess (Publish.command_of w cmd)
                 (Build.path_div Build.npm_packages_dir p))
       (filter (λ p, Publish.platform_dir_exists w
                       (Build.path_div Build.npm_packages_dir p) = true)
          platforms)).
Proof.
  intros Hjson Hdirs Hrun. induction platforms as [|platform rest IH]; [done|].
  rewrite publish_platforms_cons.
  destruct (Publish.platform_dir_exists w _) eqn:Hexists; simpl.
  - rewrite filter_cons_True by done. rewrite (Hdirs _ Hexists). cbn [negb].
    unfold Publish.run_command. rewrite Hrun, IH.
    destruct (decide (0 ≠ 0)) as [?|_]; [done|].
    destruct (Publish.platform_package_json w _) eqn:Hj; [done| |done].
    by apply Hjson in Hj.
  - rewrite filter_cons_False by (by rewrite Hexists). exact IH.
Qed.

(** The whole run once [npm-packages] and the main manifest are there. *)
Lemma publish_main_unfold w main_package_name version :
  Publish.npm_packages_dir_exists w = true →
  Publish.main_package_json w = Publish.Loaded main_package_name version →
  Publish.main w
  = if missing_token w then (Ok 1, [whoami_event w])
    else
      match Publish.publish_platforms w (publish_cmd w) Publish.platforms with
      | (Ok None, published) =>
          (Ok (returncode w (publish_event w Build.root_dir)),
           whoami_event w :: published ++ [publish_event w Build.root_dir])
      | (Ok (Some ret), published) => (Ok ret, whoami_event w :: published)
      | (Raises, published) => (Raises, whoami_event w :: published)
      | (Unmodelled, published) => (Unmodelled, whoami_event w :: published)
      end.
Proof.
  intros Hdir Hjson.
  unfold Publish.main, Publish.run_command, missing_token, returncode,
    publish_event, whoami_event, publish_cmd.
  rewrite Hdir, Hjson. cbn [negb].
  destruct (decide (Publish.run w _ Build.root_dir ≠ 0)) as [Hwhoami|Hwhoami].
  - rewrite (bool_decide_eq_true_2 _ Hwhoami).
    destruct (Publish.is_github_actions w); cbn [andb].
    + destruct (match Publish.getenv w "NODE_AUTH_TOKEN" with
                | Some token => negb (truthy token)
                | None => true
                end); [done|].
      destruct (Publish.publish_platforms w _ Publish.platforms)
        as [[[ret|]| |] published]; try done.
      destruct (decide (_ ≠ 0)) as [?|Hok]; [done|].
      apply dec_stable in Hok. by rewrite Hok.
    + destruct (Publish.publish_platforms w _ Publish.platforms)
        as [[[ret|]| |] published]; try done.
      destruct (decide (_ ≠ 0)) as [?|Hok]; [done|].
      apply dec_stable in Hok. by rewrite Hok.
  - rewrite (bool_decide_eq_false_2 _ Hwhoami). cbn [andb].
    destruct (Publish.is_github_actions w).
    + destruct (Publish.publish_platforms w _ Publish.platforms)
        as [[[ret|]| |] published]; try done.
      destruct (decide (_ ≠ 0)) as [?|Hok]; [done|].
      apply dec_stable in Hok. by rewrite Hok.
    + destruct (Publish.publish_platforms w _ Publish.platforms)
        as [[[ret|]| |] published]; try done.
      destruct (decide (_ ≠ 0)) as [?|Hok]; [done|].
      apply dec_stable in Hok. by rewrite Hok.
Qed.

(** X10: the publish script stops at the first package the registry refuses.
    A publish that returns a non-zero code is the last process of the run, in
    the loop over the platform packages as for the main package, and its code
    is what [main] returns; the packages published before it stay
    published. *)
Theorem failed_publish_is_last w i e :
  (Publish.main w).2 !! i = Some e →
  Publish.is_publish e = true →
  returncode w e ≠ 0 →
  length (Publish.main w).2 = S i
  ∧ (Publish.main w).1 = Ok (returncode w e).
Proof.
  destruct (Publish.npm_packages_dir_exists w) eqn:Hdir.
  2: { unfold Publish.main. rewrite Hdir. done. }
  destruct (Publish.main_package_json w) as [| |name version] eqn:Hjson.
  1,2: unfold Publish.main; rewrite Hdir, Hjson; done.
  rewrite (publish_main_unfold w name version Hdir Hjson).
  assert (Hwhoami : Publish.is_publish (whoami_event w) = false)
    by apply whoami_is_no_publish.
  destruct (missing_token w).
  { destruct i; simpl; [|done]. intros [= <-]. by rewrite Hwhoami. }
  destruct (publish_platforms_codes w (publish_cmd w) Publish.platforms)
    as (Hcodes & _ & Hmodelled).
  destruct (Publish.publish_platforms w (publish_cmd w) Publish.platforms)
    as [r published].
  simpl in Hcodes, Hmodelled.
  destruct r as [[ret|]| |]; [| | |done].
  all: destruct i as [|i]; simpl; [intros [= <-]; by rewrite Hwhoami|].
  - intros Hi _ Hcode. destruct (Hcodes i e Hi Hcode) as [-> [= ->]]. done.
  - intros Hi _ Hcode. apply lookup_app_Some in Hi as [Hi|[Hge Hi]].
    + by destruct (Hcodes i e Hi Hcode) as [_ ?].
    + apply list_lookup_singleton_Some in Hi as [Hi <-].
      rewrite length_app. simpl. split; [lia|done].
  - intros Hi _ Hcode. by destruct (Hcodes i e Hi Hcode) as [_ ?].
Qed.

Lemma failed_publish_is_last_witness :
  (Publish.main second_publish_fails).2 !! 2%nat
  = Some (publish_event second_publish_fails
            (Build.path_div Build.npm_packages_dir "darwin-x64"))
  ∧ length (Publish.main second_publish_fails).2 = 3%nat
  ∧ (Publish.main second_publish_fails).1 = Ok 7.
Proof.
  assert (Hrun : (Publish.main second_publish_fails).2 !! 2%nat
                 = Some (publish_event second_publish_fails
                           (Build.path_div Build.npm_packages_dir "darwin-x64")))
    by (vm_compute; reflexivity).
  split; [exact Hrun|].
  apply (failed_publish_is_last second_publish_fails 2
           (publish_event second_publish_fails
              (Build.path_div Build.npm_packages_dir "darwin-x64")) Hrun).
  - reflexivity.
  - vm_compute. discriminate.
Defined.

(** X11: a platform directory that does not exist is passed over, and
    nothing is counted.  When every process returns 0, no platform manifest is
    unreadable and every platform path that exists is a directory, [main]
    returns 0 after [npm whoami], one publish in each platform directory that
    exists, in the order of the list, and the publish of the main package;
    the main package is published whether or not all five platform packages
    were. *)
Theorem missing_platform_packages_are_skipped w main_package_name version :
  Publish.npm_packages_dir_exists w = true →
  Publish.main_package_json w = Publish.Loaded main_package_name version →
  (∀ p, Publish.platform_package_json w p ≠ Publish.Malformed) →
  (∀ p, Publish.platform_dir_exists w p = true →
        Publish.platform_dir_is_dir w p = true) →
  (∀ c cwd, Publish.run w c cwd = 0) →
  Publish.main w
  = (Ok 0,
     whoami_event w
     :: map (λ p, publish_event w (Build.path_div Build.npm_packages_dir p))
          (filter (λ p, Publish.platform_dir_exists w
                          (Build.path_div Build.npm_packages_dir p) = true)
             Publish.platforms)
     ++ [publish_event w Build.root_dir]).
Proof.
  intros Hdir Hjson Hreadable Hdirs Hrun.
  rewrite (publish_main_unfold w main_package_name version Hdir Hjson).
  unfold missing_token.
  rewrite bool_decide_eq_false_2 by (rewrite Hrun; intros Hne; by apply Hne).
  cbn [andb].
  rewrite (publish_platforms_all_ok w (publish_cmd w) Publish.platforms
             Hreadable Hdirs Hrun).
  unfold returncode, publish_event. by rewrite Hrun.
Qed.

Lemma missing_platform_packages_are_skipped_witness :
  Publish.main two_packages_built
  = (Ok 0,
     [ whoami_event two_packages_built;
       publish_event two_packages_built
         (Build.path_div Build.npm_packages_dir "win32-x64");
       publish_event two_packages_built
         (Build.path_div Build.npm_packages_dir "linux-x64");
       publish_event two_packages_built Build.root_dir ]).
Proof.
  rewrite (missing_platform_packages_are_skipped two_packages_built
             "codekanban" "1.2.3"); [|done..].
  vm_compute. reflexivity.
Defined.

(** X12: the run ends with [npm whoami] as its only process and a code
    returned exactly when [npm-packages] and the main manifest are there and
    that check fails on GitHub Actions with [NODE_AUTH_TOKEN] unset or empty;
    the code is then 1.  Everywhere else a failed check is reported and the
    publishing goes on. *)
Theorem stops_after_whoami_iff w :
  ((∃ ret, Publish.main w = (Ok ret, [whoami_event w]))
   ↔ Publish.npm_packages_dir_exists w = true
     ∧ (∃ main_package_name version,
          Publish.main_package_json w = Publish.Loaded main_package_name version)
     ∧ returncode w (whoami_event w) ≠ 0
     ∧ Publish.getenv w "GITHUB_ACTIONS" = Some "true"
     ∧ (Publish.getenv w "NODE_AUTH_TOKEN" = None
        ∨ Publish.getenv w "NODE_AUTH_TOKEN" = Some ""))
  ∧ (∀ ret, Publish.main w = (Ok ret, [whoami_event w]) → ret = 1).
Proof.
  assert (Hstops : ∀ ret, Publish.main w = (Ok ret, [whoami_event w]) →
    ret = 1
    ∧ Publish.npm_packages_dir_exists w = true
    ∧ (∃ main_package_name version,
         Publish.main_package_json w = Publish.Loaded main_package_name version)
    ∧ missing_token w = true).
  { intros ret Hmain.
    destruct (Publish.npm_packages_dir_exists w) eqn:Hdir.
    2: { unfold Publish.main in Hmain. by rewrite Hdir in Hmain. }
    destruct (Publish.main_package_json w) as [| |name version] eqn:Hjson.
    1,2: unfold Publish.main in Hmain; by rewrite Hdir, Hjson in Hmain.
    rewrite (publish_main_unfold w name version Hdir Hjson) in Hmain.
    destruct (missing_token w) eqn:Htoken.
    { injection Hmain as <-. split_and!; [done..| |done]. by exists name, version. }
    destruct (publish_platforms_codes w (publish_cmd w) Publish.platforms)
      as (_ & Hnonempty & _).
    destruct (Publish.publish_platforms w (publish_cmd w) Publish.platforms)
      as [r published].
    simpl in Hnonempty.
    destruct r as [[code|]| |]; [| |done..].
    - injection Hmain as _ Hlog. by destruct (Hnonempty code).
    - injection Hmain as _ Hlog. by destruct published. }
  split; [split|].
  - intros [ret (_ & Hdir & Hjson & Htoken)%Hstops].
    unfold missing_token in Htoken.
    apply andb_true_iff in Htoken as [[Hwhoami Hactions]%andb_true_iff Htoken].
    apply bool_decide_eq_true in Hwhoami.
    apply bool_decide_eq_true in Hactions.
    split_and!; [done..|].
    destruct (Publish.getenv w "NODE_AUTH_TOKEN") as [token|]; [|by left].
    right. f_equal. apply negb_true_iff in Htoken.
    destruct (decide (token = "")) as [->|Hne]; [done|].
    apply truthy_spec in Hne. congruence.
  - intros (Hdir & (name & version & Hjson) & Hwhoami & Hactions & Htoken).
    exists 1. rewrite (publish_main_unfold w name version Hdir Hjson).
    unfold missing_token, Publish.is_github_actions.
    rewrite (bool_decide_eq_true_2 _ Hwhoami), (bool_decide_eq_true_2 _ Hactions).
    by destruct Htoken as [->| ->].
  - by intros ret (? & _)%Hstops.
Qed.

(** A platform path that exists but is no directory ends the run with an
    exception, the packages before it published. *)
Example platform_path_is_a_file_run :
  Publish.main platform_path_is_a_file
  = (Raises,
     [ whoami_event platform_path_is_a_file;
       publish_event platform_path_is_a_file
         (Build.path_div Build.npm_packages_dir "win32-x64") ]).
Proof. vm_compute. reflexivity. Qed.

Example stops_after_whoami_run :
  Publish.main (actions_runner 1) = (Ok 1, [whoami_event (actions_runner 1)]).
Proof. vm_compute. reflexivity. Qed.
